(** * posprinter: a shallow embedding of [printpost.py]

    The Python module formats receipt lines and streams them, followed by
    a fixed trailer of ESC/POS control sequences, to a thermal printer
    reached through a USB bulk endpoint or a serial port.

    Conventions of the embedding:
    - a Python [str] is the list of its code points ([pystr]), a [bytes]
      object the list of its octets ([bytes]), both over [Z];
    - a Python [float] is an IEEE 754 binary64 value ([spec_float] with
      precision 53 and maximal exponent 1024);
    - a computation that may raise returns a [result];
    - code that touches the file system, the devices, the network or the
      console is a function of the interpreter state ([State]) under a
      fixed description of the outside world ([Env]). *)

From Stdlib Require Import ZArith List String Ascii Lia Bool.
From Stdlib Require Import QArith Qround DecimalString.
From Stdlib Require Import DecimalPos DecimalZ.
From Stdlib Require Import Floats.SpecFloat.
From stdpp Require Import base option list strings gmap.

Local Open Scope Z_scope.

(** ** Python values *)

Abbreviation pystr := (list Z) (only parsing).
Abbreviation bytes := (list Z) (only parsing).

(** An ASCII literal of the source as a list of code points. *)
Definition str_lit (s : string) : pystr :=
  List.map (fun a => Z.of_N (N_of_ascii a)) (list_ascii_of_string s).

Arguments str_lit : simpl never.

Notation "'py' s" := (str_lit s%string) (at level 1, s at level 0, only parsing).

(** The exception classes the module meets.  All of them derive from
    [Exception], so an [except Exception] clause catches each one. *)
Inductive exn : Type :=
  | FileNotFoundError
  | OSError
  | JSONDecodeError
  | AttributeError
  | TypeError
  | ValueError
  | IndexError
  | OverflowError
  | UnicodeEncodeError
  | UnicodeDecodeError
  | USBError
  | SerialException
  | RequestException
  | UnidentifiedImageError
  | TclError.

Inductive result (A : Type) : Type :=
  | Ok (a : A)
  | Raise (e : exn).
Arguments Ok {A} a.
Arguments Raise {A} e.

Definition res_bind {A B} (r : result A) (f : A -> result B) : result B :=
  match r with
  | Ok a => f a
  | Raise e => Raise e
  end.

Definition res_map {A B} (f : A -> B) (r : result A) : result B :=
  res_bind r (fun a => Ok (f a)).

(** [[f(x) for x in xs]] where [f] may raise. *)
Fixpoint res_mapM {A B} (f : A -> result B) (xs : list A)
  : result (list B) :=
  match xs with
  | [] => Ok []
  | x :: xs' =>
      res_bind (f x) (fun y =>
      res_bind (res_mapM f xs') (fun ys => Ok (y :: ys)))
  end.

(** ** [str.encode('utf-8')] and [bytes.decode()] *)

Definition utf8_encode_char (c : Z) : result bytes :=
  if c <? 0x80 then Ok [c]
  else if c <? 0x800 then
    Ok [Z.lor 0xC0 (Z.shiftr c 6); Z.lor 0x80 (Z.land c 0x3F)]
  else if (0xD800 <=? c) && (c <=? 0xDFFF) then Raise UnicodeEncodeError
  else if c <? 0x10000 then
    Ok [Z.lor 0xE0 (Z.shiftr c 12);
        Z.lor 0x80 (Z.land (Z.shiftr c 6) 0x3F);
        Z.lor 0x80 (Z.land c 0x3F)]
  else
    Ok [Z.lor 0xF0 (Z.shiftr c 18);
        Z.lor 0x80 (Z.land (Z.shiftr c 12) 0x3F);
        Z.lor 0x80 (Z.land (Z.shiftr c 6) 0x3F);
        Z.lor 0x80 (Z.land c 0x3F)].

(** [s.encode('utf-8')]: the first code point that cannot be encoded (a
    lone surrogate) raises. *)
Fixpoint str_encode (s : pystr) : result bytes :=
  match s with
  | [] => Ok []
  | c :: s' =>
      res_bind (utf8_encode_char c) (fun b =>
      res_bind (str_encode s') (fun bs => Ok (b ++ bs)))
  end.

Definition is_cont (b : Z) : bool := (0x80 <=? b) && (b <=? 0xBF).

Definition in_range (lo hi b : Z) : bool := (lo <=? b) && (b <=? hi).

(** [b.decode()], the strict UTF-8 decoder: overlong forms, surrogates,
    values above U+10FFFF and truncated sequences raise. *)
Fixpoint bytes_decode (b : bytes) : result pystr :=
  match b with
  | [] => Ok []
  | b0 :: r0 =>
      if in_range 0 0x7F b0 then
        res_map (cons b0) (bytes_decode r0)
      else if in_range 0xC2 0xDF b0 then
        match r0 with
        | b1 :: r1 =>
            if is_cont b1 then
              res_map (cons (Z.lor (Z.shiftl (Z.land b0 0x1F) 6)
                                   (Z.land b1 0x3F)))
                      (bytes_decode r1)
            else Raise UnicodeDecodeError
        | _ => Raise UnicodeDecodeError
        end
      else if in_range 0xE0 0xEF b0 then
        match r0 with
        | b1 :: b2 :: r2 =>
            let lo := if b0 =? 0xE0 then 0xA0 else 0x80 in
            let hi := if b0 =? 0xED then 0x9F else 0xBF in
            if in_range lo hi b1 && is_cont b2 then
              res_map (cons (Z.lor (Z.shiftl (Z.land b0 0x0F) 12)
                            (Z.lor (Z.shiftl (Z.land b1 0x3F) 6)
                                   (Z.land b2 0x3F))))
                      (bytes_decode r2)
            else Raise UnicodeDecodeError
        | _ => Raise UnicodeDecodeError
        end
      else if in_range 0xF0 0xF4 b0 then
        match r0 with
        | b1 :: b2 :: b3 :: r3 =>
            let lo := if b0 =? 0xF0 then 0x90 else 0x80 in
            let hi := if b0 =? 0xF4 then 0x8F else 0xBF in
            if in_range lo hi b1 && is_cont b2 && is_cont b3 then
              res_map (cons (Z.lor (Z.shiftl (Z.land b0 0x07) 18)
                            (Z.lor (Z.shiftl (Z.land b1 0x3F) 12)
                            (Z.lor (Z.shiftl (Z.land b2 0x3F) 6)
                                   (Z.land b3 0x3F)))))
                      (bytes_decode r3)
            else Raise UnicodeDecodeError
        | _ => Raise UnicodeDecodeError
        end
      else Raise UnicodeDecodeError
  end.

(** ** [str.ljust], [str.rjust], [str.center] (fill character: space) *)

Definition SPACE : Z := 32.

Definition str_len (s : pystr) : Z := Z.of_nat (length s).

(** CPython's [pad]: [left] fill characters, the text, [right] fill
    characters. *)
Definition pad (s : pystr) (left right : Z) : pystr :=
  replicate (Z.to_nat left) SPACE ++ s ++ replicate (Z.to_nat right) SPACE.

Definition str_ljust (s : pystr) (width : Z) : pystr :=
  if str_len s >=? width then s else pad s 0 (width - str_len s).

Definition str_rjust (s : pystr) (width : Z) : pystr :=
  if str_len s >=? width then s else pad s (width - str_len s) 0.

(** CPython rounds the left margin up when both the margin and the width
    are odd: [left = marg / 2 + (marg & width & 1)]. *)
Definition str_center (s : pystr) (width : Z) : pystr :=
  if str_len s >=? width then s
  else
    let marg := width - str_len s in
    let left := marg / 2 + Z.land (Z.land marg width) 1 in
    pad s left (marg - left).

(** [char * length] for a string [char]; a count below one gives the empty
    string. *)
Definition str_repeat (s : pystr) (n : Z) : pystr :=
  mjoin (replicate (Z.to_nat n) s).

(** ** [int] and [float] *)

(** [str(n)] for an [int]. *)
Definition int_str (n : Z) : pystr :=
  str_lit (NilZero.string_of_int (Z.to_int n)).

(** [format(n, '03d')]: sign-aware zero fill to a total width of three. *)
Definition format_03d (n : Z) : pystr :=
  let digits := int_str (Z.abs n) in
  let sign := if n <? 0 then py"-" else [] in
  let fill := 3 - str_len sign - str_len digits in
  sign ++ replicate (Z.to_nat fill) 48 ++ digits.

(** Python's [float] is binary64. *)
Definition prec : Z := 53.
Definition emax : Z := 1024.

Abbreviation float := spec_float (only parsing).

Definition float_mul : float -> float -> float := SFmul prec emax.
Definition float_add : float -> float -> float := SFadd prec emax.

(** [float(n)] for an [int]: round to nearest, ties to even; a magnitude
    beyond the largest double raises. *)
Definition float_of_int (n : Z) : result float :=
  match binary_normalize prec emax n 0 false with
  | S754_infinity _ => Raise OverflowError
  | f => Ok f
  end.

(** The value of a decimal literal [digits]e-[frac] of the source text,
    e.g. [2.50] is [float_literal 250 2].  Both operands of the division
    are exact doubles for the literals of this module, so the quotient is
    the correctly rounded value of the literal. *)
Definition float_literal (digits : Z) (frac : Z) : float :=
  SFdiv prec emax (binary_normalize prec emax digits 0 false)
                  (binary_normalize prec emax (10 ^ frac) 0 false).

(** *** [repr] of a float: the shortest decimal string that reads back as
    the same double, the one nearest to the exact value among those. *)

Definition pow10 (k : Z) : Q :=
  if 0 <=? k then inject_Z (10 ^ k) else Qmake 1 (Z.to_pos (10 ^ (- k))).

Definition pow2 (k : Z) : Q :=
  if 0 <=? k then inject_Z (2 ^ k) else Qmake 1 (Z.to_pos (2 ^ (- k))).

Definition Qlt_bool (a b : Q) : bool := negb (Qle_bool b a).

(** Exact value of the positive finite double [m * 2^e]. *)
Definition float_val (m : positive) (e : Z) : Q :=
  Qmult (inject_Z (Zpos m)) (pow2 e).

(** Midpoints between the double and its two neighbours.  The gap below a
    power of two is half the gap above it. *)
Definition round_lo (m : positive) (e : Z) : Q :=
  if (Zpos m =? 2 ^ 52) && (-1074 <? e)
  then Qmult (inject_Z (4 * Zpos m - 1)) (pow2 (e - 2))
  else Qmult (inject_Z (2 * Zpos m - 1)) (pow2 (e - 1)).

Definition round_hi (m : positive) (e : Z) : Q :=
  Qmult (inject_Z (2 * Zpos m + 1)) (pow2 (e - 1)).

(** Does the rational [q] round to the double [m * 2^e]?  A midpoint
    rounds to the neighbour with the even mantissa. *)
Definition reads_back (m : positive) (e : Z) (q : Q) : bool :=
  if Z.even (Zpos m)
  then Qle_bool (round_lo m e) q && Qle_bool q (round_hi m e)
  else Qlt_bool (round_lo m e) q && Qlt_bool q (round_hi m e).

(** The largest [p' <= p] with [10^p' <= v]. *)
Fixpoint log10_floor (fuel : nat) (p : Z) (v : Q) : Z :=
  match fuel with
  | O => p
  | S fuel' =>
      if Qle_bool (pow10 p) v then p else log10_floor fuel' (p - 1) v
  end.

(** Try [n], [n+1], ... significant digits; return the decimal
    [d * 10^k]. *)
Fixpoint shortest_from (fuel : nat) (m : positive) (e : Z) (p : Z) (n : Z)
  : Z * Z :=
  let v := float_val m e in
  let k := p - (n - 1) in
  let dlo := Qfloor (Qdiv v (pow10 k)) in
  let dhi := dlo + 1 in
  let qlo := Qmult (inject_Z dlo) (pow10 k) in
  let qhi := Qmult (inject_Z dhi) (pow10 k) in
  match fuel with
  | O => (dlo, k)
  | S fuel' =>
      match reads_back m e qlo, reads_back m e qhi with
      | true, true =>
          match Qcompare (Qminus v qlo) (Qminus qhi v) with
          | Lt => (dlo, k)
          | Gt => (dhi, k)
          | Eq => if Z.even dlo then (dlo, k) else (dhi, k)
          end
      | true, false => (dlo, k)
      | false, true => (dhi, k)
      | false, false => shortest_from fuel' m e p (n + 1)
      end
  end.

Fixpoint strip_zeros (fuel : nat) (d k : Z) : Z * Z :=
  match fuel with
  | O => (d, k)
  | S fuel' =>
      if (d mod 10 =? 0) && negb (d =? 0)
      then strip_zeros fuel' (d / 10) (k + 1)
      else (d, k)
  end.

Definition shortest_digits (m : positive) (e : Z) : Z * Z :=
  let p := log10_floor 700 309 (float_val m e) in
  let '(d, k) := shortest_from 17 m e p 1 in
  strip_zeros 20 d k.

Definition zeros (n : Z) : pystr := replicate (Z.to_nat n) 48.

(** [repr] format: exponent notation when the decimal point would fall
    more than three places before or sixteen places after the first
    digit, positional notation (always with a fractional part)
    otherwise. *)
Definition format_repr (d k : Z) : pystr :=
  let digits := int_str d in
  let nd := str_len digits in
  let decpt := nd + k in
  if (decpt <=? -4) || (16 <? decpt) then
    let x := decpt - 1 in
    take 1 digits
      ++ (if 1 <? nd then py"." ++ drop 1 digits else [])
      ++ py"e" ++ (if x <? 0 then py"-" else py"+")
      ++ (if Z.abs x <? 10 then py"0" else []) ++ int_str (Z.abs x)
  else if decpt <=? 0 then
    py"0." ++ zeros (- decpt) ++ digits
  else if nd <=? decpt then
    digits ++ zeros (decpt - nd) ++ py".0"
  else
    take (Z.to_nat decpt) digits ++ py"." ++ drop (Z.to_nat decpt) digits.

(** [str(x)] (equally [repr(x)] and [f"{x}"]) for a float. *)
Definition float_str (x : float) : pystr :=
  match x with
  | S754_zero s => (if s then py"-" else []) ++ py"0.0"
  | S754_infinity s => (if s then py"-" else []) ++ py"inf"
  | S754_nan => py"nan"
  | S754_finite s m e =>
      let '(d, k) := shortest_digits m e in
      (if s then py"-" else []) ++ format_repr d k
  end.

(** ** JSON documents

    What [json.load] returns and [json.dump] accepts.  Python's [None] is
    [JNull]. *)
#[warnings="-register-all"]
Inductive json : Type :=
  | JNull
  | JBool (b : bool)
  | JInt (n : Z)
  | JFloat (x : spec_float)
  | JStr (s : list Z)
  | JArr (l : list json)
  | JObj (m : gmap (list Z) json).

(** Truth value of an object in a condition ([if not printer_config]). *)
Definition truthy (v : json) : bool :=
  match v with
  | JNull => false
  | JBool b => b
  | JInt n => negb (n =? 0)
  | JFloat (S754_zero _) => false
  | JFloat _ => true
  | JStr s => negb (bool_decide (s = []))
  | JArr l => match l with [] => false | _ => true end
  | JObj m => negb (bool_decide (dom m = (∅ : gset (list Z))))
  end.

(** [data.get(key, default)]: only a dict has the method. *)
Definition dict_get (data : json) (key : pystr) (dflt : json)
  : result json :=
  match data with
  | JObj m => Ok (default dflt (m !! key))
  | _ => Raise AttributeError
  end.

(** [v == s] for a string literal [s]. *)
Definition eq_str (v : json) (s : pystr) : bool :=
  match v with
  | JStr t => bool_decide (t = s)
  | _ => false
  end.

(** ** The outside world *)

(** A file that exists either holds a JSON document or cannot be read
    back (no read permission, or a text that is not JSON). *)
Inductive file : Type :=
  | Unreadable
  | Document (v : json).

(** A connected USB device as pyusb presents it.  [interface00] lists the
    [bEndpointAddress] of the endpoints of [cfg[(0, 0)]] in descriptor
    order. *)
Record usb_device : Type := {
  bus : Z;
  address : Z;
  manufacturer : result (option (list Z));
  product : result (option (list Z));
  set_configuration_error : option exn;
  interface00 : result (list Z)
}.

(** The object a print writes to. *)
Inductive transport : Type :=
  | Endpoint (dev : nat) (addr : Z)
  | SerialPort (port : list Z).

(** What reaches the devices, in order. *)
Inductive event : Type :=
  | EvSetConfiguration (dev : nat)
  | EvSerialOpen (port : list Z)
  | EvWrite (t : transport) (data : list Z)
  | EvWriteFailed (t : transport) (data : list Z)
  | EvDisposeResources (dev : nat)
  | EvSerialClose (port : list Z).

(** What reaches the operator: console lines and message boxes. *)
Inductive output : Type :=
  | Print (msg : string)
  | PrintExn (msg : string) (e : exn)
  | PrintInt (msg : string) (n : Z)
  | PrintSize (msg : string) (w h : Z)
  | ShowWarning (title msg : string)
  | ShowError (title msg : string) (e : exn).

(** The collaborators: optional imports, the USB bus, the serial ports,
    the HTTP client, the image decoder, and how writes behave. *)
Record Env : Type := {
  TKINTER_AVAILABLE : bool;
  PILLOW_AVAILABLE : bool;
  USB_AVAILABLE : bool;
  SERIAL_AVAILABLE : bool;
  REQUESTS_AVAILABLE : bool;
  (** [Path(__file__).parent] *)
  DEFAULT_CONFIG_DIR : string;
  (** [open(filename, "w")] *)
  open_w_error : string -> option exn;
  (** [json.dump] failing while it writes (the file is left truncated) *)
  dump_error : string -> option exn;
  (** [usb.core.find(find_all=True)] *)
  usb_core_find : result (list usb_device);
  (** [serial.Serial(port, baudrate=9600, timeout=1)] *)
  serial_open_error : list Z -> option exn;
  (** the [n]-th write to a transport (counted from 0) *)
  write_error : nat -> option exn;
  (** [usb.util.dispose_resources] / [ser.close] *)
  release_error : option exn;
  (** [requests.get(url, timeout=10)]: status code and body *)
  requests_get : list Z -> result (Z * list Z);
  (** [Image.open(BytesIO(content))]: the size of the decoded image *)
  Image_open : list Z -> result (Z * Z);
  (** [messagebox.showwarning] / [messagebox.showerror]: tkinter can be
      imported on a machine without a display, and then raises
      [TclError] when a box is to be shown *)
  messagebox_error : option exn
}.

Record State : Type := {
  fs : gmap string file;
  trace : list event;
  stdout : list output
}.

(** ** Computations: state passing with exceptions *)

Definition M (A : Type) : Type := State -> result A * State.

Definition ret {A} (a : A) : M A := fun st => (Ok a, st).

Definition raise {A} (e : exn) : M A := fun st => (Raise e, st).

Definition bind {A B} (m : M A) (f : A -> M B) : M B :=
  fun st =>
    match m st with
    | (Ok a, st') => f a st'
    | (Raise e, st') => (Raise e, st')
    end.

Definition lift {A} (r : result A) : M A := fun st => (r, st).

Declare Scope py_scope.
Delimit Scope py_scope with pym.
Notation "x <- m ;; k" := (bind m (fun x => k))
  (at level 100, m at next level, right associativity) : py_scope.
Notation "m ;; k" := (bind m (fun _ => k))
  (at level 100, right associativity) : py_scope.
Local Open Scope py_scope.

(** [try: body except Exception as e: handler e]; the effects of the body
    up to the exception stay. *)
Definition try_except {A} (body : M A) (handler : exn -> M A) : M A :=
  fun st =>
    match body st with
    | (Ok a, st') => (Ok a, st')
    | (Raise e, st') => handler e st'
    end.

(** [for x in xs: body x] *)
Fixpoint for_each {A} (xs : list A) (body : A -> M unit) : M unit :=
  match xs with
  | [] => ret tt
  | x :: xs' => body x ;; for_each xs' body
  end.

(** [print(...)]: a line on the console.  Writing to the console is taken
    not to fail; a message box, which can, goes through
    [Printer.messagebox]. *)
Definition emit (o : output) : M unit :=
  fun st => (Ok tt, {| fs := fs st; trace := trace st;
                       stdout := stdout st ++ [o] |}).

Definition record (ev : event) : M unit :=
  fun st => (Ok tt, {| fs := fs st; trace := trace st ++ [ev];
                       stdout := stdout st |}).

Definition set_file (path : string) (f : file) : M unit :=
  fun st => (Ok tt, {| fs := <[path := f]> (fs st); trace := trace st;
                       stdout := stdout st |}).

Definition get_file (path : string) : M (option file) :=
  fun st => (Ok (fs st !! path), st).

Definition is_write (ev : event) : bool :=
  match ev with
  | EvWrite _ _ | EvWriteFailed _ _ => true
  | _ => false
  end.

(** Number of writes attempted so far. *)
Definition writes_so_far : M nat :=
  fun st => (Ok (length (List.filter is_write (trace st))), st).

(** ** [class PrinterConfig] *)

Module PrinterConfig.

Definition DEVICE_CONFIG_FILE (env : Env) : string :=
  (DEFAULT_CONFIG_DIR env ++ "/printer.json")%string.

Definition TYPE_CONFIG_FILE (env : Env) : string :=
  (DEFAULT_CONFIG_DIR env ++ "/type_printer.json")%string.

(** Keys of the [COMMANDS] dictionary whose values are [bytes]. *)
Inductive command : Type :=
  | bold_on | bold_off | large_on | large_off | buzzer | cut | line_feed.

Definition COMMANDS (k : command) : bytes :=
  match k with
  | bold_on => [0x1B; 0x45; 0x01]
  | bold_off => [0x1B; 0x45; 0x00]
  | large_on => [0x1B; 0x21; 0x10]
  | large_off => [0x1B; 0x21; 0x00]
  | buzzer => [0x1B; 0x42; 0x05; 0x07]
  | cut => [0x1D; 0x56; 0x00]
  | line_feed => [0x0A]
  end.

(** The two [str] entries of [COMMANDS]. *)
Definition COMMANDS_holder_line : pystr := str_repeat py"-" 44.
Definition COMMANDS_holder_asterisk : pystr := str_repeat py"*" 44.

End PrinterConfig.

(** ** [class PrinterManager] *)

Module PrinterManager.

(** The dictionaries [get_usb_devices] returns. *)
Record dev_info : Type := {
  index : Z;
  info_bus : Z;
  info_address : Z;
  info_manufacturer : option (list Z);
  info_product : option (list Z);
  description : list Z
}.

(** An optional string inside an f-string: [None] prints as its name. *)
Definition fmt_opt (v : option (list Z)) : pystr :=
  match v with
  | Some s => s
  | None => py"None"
  end.

(** One iteration of the enumeration loop, for the device at position
    [i] (counted from 0).  A pyusb device always has the properties
    [manufacturer] and [product], so [getattr] never falls back on
    ['Unknown']; reading one may raise, and its value may be [None]. *)
Definition describe (i : nat) (dev : usb_device) : result dev_info :=
  res_bind (manufacturer dev) (fun m =>
  res_bind (product dev) (fun p =>
  Ok {| index := Z.of_nat i + 1;
        info_bus := bus dev;
        info_address := address dev;
        info_manufacturer := m;
        info_product := p;
        description :=
          int_str (Z.of_nat i + 1) ++ py". " ++ format_03d (bus dev)
            ++ py"-" ++ format_03d (address dev) ++ py": "
            ++ fmt_opt m ++ py" " ++ fmt_opt p |})).

(** The loop appends to [devices]; what was appended before an
    exception stays in the list. *)
Fixpoint enumerate (i : nat) (usb_devices : list usb_device)
         (devices : list dev_info) : list dev_info * option exn :=
  match usb_devices with
  | [] => (devices, None)
  | dev :: rest =>
      match describe i dev with
      | Ok info => enumerate (S i) rest (devices ++ [info])
      | Raise e => (devices, Some e)
      end
  end.

Section WithEnv.
Context (env : Env).

Definition get_usb_devices : M (list dev_info) :=
  if negb (USB_AVAILABLE env) then
    emit (Print "pyusb not installed. Install with: pip install pyusb") ;;
    ret []
  else
    match usb_core_find env with
    | Raise e => emit (PrintExn "Error detecting USB devices: " e) ;; ret []
    | Ok usb_devices =>
        match enumerate 0 usb_devices [] with
        | (devices, None) => ret devices
        | (devices, Some e) =>
            emit (PrintExn "Error detecting USB devices: " e) ;;
            ret devices
        end
    end.

(** [with open(filename, "w") as file: json.dump(doc, file, indent=2)].
    Opening truncates the file; a failing dump leaves a text that is
    not JSON. *)
Definition write_document (filename : string) (doc : json) : M unit :=
  match open_w_error env filename with
  | Some e => raise e
  | None =>
      match dump_error env filename with
      | Some e => set_file filename Unreadable ;; raise e
      | None => set_file filename (Document doc)
      end
  end.

(** [with open(filename, "r") as file: data = json.load(file)] *)
Definition read_document (filename : string) : M json :=
  f <- get_file filename ;;
  match f with
  | None => raise FileNotFoundError
  | Some Unreadable => raise JSONDecodeError
  | Some (Document v) => ret v
  end.

Definition save_printer_config (printer_config : json)
           (filename : string) : M bool :=
  try_except
    (write_document filename
       (JObj {[ py"printer" := printer_config ]}) ;;
     ret true)
    (fun e => emit (PrintExn "Error saving printer config: " e) ;;
              ret false).

Definition save_printer_type (printer_type : json)
           (filename : string) : M bool :=
  try_except
    (write_document filename
       (JObj {[ py"type_printer" := printer_type ]}) ;;
     ret true)
    (fun e => emit (PrintExn "Error saving printer type: " e) ;;
              ret false).

Definition load_printer_config (filename : string) : M json :=
  try_except
    (data <- read_document filename ;;
     lift (dict_get data py"printer" JNull))
    (fun e =>
       match e with
       | FileNotFoundError => ret JNull
       | _ => emit (PrintExn "Error loading printer config: " e) ;;
              ret JNull
       end).

Definition load_printer_type (filename : string) : M json :=
  try_except
    (data <- read_document filename ;;
     lift (dict_get data py"type_printer" (JStr py"usb")))
    (fun e =>
       match e with
       | FileNotFoundError => ret (JStr py"usb")
       | _ => emit (PrintExn "Error loading printer type: " e) ;;
              ret (JStr py"usb")
       end).

End WithEnv.

End PrinterManager.

(** ** [class PrintFormatter] *)

Module PrintFormatter.
Import PrinterConfig.

Definition bold (text : pystr) : result pystr :=
  res_bind (bytes_decode (COMMANDS bold_on)) (fun on =>
  res_bind (bytes_decode (COMMANDS bold_off)) (fun off =>
  Ok (on ++ text ++ off))).

Definition large (text : pystr) : result pystr :=
  res_bind (bytes_decode (COMMANDS large_on)) (fun on =>
  res_bind (bytes_decode (COMMANDS large_off)) (fun off =>
  Ok (on ++ text ++ off))).

(** The default of [width] is 45. *)
Definition center (text : pystr) (width : Z) : pystr :=
  str_center text width.

Definition left_align (text : pystr) (width : Z) : pystr :=
  str_ljust text width.

Definition right_align (text : pystr) (width : Z) : pystr :=
  str_rjust text width.

(** The defaults are ['-'] and 44. *)
Definition holder_line (char : pystr) (length : Z) : pystr :=
  str_repeat char length.

(** [qty * price] for an [int] and a [float]. *)
Definition int_times_float (qty : Z) (price : float) : result float :=
  res_map (fun q => float_mul q price) (float_of_int qty).

(** The defaults of the four widths are 15, 4, 7 and 10. *)
Definition format_receipt_item (name : pystr) (qty : Z) (price : float)
           (name_width qty_width price_width total_width : Z)
  : result pystr :=
  res_bind (int_times_float qty price) (fun extended_price =>
  Ok (str_ljust name name_width
        ++ str_ljust (int_str qty) qty_width
        ++ str_ljust (float_str price) price_width
        ++ str_rjust (float_str extended_price) total_width)).

End PrintFormatter.

(** ** [class Printer] *)

Module Printer.
Import PrinterConfig PrinterManager.

(** The local variable [device] of [_print_to_usb]: an element of the
    enumeration, the stored value itself, or [None]. *)
Inductive device_ref : Type :=
  | Device (i : nat) (d : usb_device)
  | Stored (v : json)
  | NoDevice.

Definition device_truthy (device : device_ref) : bool :=
  match device with
  | Device _ _ => true
  | Stored v => truthy v
  | NoDevice => false
  end.

(** [s.startswith(tuple('123456789'))] *)
Definition startswith_digit (s : pystr) : bool :=
  match s with
  | c :: _ => (49 <=? c) && (c <=? 57)
  | [] => false
  end.

(** [xs[i]] *)
Definition getitem {A} (xs : list A) (i : Z) : result (nat * A) :=
  let j := if i <? 0 then i + Z.of_nat (length xs) else i in
  if j <? 0 then Raise IndexError
  else match xs !! Z.to_nat j with
       | Some x => Ok (Z.to_nat j, x)
       | None => Raise IndexError
       end.

(** pyusb: [usb.util.endpoint_direction] and [usb.util.ENDPOINT_OUT]. *)
Definition endpoint_direction (addr : Z) : Z := Z.land addr 0x80.
Definition ENDPOINT_OUT : Z := 0x00.

(** The items of the test receipt. *)
Record item : Type := { name : list Z; qty : Z; price : spec_float }.

Definition test_items : list item :=
  [ {| name := py"Item 1"; qty := 2; price := float_literal 1000 2 |};
    {| name := py"Item 2"; qty := 1; price := float_literal 2000 2 |};
    {| name := py"Item 3"; qty := 3; price := float_literal 500 2 |} ].

(** [sum(...)] over floats: the start value is the integer 0, and
    [0 + x] is [float(0) + x]. *)
Definition sum_floats (xs : list float) : float :=
  fold_left float_add xs (S754_zero false).

Definition test_total : result float :=
  res_map sum_floats
    (res_mapM (fun it => PrintFormatter.int_times_float (qty it) (price it))
              test_items).

(** The list [receipt_lines] that [print_test_receipt] builds. *)
Definition test_receipt_lines : result (list pystr) :=
  let rule := str_center (PrintFormatter.holder_line py"-" 44) 45 in
  res_bind (PrintFormatter.bold py"Your Company Name") (fun company =>
  res_bind (PrintFormatter.bold py"Date: 2023-12-31") (fun date =>
  res_bind (res_mapM (fun it =>
              res_map (fun line => str_center line 45)
                (PrintFormatter.format_receipt_item
                   (name it) (qty it) (price it) 15 4 7 10))
            test_items) (fun item_lines =>
  res_bind test_total (fun total =>
  Ok ([ rule;
        str_center company 45;
        str_center py"123 Main St, City" 45;
        str_center py"Phone: 123-456-7890" 45;
        str_center date 45;
        rule;
        str_center py"Item          Qty  Price     Ext Price" 45;
        rule ]
      ++ item_lines
      ++ [ rule;
           str_center (str_ljust py"Total" 10
                         ++ str_rjust (float_str total) 8) 45;
           rule;
           str_center py"Thank you for your business!" 45;
           rule ]))))).

Section WithEnv.
Context (env : Env).

(** [out_endpoint.write(data)] / [ser.write(data)] *)
Definition write (t : transport) (data : bytes) : M unit :=
  n <- writes_so_far ;;
  match write_error env n with
  | Some e => record (EvWriteFailed t data) ;; raise e
  | None => record (EvWrite t data)
  end.

(** [device.set_configuration()] *)
Definition set_configuration (device : device_ref) : M unit :=
  match device with
  | Device i d =>
      match set_configuration_error d with
      | Some e => raise e
      | None => record (EvSetConfiguration i)
      end
  | _ => raise AttributeError
  end.

(** [cfg = device.get_active_configuration(); intf = cfg[(0, 0)]] *)
Definition get_interface (device : device_ref) : M (list Z) :=
  match device with
  | Device _ d => lift (interface00 d)
  | _ => raise AttributeError
  end.

(** [usb.util.dispose_resources(device)] *)
Definition dispose_resources (device : device_ref) : M unit :=
  match device with
  | Device i _ =>
      record (EvDisposeResources i) ;;
      match release_error env with
      | Some e => raise e
      | None => ret tt
      end
  | _ => raise AttributeError
  end.

(** [serial.Serial(port, baudrate=9600, timeout=1)]; pyserial refuses
    a port that is neither a string nor [None].  [None], which would give
    a port that is not open and raises on the first write, is never
    passed: [print_receipt] stops before on a false [printer_config]. *)
Definition serial_Serial (port : json) : M (list Z) :=
  match port with
  | JStr p =>
      match serial_open_error env p with
      | Some e => raise e
      | None => record (EvSerialOpen p) ;; ret p
      end
  | _ => raise ValueError
  end.

(** [ser.close()] *)
Definition serial_close (ser : pystr) : M unit :=
  record (EvSerialClose ser) ;;
  match release_error env with
  | Some e => raise e
  | None => ret tt
  end.

Definition _print_image_from_url (image_url : pystr)
           (output_device : transport) : M bool :=
  if negb (REQUESTS_AVAILABLE env) then
    emit (Print "Image printing requires requests") ;; ret false
  else if negb (PILLOW_AVAILABLE env) then
    emit (Print "Image printing requires Pillow") ;; ret false
  else
    try_except
      (response <- lift (requests_get env image_url) ;;
       if fst response =? 200 then
         size <- lift (Image_open env (snd response)) ;;
         emit (PrintSize "Image loaded: " (fst size) (snd size)) ;;
         ret true
       else
         emit (PrintInt "Failed to download image: " (fst response)) ;;
         ret false)
      (fun e => emit (PrintExn "Image printing error: " e) ;; ret false).

(** The [for dev_info in devices: ... break / else: device = None]
    loop of [_print_to_usb]. *)
Fixpoint find_device (device_info : pystr) (devices : list dev_info)
  : M device_ref :=
  match devices with
  | [] => ret NoDevice
  | dev_info :: rest =>
      if bool_decide (device_info = description dev_info) then
        usb_devices <- lift (usb_core_find env) ;;
        found <- lift (getitem usb_devices (index dev_info - 1)) ;;
        ret (Device (fst found) (snd found))
      else find_device device_info rest
  end.

Definition _print_to_usb (device_info : json) (text_lines : list pystr)
           (logo_url : option pystr) (is_buzzer : bool) : M bool :=
  if negb (USB_AVAILABLE env) then
    emit (Print "USB printing requires pyusb") ;; ret false
  else
    try_except
      (device <-
         match device_info with
         | JStr s =>
             if startswith_digit s then
               devices <- get_usb_devices env ;;
               find_device s devices
             else ret (Stored device_info)
         | _ => ret (Stored device_info)
         end ;;
       if negb (device_truthy device) then
         emit (Print "USB device not found") ;; ret false
       else
         set_configuration device ;;
         intf <- get_interface device ;;
         match List.find (fun e => endpoint_direction e =? ENDPOINT_OUT)
                         intf,
               device with
         | Some addr, Device i _ =>
             let out_endpoint := Endpoint i addr in
             match logo_url with
             | Some url =>
                 if negb (bool_decide (url = [])) then
                   _print_image_from_url url out_endpoint ;; ret tt
                 else ret tt
             | None => ret tt
             end ;;
             for_each text_lines (fun line =>
               data <- lift (str_encode (line ++ [10])) ;;
               write out_endpoint data) ;;
             for_each (seq 0 5) (fun _ =>
               write out_endpoint (COMMANDS line_feed)) ;;
             write out_endpoint (COMMANDS cut) ;;
             write out_endpoint (COMMANDS line_feed) ;;
             (if is_buzzer then write out_endpoint (COMMANDS buzzer)
              else ret tt) ;;
             dispose_resources device ;;
             ret true
         | _, _ =>
             emit (Print "OUT endpoint not found") ;; ret false
         end)
      (fun e => emit (PrintExn "USB printing error: " e) ;; ret false).

Definition _print_to_serial (port : json) (text_lines : list pystr)
           (logo_url : option pystr) (is_buzzer : bool) : M bool :=
  if negb (SERIAL_AVAILABLE env) then
    emit (Print "Serial printing requires pyserial") ;; ret false
  else
    try_except
      (ser <- serial_Serial port ;;
       match logo_url with
       | Some url =>
           if negb (bool_decide (url = [])) then
             _print_image_from_url url (SerialPort ser) ;; ret tt
           else ret tt
       | None => ret tt
       end ;;
       for_each text_lines (fun line =>
         data <- lift (str_encode (line ++ [10])) ;;
         write (SerialPort ser) data) ;;
       for_each (seq 0 5) (fun _ =>
         write (SerialPort ser) (COMMANDS line_feed)) ;;
       write (SerialPort ser) (COMMANDS cut) ;;
       write (SerialPort ser) (COMMANDS line_feed) ;;
       (if is_buzzer then write (SerialPort ser) (COMMANDS buzzer)
        else ret tt) ;;
       serial_close ser ;;
       ret true)
      (fun e => emit (PrintExn "Serial printing error: " e) ;;
                ret false).

Definition print_receipt (receipt_lines : list pystr)
           (logo_url : option pystr) (is_buzzer : bool) : M bool :=
  printer_config <- load_printer_config (DEVICE_CONFIG_FILE env) ;;
  printer_type <- load_printer_type (TYPE_CONFIG_FILE env) ;;
  if negb (truthy printer_config) then
    emit (Print "No printer configured") ;; ret false
  else
    try_except
      (if eq_str printer_type py"serial" then
         _print_to_serial printer_config receipt_lines logo_url is_buzzer
       else
         _print_to_usb printer_config receipt_lines logo_url is_buzzer)
      (fun e => emit (PrintExn "Printing failed: " e) ;; ret false).

(** [messagebox.showwarning(...)] / [messagebox.showerror(...)]: the box
    is shown, or the call raises. *)
Definition messagebox (box : output) : M unit :=
  match messagebox_error env with
  | Some e => raise e
  | None => emit box
  end.

Definition print_test_receipt : M bool :=
  printer_config <- load_printer_config (DEVICE_CONFIG_FILE env) ;;
  printer_type <- load_printer_type (TYPE_CONFIG_FILE env) ;;
  if negb (truthy printer_config) then
    emit (Print "No printer configured. Please select a printer first.") ;;
    (if TKINTER_AVAILABLE env
     then messagebox (ShowWarning "No Printer" "No printer configured.")
     else ret tt) ;;
    ret false
  else
    receipt_lines <- lift test_receipt_lines ;;
    try_except
      (print_receipt receipt_lines None true)
      (fun e =>
         emit (PrintExn "Error printing: " e) ;;
         (if TKINTER_AVAILABLE env
          then messagebox (ShowError "Print Error" "Error printing: " e)
          else ret tt) ;;
         ret false).

End WithEnv.

End Printer.

(** ** Statements about the formatter *)

(** An alignment function [f] pads and never truncates at [text] and [w]:
    the text comes back unchanged when it is at least [w] long, and
    otherwise sits between two runs of spaces in a result of length
    [w]. *)
Definition pads_to (f : list Z -> Z -> list Z) (text : list Z) (w : Z)
  : Prop :=
  (str_len text >= w -> f text w = text) /\
  (str_len text < w ->
     str_len (f text w) = w /\
     exists l r : nat,
       f text w = replicate l SPACE ++ text ++ replicate r SPACE).

(** ** Statements about the receipt printer *)

(** The byte strings the specification expects after the last text
    line, one per write: five line feeds, the cut command, one line feed,
    and the buzzer command when the flag is set. *)
Definition expected_trailer (is_buzzer : bool) : list (list Z) :=
  replicate 5 (PrinterConfig.COMMANDS PrinterConfig.line_feed)
    ++ [PrinterConfig.COMMANDS PrinterConfig.cut;
        PrinterConfig.COMMANDS PrinterConfig.line_feed]
    ++ (if is_buzzer then [PrinterConfig.COMMANDS PrinterConfig.buzzer]
        else []).

(** The bytes of each line as the transport receives them. *)
Definition encoded_lines (lines : list (list Z)) : result (list (list Z)) :=
  res_mapM (fun line => str_encode (line ++ [10])) lines.

(** The events that acquire and release a transport. *)
Definition acquired (t : transport) : event :=
  match t with
  | Endpoint i _ => EvSetConfiguration i
  | SerialPort p => EvSerialOpen p
  end.

Definition released (t : transport) : event :=
  match t with
  | Endpoint i _ => EvDisposeResources i
  | SerialPort p => EvSerialClose p
  end.

(** The statements that [_print_to_usb] and [_print_to_serial] share word
    for word, from the first text line to the buzzer, followed by [k]. *)
Definition stream_then {A} (env : Env) (t : transport)
           (text_lines : list (list Z)) (is_buzzer : bool) (k : M A) : M A :=
  (for_each text_lines (fun line =>
     data <- lift (str_encode (line ++ [10])) ;;
     Printer.write env t data) ;;
   for_each (seq 0 5) (fun _ =>
     Printer.write env t (PrinterConfig.COMMANDS PrinterConfig.line_feed)) ;;
   Printer.write env t (PrinterConfig.COMMANDS PrinterConfig.cut) ;;
   Printer.write env t (PrinterConfig.COMMANDS PrinterConfig.line_feed) ;;
   (if is_buzzer
    then Printer.write env t (PrinterConfig.COMMANDS PrinterConfig.buzzer)
    else ret tt) ;;
   k)%pym.

(** The optional logo step of both paths. *)
Definition logo_step (env : Env) (logo_url : option (list Z))
           (t : transport) : M unit :=
  match logo_url with
  | Some url =>
      if negb (bool_decide (url = [])) then
        (Printer._print_image_from_url env url t ;; ret tt)%pym
      else ret tt
  | None => ret tt
  end.

(** The fetch or the decoding of the logo at [url] fails: a collaborator
    is not installed, the request raises, the status is not 200, or the
    decoder raises. *)
Definition logo_fails (env : Env) (url : list Z) : Prop :=
  REQUESTS_AVAILABLE env = false \/
  PILLOW_AVAILABLE env = false \/
  (exists e, requests_get env url = Raise e) \/
  (exists status content,
     requests_get env url = Ok (status, content) /\ status <> 200) \/
  (exists content e,
     requests_get env url = Ok (200, content) /\
     Image_open env content = Raise e).

(** Two states with the same files and the same device trace; they may
    differ in what was printed on the console. *)
Definition same_world (s1 s2 : State) : Prop :=
  fs s1 = fs s2 /\ trace s1 = trace s2.

(** Two computations that, from states of the same world, give the same
    result and end in states of the same world. *)
Definition sim {A} (m1 m2 : M A) : Prop :=
  forall s1 s2, same_world s1 s2 ->
    fst (m1 s1) = fst (m2 s2) /\ same_world (snd (m1 s1)) (snd (m2 s2)).

(** An event that releases a transport. *)
Definition is_release (ev : event) : bool :=
  match ev with
  | EvDisposeResources _ | EvSerialClose _ => true
  | _ => false
  end.

(** A computation that never releases a transport, however it ends. *)
Definition quiet {A} (m : M A) : Prop :=
  forall st r st', m st = (r, st') ->
    exists evs, trace st' = trace st ++ evs /\
                Forall (fun ev => is_release ev = false) evs.

(** A computation that releases a transport only if it returns [True]. *)
Definition releases_only_on_success (m : M bool) : Prop :=
  forall st r st', m st = (r, st') ->
    r = Ok true \/
    exists evs, trace st' = trace st ++ evs /\
                Forall (fun ev => is_release ev = false) evs.

(** ** Sample worlds

    Concrete collaborators and stored configurations on which the
    statements below are exercised. *)

Module Sample.

(** A receipt printer on bus 1, address 4, with one IN and one OUT bulk
    endpoint. *)
Definition printer : usb_device :=
  {| bus := 1;
     address := 4;
     manufacturer := Ok (Some py"ACME");
     product := Ok (Some py"TM-20");
     set_configuration_error := None;
     interface00 := Ok [0x81; 0x02] |}.

(** Every optional import present, devices that accept every write, and a
    network that is down. *)
Definition env : Env :=
  {| TKINTER_AVAILABLE := false;
     PILLOW_AVAILABLE := true;
     USB_AVAILABLE := true;
     SERIAL_AVAILABLE := true;
     REQUESTS_AVAILABLE := true;
     DEFAULT_CONFIG_DIR := "/opt/pos";
     open_w_error := fun _ => None;
     dump_error := fun _ => None;
     usb_core_find := Ok [printer];
     serial_open_error := fun _ => None;
     write_error := fun _ => None;
     release_error := None;
     requests_get := fun _ => Raise RequestException;
     Image_open := fun _ => Raise UnidentifiedImageError;
     messagebox_error := None |}.

(** The same world, except that the second write to a transport times
    out. *)
Definition env_write_fails : Env :=
  {| TKINTER_AVAILABLE := false;
     PILLOW_AVAILABLE := true;
     USB_AVAILABLE := true;
     SERIAL_AVAILABLE := true;
     REQUESTS_AVAILABLE := true;
     DEFAULT_CONFIG_DIR := "/opt/pos";
     open_w_error := fun _ => None;
     dump_error := fun _ => None;
     usb_core_find := Ok [printer];
     serial_open_error := fun _ => None;
     write_error := fun n => if (n =? 1)%nat then Some OSError else None;
     release_error := None;
     requests_get := fun _ => Raise RequestException;
     Image_open := fun _ => Raise UnidentifiedImageError;
     messagebox_error := None |}.

Definition configured (identifier kind : json) : State :=
  {| fs := <[ PrinterConfig.DEVICE_CONFIG_FILE env :=
                Document (JObj {[ py"printer" := identifier ]}) ]>
           (<[ PrinterConfig.TYPE_CONFIG_FILE env :=
                 Document (JObj {[ py"type_printer" := kind ]}) ]> ∅);
     trace := [];
     stdout := [] |}.

(** Nothing saved yet. *)
Definition fresh : State := {| fs := ∅; trace := []; stdout := [] |}.

Definition serial_configured : State :=
  configured (JStr py"/dev/ttyUSB0") (JStr py"serial").

Definition usb_configured : State :=
  configured (JStr py"1. 001-004: ACME TM-20") (JStr py"usb").

(** A transport kind outside of "usb" and "serial". *)
Definition bluetooth_configured : State :=
  configured (JStr py"1. 001-004: ACME TM-20") (JStr py"bluetooth").

End Sample.

(** ** Statements about the USB enumeration *)

(** The entries of [devices] describe, in order, the devices of the bus
    from position [off] on. *)
Definition aligned_from (env : Env) (off : nat)
           (devices : list PrinterManager.dev_info) : Prop :=
  forall k info, devices !! k = Some info ->
    exists l dev,
      usb_core_find env = Ok l /\ l !! (off + k)%nat = Some dev /\
      PrinterManager.describe (off + k) dev = Ok info.

(** Every entry of [devices] sits at the position of the device it
    describes. *)
Definition aligned (env : Env) (devices : list PrinterManager.dev_info)
  : Prop :=
  forall k info, devices !! k = Some info ->
    exists l dev,
      usb_core_find env = Ok l /\ l !! k = Some dev /\
      PrinterManager.describe k dev = Ok info.

(** ** Statements about failed writes *)

Definition is_failed_write (ev : event) : bool :=
  match ev with
  | EvWriteFailed _ _ => true
  | _ => false
  end.

(** No write of [evs] failed. *)
Definition no_failed_write (evs : list event) : Prop :=
  Forall (fun ev => is_failed_write ev = false) evs.

(** At most one write of [evs] failed, and nothing follows it. *)
Definition failed_write_is_last (evs : list event) : Prop :=
  exists a b,
    evs = a ++ b /\ no_failed_write a /\
    (b = [] \/ exists t data, b = [EvWriteFailed t data]).

(** A computation that raises as soon as one of its writes fails: when it
    returns, no write failed; when it raises, a failed write is the last
    thing it did to a device. *)
Definition stops_at_failed_write {A} (m : M A) : Prop :=
  forall st r st', m st = (r, st') ->
    exists evs,
      trace st' = trace st ++ evs /\
      match r with
      | Ok _ => no_failed_write evs
      | Raise _ => failed_write_is_last evs
      end.

(** A printing function that gives up at the first failed write: a
    failed write is the last thing it does to a device, and it does not
    return [True] after one. *)
Definition gives_up_at_failed_write (m : M bool) : Prop :=
  forall st r st', m st = (r, st') ->
    exists evs,
      trace st' = trace st ++ evs /\
      failed_write_is_last evs /\
      (r = Ok true -> no_failed_write evs).

(** ** More sample worlds *)

Module Scenario.

(** A bar code reader: both endpoints of its interface are IN
    endpoints. *)
Definition reader : usb_device :=
  {| bus := 1;
     address := 7;
     manufacturer := Ok (Some py"ACME");
     product := Ok None;
     set_configuration_error := None;
     interface00 := Ok [0x81; 0x83] |}.

(** A device whose string descriptors cannot be read. *)
Definition mute : usb_device :=
  {| bus := 2;
     address := 1;
     manufacturer := Raise ValueError;
     product := Raise ValueError;
     set_configuration_error := None;
     interface00 := Ok [0x01] |}.

(** [env] with another USB bus. *)
Definition with_bus (env : Env) (found : result (list usb_device)) : Env :=
  {| TKINTER_AVAILABLE := TKINTER_AVAILABLE env;
     PILLOW_AVAILABLE := PILLOW_AVAILABLE env;
     USB_AVAILABLE := USB_AVAILABLE env;
     SERIAL_AVAILABLE := SERIAL_AVAILABLE env;
     REQUESTS_AVAILABLE := REQUESTS_AVAILABLE env;
     DEFAULT_CONFIG_DIR := DEFAULT_CONFIG_DIR env;
     open_w_error := open_w_error env;
     dump_error := dump_error env;
     usb_core_find := found;
     serial_open_error := serial_open_error env;
     write_error := write_error env;
     release_error := release_error env;
     requests_get := requests_get env;
     Image_open := Image_open env;
     messagebox_error := messagebox_error env |}.

(** [env] with a disk on which opening or writing a file may fail. *)
Definition with_disk (env : Env) (open_w dump : string -> option exn) : Env :=
  {| TKINTER_AVAILABLE := TKINTER_AVAILABLE env;
     PILLOW_AVAILABLE := PILLOW_AVAILABLE env;
     USB_AVAILABLE := USB_AVAILABLE env;
     SERIAL_AVAILABLE := SERIAL_AVAILABLE env;
     REQUESTS_AVAILABLE := REQUESTS_AVAILABLE env;
     DEFAULT_CONFIG_DIR := DEFAULT_CONFIG_DIR env;
     open_w_error := open_w;
     dump_error := dump;
     usb_core_find := usb_core_find env;
     serial_open_error := serial_open_error env;
     write_error := write_error env;
     release_error := release_error env;
     requests_get := requests_get env;
     Image_open := Image_open env;
     messagebox_error := messagebox_error env |}.

(** [env] with a web server and an image decoder. *)
Definition with_web (env : Env) (get : list Z -> result (Z * list Z))
           (decode : list Z -> result (Z * Z)) : Env :=
  {| TKINTER_AVAILABLE := TKINTER_AVAILABLE env;
     PILLOW_AVAILABLE := PILLOW_AVAILABLE env;
     USB_AVAILABLE := USB_AVAILABLE env;
     SERIAL_AVAILABLE := SERIAL_AVAILABLE env;
     REQUESTS_AVAILABLE := REQUESTS_AVAILABLE env;
     DEFAULT_CONFIG_DIR := DEFAULT_CONFIG_DIR env;
     open_w_error := open_w_error env;
     dump_error := dump_error env;
     usb_core_find := usb_core_find env;
     serial_open_error := serial_open_error env;
     write_error := write_error env;
     release_error := release_error env;
     requests_get := get;
     Image_open := decode;
     messagebox_error := messagebox_error env |}.

(** [env] on a desktop: tkinter is imported, and showing a message box
    may fail. *)
Definition with_desktop (env : Env) (box : option exn) : Env :=
  {| TKINTER_AVAILABLE := true;
     PILLOW_AVAILABLE := PILLOW_AVAILABLE env;
     USB_AVAILABLE := USB_AVAILABLE env;
     SERIAL_AVAILABLE := SERIAL_AVAILABLE env;
     REQUESTS_AVAILABLE := REQUESTS_AVAILABLE env;
     DEFAULT_CONFIG_DIR := DEFAULT_CONFIG_DIR env;
     open_w_error := open_w_error env;
     dump_error := dump_error env;
     usb_core_find := usb_core_find env;
     serial_open_error := serial_open_error env;
     write_error := write_error env;
     release_error := release_error env;
     requests_get := requests_get env;
     Image_open := Image_open env;
     messagebox_error := box |}.

(** A disk that fills up while a document is written. *)
Definition disk_full : Env :=
  with_disk Sample.env (fun _ => None) (fun _ => Some OSError).

(** A read-only directory. *)
Definition read_only : Env :=
  with_disk Sample.env (fun _ => Some OSError) (fun _ => None).

(** The reader is the only device on the bus. *)
Definition reader_only : Env := with_bus Sample.env (Ok [reader]).

(** A logo of 384 by 128 pixels is served. *)
Definition logo_served : Env :=
  with_web Sample.env (fun _ => Ok (200, [137; 80; 78; 71]))
           (fun _ => Ok (384, 128)).

(** tkinter is installed, but there is no display to show a box on. *)
Definition no_display : Env := with_desktop Sample.env (Some TclError).

End Scenario.

(** ** Statements about descriptions *)

(** A code point between ['0'] and ['9']. *)
Definition is_digit (c : Z) : Prop := 48 <= c <= 57.

(** ** The command line: [get_serial_ports] and [cli_interface] *)

(** The collaborators of the command line that [Env] leaves out. *)
Record Host : Type := {
  (** [[port.device for port in serial.tools.list_ports.comports()]] *)
  comports : result (list (list Z));
  (** the builtin [int] applied to a string *)
  int_of_str : list Z -> result Z;
  (** what [parser.print_help()] writes *)
  help_text : string
}.

Module Cli.
Import PrinterConfig PrinterManager Printer.

(** The values of [--type] that argparse lets through. *)
Inductive list_type : Type := list_usb | list_serial | list_all.
Inductive config_type : Type := config_usb | config_serial.

(** The namespace [parser.parse_args()] returns.  argparse has stopped
    the program on any other command or type, on [config] without
    [--type] and on [print] without a word. *)
Inductive args : Type :=
  | no_command
  | cmd_list (type : list_type)
  | cmd_config (type : config_type) (device : option (list Z))
  | cmd_test
  | cmd_print (text : list (list Z)).

Definition NL : string := String (ascii_of_nat 10) EmptyString.

(** The octets of a text as they appear on the console. *)
Definition console_text (b : bytes) : string :=
  string_of_list_ascii (List.map (fun z => ascii_of_N (Z.to_N z)) b).

(** [print(s)] for a computed string, on a console whose encoding is
    UTF-8: a string with a lone surrogate raises. *)
Definition print_str (s : pystr) : M unit :=
  match str_encode s with
  | Ok b => emit (Print (console_text b))
  | Raise e => raise e
  end.

(** [s.split('.')[0]] *)
Fixpoint before_dot (s : pystr) : pystr :=
  match s with
  | [] => []
  | c :: s' => if c =? 46 then [] else c :: before_dot s'
  end.

(** [sep.join(xs)] *)
Fixpoint str_join (sep : pystr) (xs : list pystr) : pystr :=
  match xs with
  | [] => []
  | [x] => x
  | x :: xs' => x ++ sep ++ str_join sep xs'
  end.

(** [for i, x in enumerate(xs, i): body i x] *)
Fixpoint for_each_indexed {A} (i : Z) (xs : list A) (body : Z -> A -> M unit)
  : M unit :=
  match xs with
  | [] => ret tt
  | x :: xs' => body i x ;; for_each_indexed (i + 1) xs' body
  end.

Section WithHost.
Context (host : Host) (env : Env).

(** [PrinterManager.get_serial_ports] *)
Definition get_serial_ports : M (list pystr) :=
  if negb (SERIAL_AVAILABLE env) then
    emit (Print "pyserial not installed. Install with: pip install pyserial") ;;
    ret []
  else
    match comports host with
    | Ok ports => ret ports
    | Raise e => emit (PrintExn "Error detecting serial ports: " e) ;; ret []
    end.

(** The branch [config --type usb]. *)
Definition config_usb_command (device : option pystr) : M unit :=
  devices <- get_usb_devices env ;;
  match devices with
  | [] => emit (Print "No USB devices found")
  | _ =>
      emit (Print "Available USB devices:") ;;
      for_each devices (fun dev => print_str (py"  " ++ description dev)) ;;
      match device with
      | Some (c :: d) =>
          try_except
            (n <- lift (int_of_str host (before_dot (c :: d))) ;;
             let index := n - 1 in
             if (0 <=? index) && (index <? Z.of_nat (length devices)) then
               found <- lift (getitem devices index) ;;
               let selected := description (snd found) in
               save_printer_config env (JStr selected)
                 (DEVICE_CONFIG_FILE env) ;;
               save_printer_type env (JStr py"usb") (TYPE_CONFIG_FILE env) ;;
               print_str (py"Configured: " ++ selected)
             else emit (Print "Invalid device index"))
            (fun _ =>
               emit (Print "Invalid device format. Use format like '1. ...'"))
      | _ => emit (Print (NL ++ "Specify device with --device '1. ...'"))
      end
  end.

(** The branch [config --type serial]. *)
Definition config_serial_command (device : option pystr) : M unit :=
  ports <- get_serial_ports ;;
  match ports with
  | [] => emit (Print "No serial ports found")
  | _ =>
      emit (Print "Available serial ports:") ;;
      for_each_indexed 1 ports (fun i port =>
        print_str (py"  " ++ int_str i ++ py". " ++ port)) ;;
      match device with
      | Some (c :: d) =>
          if bool_decide ((c :: d) ∈ ports) then
            save_printer_config env (JStr (c :: d))
              (DEVICE_CONFIG_FILE env) ;;
            save_printer_type env (JStr py"serial") (TYPE_CONFIG_FILE env) ;;
            print_str (py"Configured: " ++ c :: d)
          else
            emit (Print "Invalid port. Available ports:") ;;
            for_each ports (fun port => print_str (py"  " ++ port))
      | _ =>
          emit (Print (NL ++ "Specify port with --device COM3 (or /dev/ttyUSB0)"))
      end
  end.

Definition cli_interface (a : args) : M unit :=
  match a with
  | cmd_list type =>
      match type with
      | list_usb | list_all =>
          emit (Print "USB Devices:") ;;
          devices <- get_usb_devices env ;;
          for_each devices (fun dev => print_str (py"  " ++ description dev))
      | list_serial => ret tt
      end ;;
      match type with
      | list_serial | list_all =>
          emit (Print (NL ++ "Serial Ports:")) ;;
          ports <- get_serial_ports ;;
          for_each ports (fun port => print_str (py"  " ++ port))
      | list_usb => ret tt
      end
  | cmd_config config_usb device => config_usb_command device
  | cmd_config config_serial device => config_serial_command device
  | cmd_test =>
      emit (Print "Printing test receipt...") ;;
      success <- print_test_receipt env ;;
      if success : bool then emit (Print "Test receipt printed successfully")
      else emit (Print "Failed to print test receipt")
  | cmd_print text =>
      success <- print_receipt env [str_join py" " text] None true ;;
      if success : bool then emit (Print "Text printed successfully")
      else emit (Print "Failed to print text")
  | no_command => emit (Print (help_text host))
  end.

End WithHost.

End Cli.

(** ** Statements about the command line *)

(** A text the console can show. *)
Definition printable (s : list Z) : Prop := exists b, str_encode s = Ok b.

(** A computation that changes neither the store nor the device trace,
    however it ends. *)
Definition inert {A} (m : M A) : Prop :=
  forall st, same_world (snd (m st)) st.

(** A host with two serial ports and an [int] that reads one decimal
    digit. *)
Definition sample_host : Host :=
  {| comports := Ok [py"/dev/ttyUSB0"; py"/dev/ttyS0"];
     int_of_str := fun s =>
       match s with
       | [c] => if (48 <=? c) && (c <=? 57) then Ok (c - 48)
                else Raise ValueError
       | _ => Raise ValueError
       end;
     help_text := "usage: printpost.py [-h] {list,config,test,print} ..." |}.

(** The entry [get_usb_devices] returns for the sample printer. *)
Definition sample_entry : PrinterManager.dev_info :=
  {| PrinterManager.index := 1;
     PrinterManager.info_bus := 1;
     PrinterManager.info_address := 4;
     PrinterManager.info_manufacturer := Some py"ACME";
     PrinterManager.info_product := Some py"TM-20";
     PrinterManager.description := py"1. 001-004: ACME TM-20" |}.

(** ** Statements about a transport that works *)

(** The stored identifier is a serial port that opens. *)
Definition serial_ready (env : Env) (cfg : json) (t : transport) : Prop :=
  SERIAL_AVAILABLE env = true /\
  exists port,
    cfg = JStr port /\ serial_open_error env port = None /\
    t = SerialPort port.

(** The stored identifier is the description of the device at position
    [i] of the bus: the bus can be listed up to that device, the device
    accepts its configuration, and [addr] is the first OUT endpoint of
    its interface. *)
Definition usb_ready (env : Env) (cfg : json) (t : transport) : Prop :=
  USB_AVAILABLE env = true /\
  exists (s : list Z) (l : list usb_device) (i : nat) (dev : usb_device)
         (info : PrinterManager.dev_info) (intf : list Z) (addr : Z),
    cfg = JStr s /\
    Printer.startswith_digit s = true /\
    usb_core_find env = Ok l /\
    l !! i = Some dev /\
    (forall j dev', (j < i)%nat -> l !! j = Some dev' ->
       exists info', PrinterManager.describe j dev' = Ok info') /\
    PrinterManager.describe i dev = Ok info /\
    PrinterManager.description info = s /\
    set_configuration_error dev = None /\
    interface00 dev = Ok intf /\
    List.find (fun e => Printer.endpoint_direction e =? Printer.ENDPOINT_OUT)
              intf = Some addr /\
    t = Endpoint i addr.

(** The transport [t] that the stored identifier and kind name is there
    and works: it can be acquired, it accepts every write, and it can be
    released. *)
Definition transport_ready (env : Env) (cfg kind : json) (t : transport)
  : Prop :=
  (forall n, write_error env n = None) /\
  release_error env = None /\
  if eq_str kind (str_lit "serial") then serial_ready env cfg t
  else usb_ready env cfg t.

(** * Properties *)

(** ** Line formatter *)

Section Justify.
Implicit Types (text : list Z) (w : Z).

Lemma str_len_app text s : str_len (text ++ s) = str_len text + str_len s.
Proof. unfold str_len. rewrite length_app. lia. Qed.

Lemma str_len_replicate (n : nat) (c : Z) :
  str_len (replicate n c) = Z.of_nat n.
Proof. unfold str_len. now rewrite length_replicate. Qed.

Lemma str_len_pad text (l r : Z) :
  0 <= l -> 0 <= r -> str_len (pad text l r) = l + str_len text + r.
Proof.
  intros Hl Hr. unfold pad.
  rewrite !str_len_app, !str_len_replicate. lia.
Qed.

(** The left margin [str.center] computes lies between 0 and the whole
    margin. *)
Lemma center_margin_bounds (marg w : Z) :
  0 < marg ->
  0 <= marg / 2 + Z.land (Z.land marg w) 1 <= marg.
Proof.
  intros Hm.
  change 1 with (Z.ones 1) at 1 2.
  rewrite Z.land_ones by lia.
  change (2 ^ 1) with 2.
  pose proof (Z.mod_pos_bound (Z.land marg w) 2 ltac:(lia)) as Hb.
  pose proof (Z.div_mod marg 2 ltac:(lia)) as Hd.
  pose proof (Z.mod_pos_bound marg 2 ltac:(lia)) as Hr.
  destruct (Z.eq_dec marg 1) as [-> | Hne].
  - change (1 / 2) with 0. lia.
  - assert (1 <= marg / 2) by (apply Z.div_le_lower_bound; lia). lia.
Qed.

Lemma ljust_pads text w : pads_to str_ljust text w.
Proof.
  unfold pads_to, str_ljust. split; intros H.
  - destruct (Z.geb_spec (str_len text) w); [done | lia].
  - destruct (Z.geb_spec (str_len text) w); [lia |]. split.
    + rewrite str_len_pad; lia.
    + exists 0%nat, (Z.to_nat (w - str_len text)). reflexivity.
Qed.

Lemma rjust_pads text w : pads_to str_rjust text w.
Proof.
  unfold pads_to, str_rjust. split; intros H.
  - destruct (Z.geb_spec (str_len text) w); [done | lia].
  - destruct (Z.geb_spec (str_len text) w); [lia |]. split.
    + rewrite str_len_pad; lia.
    + exists (Z.to_nat (w - str_len text)), 0%nat. reflexivity.
Qed.

Lemma center_pads text w : pads_to str_center text w.
Proof.
  unfold pads_to, str_center. split; intros H.
  - destruct (Z.geb_spec (str_len text) w); [done | lia].
  - destruct (Z.geb_spec (str_len text) w); [lia |].
    pose proof (center_margin_bounds (w - str_len text) w ltac:(lia)) as Hb.
    cbv zeta. split.
    + rewrite str_len_pad; lia.
    + eexists _, _. reflexivity.
Qed.

End Justify.

(** C4.  For every text and every width, [center], [left_align] and
    [right_align] return the text unchanged when it is at least as long as
    the width; when it is shorter, the result has exactly the requested
    length and is the text between two runs of spaces, so the text occurs
    in it as a contiguous substring and nothing is cut off. *)
Theorem align_pads_never_truncates (text : list Z) (w : Z) :
  pads_to PrintFormatter.center text w /\
  pads_to PrintFormatter.left_align text w /\
  pads_to PrintFormatter.right_align text w.
Proof.
  unfold PrintFormatter.center, PrintFormatter.left_align,
    PrintFormatter.right_align.
  auto using center_pads, ljust_pads, rjust_pads.
Qed.

(** The three functions on a two-character text: at width 5 (padding) and
    at width 2 (unchanged). *)
Lemma align_pads_never_truncates_witness :
  (str_len py"ab" < 5 /\
   str_len (PrintFormatter.center py"ab" 5) = 5 /\
   str_len (PrintFormatter.left_align py"ab" 5) = 5 /\
   str_len (PrintFormatter.right_align py"ab" 5) = 5) /\
  (str_len py"ab" >= 2 /\ PrintFormatter.center py"ab" 2 = py"ab").
Proof.
  destruct (align_pads_never_truncates py"ab" 5) as [[_ Hc] [[_ Hl] [_ Hr]]].
  destruct (align_pads_never_truncates py"ab" 2) as [[Hu _] _].
  assert (H5 : str_len py"ab" < 5) by (vm_compute; reflexivity).
  assert (H2 : str_len py"ab" >= 2) by (vm_compute; discriminate).
  split; [split; [exact H5 | ] | split; [exact H2 | exact (Hu H2)]].
  split; [exact (proj1 (Hc H5)) | split];
    [exact (proj1 (Hl H5)) | exact (proj1 (Hr H5))].
Defined.

(** C7.  [format_receipt_item("Widget", 3, 2.50)] with the default widths
    15, 4, 7 and 10 is a line of 36 characters; its first 15 characters
    are "Widget" left-justified (followed by nine spaces), and its last 10
    are "7.5", the plain [str] of the float [3 * 2.5], right-justified
    (preceded by seven spaces). *)
Theorem format_receipt_item_widget :
  exists line : list Z,
    PrintFormatter.format_receipt_item
      py"Widget" 3 (float_literal 250 2) 15 4 7 10 = Ok line /\
    str_len line = 15 + 4 + 7 + 10 /\
    line = py"Widget         3   2.5           7.5" /\
    take 15 line = str_ljust py"Widget" 15 /\
    take 15 line = py"Widget" ++ replicate 9 SPACE /\
    drop 26 line = str_rjust py"7.5" 10 /\
    drop 26 line = replicate 7 SPACE ++ py"7.5" /\
    res_map float_str
      (PrintFormatter.int_times_float 3 (float_literal 250 2)) = Ok py"7.5".
Proof.
  eexists. split; [vm_compute; reflexivity |].
  repeat split; vm_compute; reflexivity.
Qed.

(** ** Control bytes inside text *)

Lemma str_encode_app (s t : list Z) :
  str_encode (s ++ t) =
  res_bind (str_encode s) (fun a =>
  res_bind (str_encode t) (fun b => Ok (a ++ b))).
Proof.
  induction s as [| c s IH]; simpl.
  - destruct (str_encode t); reflexivity.
  - destruct (utf8_encode_char c) as [bc |]; simpl; [| reflexivity].
    rewrite IH.
    destruct (str_encode s) as [bs |]; simpl; [| reflexivity].
    destruct (str_encode t) as [bt |]; simpl; [| reflexivity].
    now rewrite app_assoc.
Qed.

(** Wrapping a text between two runs of code points whose encodings are
    [on] and [off] wraps its encoding between [on] and [off]. *)
Lemma str_encode_wrap (pre post text : list Z) (on off : list Z) :
  str_encode pre = Ok on ->
  str_encode post = Ok off ->
  str_encode (pre ++ text ++ post) =
  res_map (fun b => on ++ b ++ off) (str_encode text).
Proof.
  intros Hpre Hpost.
  rewrite !str_encode_app, Hpre, Hpost. simpl.
  destruct (str_encode text); reflexivity.
Qed.

(** C8.  For every text, encoding [bold(text)] (and [large(text)]) to
    UTF-8, as the transport does before it writes a line, gives the
    bold-on (large-on) command bytes, the encoding of the text, and the
    bold-off (large-off) command bytes; when the text itself cannot be
    encoded, both sides raise.  With the newline the transport appends,
    the line feed byte follows the closing command. *)
Theorem wrapped_control_bytes_survive_encoding (text : list Z) :
  let wire (on off : PrinterConfig.command) (b : list Z) :=
    PrinterConfig.COMMANDS on ++ b ++ PrinterConfig.COMMANDS off in
  res_bind (PrintFormatter.bold text) str_encode =
    res_map (wire PrinterConfig.bold_on PrinterConfig.bold_off)
            (str_encode text) /\
  res_bind (PrintFormatter.large text) str_encode =
    res_map (wire PrinterConfig.large_on PrinterConfig.large_off)
            (str_encode text) /\
  res_bind (PrintFormatter.bold text) (fun s => str_encode (s ++ [10])) =
    res_map (fun b => wire PrinterConfig.bold_on PrinterConfig.bold_off b
                        ++ PrinterConfig.COMMANDS PrinterConfig.line_feed)
            (str_encode text) /\
  res_bind (PrintFormatter.large text) (fun s => str_encode (s ++ [10])) =
    res_map (fun b => wire PrinterConfig.large_on PrinterConfig.large_off b
                        ++ PrinterConfig.COMMANDS PrinterConfig.line_feed)
            (str_encode text).
Proof.
  intros wire. unfold wire, PrintFormatter.bold, PrintFormatter.large.
  cbn [PrinterConfig.COMMANDS].
  change (bytes_decode [0x1B; 0x45; 0x01]) with (Ok [0x1B; 0x45; 0x01]).
  change (bytes_decode [0x1B; 0x45; 0x00]) with (Ok [0x1B; 0x45; 0x00]).
  change (bytes_decode [0x1B; 0x21; 0x10]) with (Ok [0x1B; 0x21; 0x10]).
  change (bytes_decode [0x1B; 0x21; 0x00]) with (Ok [0x1B; 0x21; 0x00]).
  cbn [res_bind].
  repeat split.
  - now apply str_encode_wrap.
  - now apply str_encode_wrap.
  - rewrite str_encode_app.
    rewrite (str_encode_wrap _ _ text [0x1B; 0x45; 0x01] [0x1B; 0x45; 0x00])
      by reflexivity.
    destruct (str_encode text); reflexivity.
  - rewrite str_encode_app.
    rewrite (str_encode_wrap _ _ text [0x1B; 0x21; 0x10] [0x1B; 0x21; 0x00])
      by reflexivity.
    destruct (str_encode text); reflexivity.
Qed.

(** ** Computations: basic facts *)

Lemma same_world_refl s : same_world s s.
Proof. split; reflexivity. Qed.

Lemma same_world_trans s1 s2 s3 :
  same_world s1 s2 -> same_world s2 s3 -> same_world s1 s3.
Proof. intros [? ?] [? ?]; split; congruence. Qed.

Lemma bind_ok_inv {A B} (m : M A) (f : A -> M B) st b st' :
  bind m f st = (Ok b, st') ->
  exists a st1, m st = (Ok a, st1) /\ f a st1 = (Ok b, st').
Proof.
  unfold bind. destruct (m st) as [[a | e] st1]; intros H.
  - eauto.
  - discriminate.
Qed.

Lemma try_except_ok_inv {A} (body : M A) (handler : exn -> M A) st a st' :
  try_except body handler st = (Ok a, st') ->
  body st = (Ok a, st') \/
  exists e st1, body st = (Raise e, st1) /\ handler e st1 = (Ok a, st').
Proof.
  unfold try_except. destruct (body st) as [[a0 | e] st1]; intros H.
  - left. exact H.
  - right. eauto.
Qed.

(** A handler that only reports and returns a value makes the whole
    [try] statement return. *)
Lemma try_except_returns {A} (body : M A) (handler : exn -> M A) st :
  (forall e s, exists a s', handler e s = (Ok a, s')) ->
  exists a st', try_except body handler st = (Ok a, st').
Proof.
  intros Hh. unfold try_except.
  destruct (body st) as [[a | e] st1]; eauto.
Qed.

(** Around a body that returns, [try] changes nothing. *)
Lemma try_except_of_ok {A} (body : M A) (handler : exn -> M A) st a st' :
  body st = (Ok a, st') -> try_except body handler st = (Ok a, st').
Proof. unfold try_except. now intros ->. Qed.

Ltac run_step :=
  unfold bind, ret, raise, lift, try_except, emit, record, set_file,
    get_file, writes_so_far in *;
  cbn [fst snd fs trace stdout] in *.

(** ** Config store *)

Section ConfigStore.
Import PrinterManager.
Implicit Types (st : State) (filename : string).

(** Loading never raises and touches neither the files nor the devices. *)
Lemma load_printer_config_returns filename st :
  exists v st',
    load_printer_config filename st = (Ok v, st') /\ same_world st' st.
Proof.
  unfold load_printer_config, read_document, same_world. run_step.
  destruct (fs st !! filename) as [[| v] |]; cbn; eauto.
  destruct v; cbn; eauto.
Qed.

Lemma load_printer_type_returns filename st :
  exists v st',
    load_printer_type filename st = (Ok v, st') /\ same_world st' st.
Proof.
  unfold load_printer_type, read_document, same_world. run_step.
  destruct (fs st !! filename) as [[| v] |]; cbn; eauto.
  destruct v; cbn; eauto.
Qed.


End ConfigStore.



(** ** Receipt printer: what always holds *)

Lemma bind_of_ok {A B} (m : M A) (f : A -> M B) st a st1 :
  m st = (Ok a, st1) -> bind m f st = f a st1.
Proof. unfold bind. now intros ->. Qed.

Section NeverRaises.
Import PrinterConfig PrinterManager Printer.
Context (env : Env).
Implicit Types (st : State) (lines : list (list Z)) (logo : option (list Z)).

Lemma _print_to_usb_returns cfg lines logo (b : bool) st :
  exists r st', _print_to_usb env cfg lines logo b st = (Ok r, st').
Proof.
  unfold _print_to_usb. destruct (USB_AVAILABLE env); cbn [negb].
  - apply try_except_returns. intros e s. run_step. eauto.
  - run_step. eauto.
Qed.

Lemma _print_to_serial_returns cfg lines logo (b : bool) st :
  exists r st', _print_to_serial env cfg lines logo b st = (Ok r, st').
Proof.
  unfold _print_to_serial. destruct (SERIAL_AVAILABLE env); cbn [negb].
  - apply try_except_returns. intros e s. run_step. eauto.
  - run_step. eauto.
Qed.

(** [print_receipt] unfolded after its two loads. *)
Lemma print_receipt_after_loads lines logo (b : bool) st cfg st1 kind st2 :
  load_printer_config (DEVICE_CONFIG_FILE env) st = (Ok cfg, st1) ->
  load_printer_type (TYPE_CONFIG_FILE env) st1 = (Ok kind, st2) ->
  print_receipt env lines logo b st =
  if negb (truthy cfg) then
    (Ok false, {| fs := fs st2; trace := trace st2;
                  stdout := stdout st2 ++ [Print "No printer configured"] |})
  else if eq_str kind (str_lit "serial") then
    _print_to_serial env cfg lines logo b st2
  else
    _print_to_usb env cfg lines logo b st2.
Proof.
  intros Hc Hk. unfold print_receipt.
  rewrite (bind_of_ok _ _ _ _ _ Hc), (bind_of_ok _ _ _ _ _ Hk).
  destruct (truthy cfg); cbn [negb].
  - destruct (eq_str kind (str_lit "serial")).
    + destruct (_print_to_serial_returns cfg lines logo b st2)
        as (r & s & Hr).
      rewrite Hr. now apply try_except_of_ok.
    + destruct (_print_to_usb_returns cfg lines logo b st2) as (r & s & Hr).
      rewrite Hr. now apply try_except_of_ok.
  - run_step. reflexivity.
Qed.

Lemma print_receipt_returns lines logo (b : bool) st :
  exists r st', print_receipt env lines logo b st = (Ok r, st').
Proof.
  destruct (load_printer_config_returns (DEVICE_CONFIG_FILE env) st)
    as (cfg & st1 & Hc & _).
  destruct (load_printer_type_returns (TYPE_CONFIG_FILE env) st1)
    as (kind & st2 & Hk & _).
  rewrite (print_receipt_after_loads _ _ _ _ _ _ _ _ Hc Hk).
  destruct (truthy cfg); cbn [negb]; [| eauto].
  destruct (eq_str kind (str_lit "serial"));
    auto using _print_to_serial_returns, _print_to_usb_returns.
Qed.

End NeverRaises.

(** C2.  For every line list, logo and buzzer flag: when no device
    identifier is persisted, so that [load_printer_config] yields [None],
    [print_receipt] returns [False] and the device trace is what it was
    before the call: no transport was resolved, opened or written to. *)
Theorem print_receipt_not_configured (env : Env) (st : State)
        (lines : list (list Z)) (logo : option (list Z)) (buzzer : bool) :
  fst (PrinterManager.load_printer_config
         (PrinterConfig.DEVICE_CONFIG_FILE env) st) = Ok JNull ->
  exists st',
    Printer.print_receipt env lines logo buzzer st = (Ok false, st') /\
    trace st' = trace st.
Proof.
  intros Hnone.
  destruct (load_printer_config_returns
              (PrinterConfig.DEVICE_CONFIG_FILE env) st)
    as (cfg & st1 & Hc & [_ Ht1]).
  rewrite Hc in Hnone. cbn in Hnone. injection Hnone as ->.
  destruct (load_printer_type_returns
              (PrinterConfig.TYPE_CONFIG_FILE env) st1)
    as (kind & st2 & Hk & [_ Ht2]).
  rewrite (print_receipt_after_loads _ _ _ _ _ _ _ _ _ Hc Hk).
  cbn [truthy negb]. eexists. split; [reflexivity |].
  cbn. congruence.
Qed.

(** A print into a world where nothing was saved. *)
Lemma print_receipt_not_configured_witness :
  exists st',
    Printer.print_receipt Sample.env [str_lit "hello"]
      (Some (str_lit "http://logo")) true Sample.fresh = (Ok false, st') /\
    trace st' = trace Sample.fresh.
Proof.
  apply (print_receipt_not_configured Sample.env Sample.fresh).
  vm_compute. reflexivity.
Defined.

(** C10.  Whatever the persisted transport kind is, as long as it is not
    exactly the string "serial" (a number, [null], a misspelt or unknown
    name), a configured [print_receipt] is the USB path applied to the
    stored identifier; the call returns a Boolean and raises nothing. *)
Theorem print_receipt_defaults_to_usb (env : Env) (st st1 st2 : State)
        (lines : list (list Z)) (logo : option (list Z)) (buzzer : bool)
        (cfg kind : json) :
  PrinterManager.load_printer_config
    (PrinterConfig.DEVICE_CONFIG_FILE env) st = (Ok cfg, st1) ->
  PrinterManager.load_printer_type
    (PrinterConfig.TYPE_CONFIG_FILE env) st1 = (Ok kind, st2) ->
  truthy cfg = true ->
  kind <> JStr (str_lit "serial") ->
  Printer.print_receipt env lines logo buzzer st
    = Printer._print_to_usb env cfg lines logo buzzer st2 /\
  exists r st',
    Printer.print_receipt env lines logo buzzer st = (Ok r, st').
Proof.
  intros Hc Hk Hcfg Hkind. split.
  - rewrite (print_receipt_after_loads _ _ _ _ _ _ _ _ _ Hc Hk).
    rewrite Hcfg. cbn [negb].
    destruct kind as [| | | | s | |]; cbn [eq_str]; try reflexivity.
    rewrite bool_decide_eq_false_2; [reflexivity | congruence].
  - apply print_receipt_returns.
Qed.

(** The stored kind is "bluetooth"; the receipt goes to the USB
    printer. *)
Lemma print_receipt_defaults_to_usb_witness :
  exists st',
    Printer.print_receipt Sample.env [str_lit "hello"] None false
      Sample.bluetooth_configured = (Ok true, st') /\
    trace st' =
      [ EvSetConfiguration 0;
        EvWrite (Endpoint 0 2) (str_lit "hello" ++ [10]);
        EvWrite (Endpoint 0 2) [10]; EvWrite (Endpoint 0 2) [10];
        EvWrite (Endpoint 0 2) [10]; EvWrite (Endpoint 0 2) [10];
        EvWrite (Endpoint 0 2) [10];
        EvWrite (Endpoint 0 2) [0x1D; 0x56; 0x00];
        EvWrite (Endpoint 0 2) [10];
        EvDisposeResources 0 ].
Proof.
  destruct (print_receipt_defaults_to_usb Sample.env
              Sample.bluetooth_configured Sample.bluetooth_configured
              Sample.bluetooth_configured [str_lit "hello"] None false
              (JStr (str_lit "1. 001-004: ACME TM-20"))
              (JStr (str_lit "bluetooth")))
    as [Heq _].
  - vm_compute. reflexivity.
  - vm_compute. reflexivity.
  - vm_compute. reflexivity.
  - vm_compute. discriminate.
  - rewrite Heq. eexists. split; vm_compute; reflexivity.
Defined.

(** ** Receipt printer: the trace of a successful print *)

Section Stream.
Import PrinterConfig PrinterManager Printer.
Context (env : Env).
Implicit Types (st : State) (lines : list (list Z)) (logo : option (list Z)).

Lemma write_ok t data st (u : unit) st' :
  write env t data st = (Ok u, st') ->
  trace st' = trace st ++ [EvWrite t data].
Proof.
  unfold write. run_step.
  destruct (write_error env _); cbn; [discriminate |].
  intros [= _ <-]. reflexivity.
Qed.

Lemma for_each_lines_ok t lines : forall st (u : unit) st',
  for_each lines (fun line =>
    data <- lift (str_encode (line ++ [10])) ;; write env t data) st
    = (Ok u, st') ->
  exists chunks,
    encoded_lines lines = Ok chunks /\
    trace st' = trace st ++ List.map (EvWrite t) chunks.
Proof.
  induction lines as [| line lines IH]; intros st u st' H; cbn [for_each] in H.
  - injection H as <- <-. exists []. split; [reflexivity |].
    cbn. now rewrite app_nil_r.
  - apply bind_ok_inv in H as (u1 & s1 & Hline & Hrest).
    apply bind_ok_inv in Hline as (data & s0 & Henc & Hw).
    unfold lift in Henc. injection Henc as Henc <-.
    apply write_ok in Hw.
    apply IH in Hrest as (chunks & Hchunks & Htr).
    exists (data :: chunks). split.
    + unfold encoded_lines in *. cbn [res_mapM].
      rewrite Henc, Hchunks. reflexivity.
    + rewrite Htr, Hw. cbn [List.map]. now rewrite <- app_assoc.
Qed.

Lemma for_each_const_ok {A} (xs : list A) t data : forall st (u : unit) st',
  for_each xs (fun _ => write env t data) st = (Ok u, st') ->
  trace st' = trace st ++ replicate (length xs) (EvWrite t data).
Proof.
  induction xs as [| x xs IH]; intros st u st' H; cbn [for_each] in H.
  - injection H as <- <-. cbn. now rewrite app_nil_r.
  - apply bind_ok_inv in H as (u1 & s1 & Hw & Hrest).
    apply write_ok in Hw. apply IH in Hrest.
    rewrite Hrest, Hw. cbn [length replicate]. now rewrite <- app_assoc.
Qed.

(** The shared statements, when they all succeed, append the encoded
    lines and the trailer, one event per write, and nothing else. *)
Lemma stream_then_ok {A} t lines (b : bool) (k : M A) st (r : A) st' :
  stream_then env t lines b k st = (Ok r, st') ->
  exists chunks st1,
    encoded_lines lines = Ok chunks /\
    trace st1 = trace st ++ List.map (EvWrite t) chunks
                         ++ List.map (EvWrite t) (expected_trailer b) /\
    k st1 = (Ok r, st').
Proof.
  unfold stream_then. intros H.
  apply bind_ok_inv in H as (u1 & s1 & Hlines & H).
  apply for_each_lines_ok in Hlines as (chunks & Hchunks & T1).
  apply bind_ok_inv in H as (u2 & s2 & Hfeed & H).
  apply for_each_const_ok in Hfeed as T2.
  apply bind_ok_inv in H as (u3 & s3 & Hcut & H).
  apply write_ok in Hcut as T3.
  apply bind_ok_inv in H as (u4 & s4 & Hlf & H).
  apply write_ok in Hlf as T4.
  apply bind_ok_inv in H as (u5 & s5 & Hbuzz & H).
  exists chunks, s5. split; [exact Hchunks |]. split; [| exact H].
  unfold expected_trailer.
  destruct b.
  - apply write_ok in Hbuzz as T5.
    rewrite T5, T4, T3, T2, T1. cbn. rewrite <- !app_assoc. reflexivity.
  - injection Hbuzz as _ <-.
    rewrite T4, T3, T2, T1. cbn. rewrite <- !app_assoc. reflexivity.
Qed.

(** Fetching the logo returns a Boolean, prints one line, and leaves the
    files and the devices alone. *)
Lemma _print_image_from_url_returns url t st :
  exists (r : bool) (o : output),
    _print_image_from_url env url t st =
    (Ok r, {| fs := fs st; trace := trace st; stdout := stdout st ++ [o] |}).
Proof.
  unfold _print_image_from_url.
  destruct (REQUESTS_AVAILABLE env); cbn [negb]; [| run_step; eauto].
  destruct (PILLOW_AVAILABLE env); cbn [negb]; [| run_step; eauto].
  run_step.
  destruct (requests_get env url) as [[status content] | e]; cbn; [| eauto].
  destruct (status =? 200); cbn; [| eauto].
  destruct (Image_open env content) as [[w h] | e]; cbn; eauto.
Qed.

Lemma logo_step_ok logo t st :
  exists st1, logo_step env logo t st = (Ok tt, st1) /\ same_world st1 st.
Proof.
  unfold logo_step. destruct logo as [url |].
  - destruct (bool_decide (url = [])); cbn [negb].
    + exists st. split; [reflexivity | apply same_world_refl].
    + destruct (_print_image_from_url_returns url t st) as (r & o & Hr).
      rewrite (bind_of_ok _ _ _ _ _ Hr).
      eexists. split; [reflexivity |]. split; reflexivity.
  - exists st. split; [reflexivity | apply same_world_refl].
Qed.

Lemma get_usb_devices_ok st :
  exists devices st1,
    get_usb_devices env st = (Ok devices, st1) /\ same_world st1 st.
Proof.
  unfold get_usb_devices.
  destruct (USB_AVAILABLE env); cbn [negb].
  - destruct (usb_core_find env) as [l | e].
    + destruct (enumerate 0 l []) as [devices [e |]]; run_step;
        eexists _, _; (split; [reflexivity | split; reflexivity]).
    + run_step. eexists _, _. split; [reflexivity | split; reflexivity].
  - run_step. eexists _, _. split; [reflexivity | split; reflexivity].
Qed.

Lemma find_device_state s devices st : snd (find_device env s devices st) = st.
Proof.
  induction devices as [| d devices IH]; cbn [find_device]; [reflexivity |].
  destruct (bool_decide (s = description d)); [| exact IH].
  run_step. destruct (usb_core_find env) as [l | e]; cbn; [| reflexivity].
  destruct (getitem l (index d - 1)); reflexivity.
Qed.

Lemma _print_to_usb_true cfg lines logo (b : bool) st st' :
  _print_to_usb env cfg lines logo b st = (Ok true, st') ->
  exists i addr chunks,
    encoded_lines lines = Ok chunks /\
    trace st' = trace st ++ [EvSetConfiguration i]
                  ++ List.map (EvWrite (Endpoint i addr)) chunks
                  ++ List.map (EvWrite (Endpoint i addr)) (expected_trailer b)
                  ++ [EvDisposeResources i].
Proof.
  unfold _print_to_usb. intros H.
  destruct (USB_AVAILABLE env); cbn [negb] in H; [| run_step; discriminate].
  apply try_except_ok_inv in H as [H | (e & s & _ & H)];
    [| run_step; discriminate].
  apply bind_ok_inv in H as (device & s1 & Hdev & H).
  assert (T1 : trace s1 = trace st).
  { destruct cfg as [| | | | s | |];
      try (injection Hdev as _ <-; reflexivity).
    destruct (startswith_digit s); [| injection Hdev as _ <-; reflexivity].
    apply bind_ok_inv in Hdev as (devices & s0 & Hget & Hfind).
    destruct (get_usb_devices_ok st) as (devices' & s0' & Hget' & [_ T]).
    rewrite Hget' in Hget. injection Hget as <- <-.
    pose proof (find_device_state s devices' s0') as Hs.
    rewrite Hfind in Hs. cbn in Hs. now subst s1. }
  destruct (device_truthy device); cbn [negb] in H;
    [| run_step; discriminate].
  apply bind_ok_inv in H as (u & s2 & Hset & H).
  destruct device as [i d | v |]; cbn [set_configuration] in Hset;
    try discriminate.
  destruct (set_configuration_error d); [discriminate |].
  injection Hset as _ <-.
  apply bind_ok_inv in H as (intf & s3 & Hintf & H).
  cbn [get_interface] in Hintf. unfold lift in Hintf.
  injection Hintf as _ <-.
  destruct (List.find _ intf) as [addr |]; [| run_step; discriminate].
  change (bind (logo_step env logo (Endpoint i addr))
            (fun _ => stream_then env (Endpoint i addr) lines b
                        (dispose_resources env (Device i d) ;; ret true))
            {| fs := fs s1; trace := trace s1 ++ [EvSetConfiguration i];
               stdout := stdout s1 |} = (Ok true, st')) in H.
  apply bind_ok_inv in H as (u1 & s4 & Hlogo & H).
  destruct (logo_step_ok logo (Endpoint i addr)
              {| fs := fs s1; trace := trace s1 ++ [EvSetConfiguration i];
                 stdout := stdout s1 |}) as (s4' & Hlogo' & [_ T4]).
  rewrite Hlogo' in Hlogo. injection Hlogo as _ <-. cbn [trace] in T4.
  apply stream_then_ok in H as (chunks & s5 & Hchunks & T5 & H).
  apply bind_ok_inv in H as (u2 & s6 & Hdisp & H).
  injection H as <-.
  cbn [dispose_resources] in Hdisp.
  apply bind_ok_inv in Hdisp as (u3 & s7 & Hrec & Hrel).
  unfold record in Hrec. injection Hrec as _ <-.
  destruct (release_error env); [discriminate |].
  injection Hrel as _ <-. cbn [trace].
  exists i, addr, chunks. split; [exact Hchunks |].
  rewrite T5, T4, T1. rewrite <- !app_assoc. reflexivity.
Qed.

Lemma _print_to_serial_true cfg lines logo (b : bool) st st' :
  _print_to_serial env cfg lines logo b st = (Ok true, st') ->
  exists port chunks,
    encoded_lines lines = Ok chunks /\
    trace st' = trace st ++ [EvSerialOpen port]
                  ++ List.map (EvWrite (SerialPort port)) chunks
                  ++ List.map (EvWrite (SerialPort port)) (expected_trailer b)
                  ++ [EvSerialClose port].
Proof.
  unfold _print_to_serial. intros H.
  destruct (SERIAL_AVAILABLE env); cbn [negb] in H;
    [| run_step; discriminate].
  apply try_except_ok_inv in H as [H | (e & s & _ & H)];
    [| run_step; discriminate].
  apply bind_ok_inv in H as (ser & s1 & Hopen & H).
  destruct cfg as [| | | | p | |]; cbn [serial_Serial] in Hopen;
    try discriminate.
  destruct (serial_open_error env p); [discriminate |].
  run_step. injection Hopen as <- <-.
  change (bind (logo_step env logo (SerialPort p))
            (fun _ => stream_then env (SerialPort p) lines b
                        (serial_close env p ;; ret true))
            {| fs := fs st; trace := trace st ++ [EvSerialOpen p];
               stdout := stdout st |} = (Ok true, st')) in H.
  apply bind_ok_inv in H as (u1 & s4 & Hlogo & H).
  destruct (logo_step_ok logo (SerialPort p)
              {| fs := fs st; trace := trace st ++ [EvSerialOpen p];
                 stdout := stdout st |}) as (s4' & Hlogo' & [_ T4]).
  rewrite Hlogo' in Hlogo. injection Hlogo as _ <-. cbn [trace] in T4.
  apply stream_then_ok in H as (chunks & s5 & Hchunks & T5 & H).
  apply bind_ok_inv in H as (u2 & s6 & Hclose & H).
  injection H as <-.
  unfold serial_close in Hclose.
  apply bind_ok_inv in Hclose as (u3 & s7 & Hrec & Hrel).
  unfold record in Hrec. injection Hrec as _ <-.
  destruct (release_error env); [discriminate |].
  injection Hrel as _ <-. cbn [trace].
  exists p, chunks. split; [exact Hchunks |].
  rewrite T5, T4. rewrite <- !app_assoc. reflexivity.
Qed.

(** Whichever path a successful [print_receipt] took, its device trace is
    the acquisition, the lines, the trailer and the release. *)
Lemma print_receipt_true_trace lines logo (b : bool) st st' :
  print_receipt env lines logo b st = (Ok true, st') ->
  exists t chunks,
    encoded_lines lines = Ok chunks /\
    trace st' = trace st ++ [acquired t]
                  ++ List.map (EvWrite t) chunks
                  ++ List.map (EvWrite t) (expected_trailer b)
                  ++ [released t].
Proof.
  intros H.
  destruct (load_printer_config_returns (DEVICE_CONFIG_FILE env) st)
    as (cfg & st1 & Hc & [_ T1]).
  destruct (load_printer_type_returns (TYPE_CONFIG_FILE env) st1)
    as (kind & st2 & Hk & [_ T2]).
  rewrite (print_receipt_after_loads _ _ _ _ _ _ _ _ _ Hc Hk) in H.
  destruct (truthy cfg); cbn [negb] in H; [| discriminate].
  destruct (eq_str kind (str_lit "serial")).
  - apply _print_to_serial_true in H as (p & chunks & Hchunks & T).
    exists (SerialPort p), chunks. split; [exact Hchunks |].
    cbn [acquired released]. rewrite T. congruence.
  - apply _print_to_usb_true in H as (i & addr & chunks & Hchunks & T).
    exists (Endpoint i addr), chunks. split; [exact Hchunks |].
    cbn [acquired released]. rewrite T. congruence.
Qed.

End Stream.

(** C3.  For every [print_receipt] call that returns [True], on the USB
    path and on the serial path alike, the writes that follow the last
    text line are, one write each and in this order: five line feeds, the
    cut command, one line feed, and then the buzzer command exactly when
    the buzzer flag is set; the release of the transport is the only
    event after them. *)
Theorem successful_print_ends_with_trailer (env : Env) (st st' : State)
        (lines : list (list Z)) (logo : option (list Z)) (buzzer : bool) :
  Printer.print_receipt env lines logo buzzer st = (Ok true, st') ->
  exists (t : transport) (chunks : list (list Z)),
    encoded_lines lines = Ok chunks /\
    trace st' = trace st ++ [acquired t]
                  ++ List.map (EvWrite t) chunks
                  ++ List.map (EvWrite t)
                       ([[0x0A]; [0x0A]; [0x0A]; [0x0A]; [0x0A];
                         [0x1D; 0x56; 0x00]; [0x0A]]
                        ++ (if buzzer then [[0x1B; 0x42; 0x05; 0x07]]
                            else []))
                  ++ [released t] /\
    expected_trailer buzzer =
      [[0x0A]; [0x0A]; [0x0A]; [0x0A]; [0x0A]; [0x1D; 0x56; 0x00]; [0x0A]]
      ++ (if buzzer then [[0x1B; 0x42; 0x05; 0x07]] else []).
Proof.
  intros H.
  apply print_receipt_true_trace in H as (t & chunks & Hchunks & T).
  exists t, chunks. split; [exact Hchunks |]. split; [exact T |].
  destruct buzzer; reflexivity.
Qed.

(** A serial print and a USB print of the same line with the buzzer. *)
Lemma successful_print_ends_with_trailer_witness :
  (exists st' t chunks,
     Printer.print_receipt Sample.env [str_lit "hello"] None true
       Sample.serial_configured = (Ok true, st') /\
     encoded_lines [str_lit "hello"] = Ok chunks /\
     trace st' = trace Sample.serial_configured ++ [acquired t]
                   ++ List.map (EvWrite t) chunks
                   ++ List.map (EvWrite t)
                        ([[0x0A]; [0x0A]; [0x0A]; [0x0A]; [0x0A];
                          [0x1D; 0x56; 0x00]; [0x0A]]
                         ++ [[0x1B; 0x42; 0x05; 0x07]])
                   ++ [released t]) /\
  (exists st',
     Printer.print_receipt Sample.env [str_lit "hello"] None true
       Sample.usb_configured = (Ok true, st')).
Proof.
  split.
  - eexists.
    assert (H : Printer.print_receipt Sample.env [str_lit "hello"] None true
                  Sample.serial_configured
                = (Ok true, snd (Printer.print_receipt Sample.env
                                   [str_lit "hello"] None true
                                   Sample.serial_configured)))
      by (vm_compute; reflexivity).
    destruct (successful_print_ends_with_trailer _ _ _ _ _ _ H)
      as (t & chunks & Hchunks & T & _).
    exists t, chunks. split; [exact H |]. split; [exact Hchunks | exact T].
  - eexists. vm_compute. reflexivity.
Defined.

(** ** Receipt printer: the console does not steer the devices *)

Section Sim.
Import PrinterConfig PrinterManager Printer.

Lemma sim_ret {A} (a : A) : sim (ret a) (ret a).
Proof. intros s1 s2 Hw. split; [reflexivity | exact Hw]. Qed.

Lemma sim_raise {A} (e : exn) : sim (@raise A e) (raise e).
Proof. intros s1 s2 Hw. split; [reflexivity | exact Hw]. Qed.

Lemma sim_lift {A} (r : result A) : sim (lift r) (lift r).
Proof. intros s1 s2 Hw. split; [reflexivity | exact Hw]. Qed.

Lemma sim_emit (o o' : output) : sim (emit o) (emit o').
Proof. intros s1 s2 Hw. split; [reflexivity | exact Hw]. Qed.

Lemma sim_record (ev : event) : sim (record ev) (record ev).
Proof.
  intros s1 s2 [Hf Ht]. split; [reflexivity |].
  split; cbn; congruence.
Qed.

Lemma sim_writes_so_far : sim writes_so_far writes_so_far.
Proof.
  intros s1 s2 [Hf Ht]. unfold writes_so_far. cbn.
  rewrite Ht. split; [reflexivity | split; assumption].
Qed.

Lemma sim_bind {A B} (m1 m2 : M A) (f1 f2 : A -> M B) :
  sim m1 m2 -> (forall a, sim (f1 a) (f2 a)) ->
  sim (bind m1 f1) (bind m2 f2).
Proof.
  intros Hm Hf s1 s2 Hw. unfold bind.
  destruct (Hm s1 s2 Hw) as [Hr Hs].
  destruct (m1 s1) as [[a1 | e1] s1'], (m2 s2) as [[a2 | e2] s2'];
    cbn in Hr, Hs; try discriminate.
  - injection Hr as <-. now apply Hf.
  - injection Hr as <-. split; [reflexivity | exact Hs].
Qed.

Lemma sim_try_except {A} (b1 b2 : M A) (h1 h2 : exn -> M A) :
  sim b1 b2 -> (forall e, sim (h1 e) (h2 e)) ->
  sim (try_except b1 h1) (try_except b2 h2).
Proof.
  intros Hb Hh s1 s2 Hw. unfold try_except.
  destruct (Hb s1 s2 Hw) as [Hr Hs].
  destruct (b1 s1) as [[a1 | e1] s1'], (b2 s2) as [[a2 | e2] s2'];
    cbn in Hr, Hs; try discriminate.
  - injection Hr as <-. split; [reflexivity | exact Hs].
  - injection Hr as <-. now apply Hh.
Qed.

Lemma sim_for_each {A} (xs : list A) (f g : A -> M unit) :
  (forall x, sim (f x) (g x)) -> sim (for_each xs f) (for_each xs g).
Proof.
  intros Hfg. induction xs as [| x xs IH]; cbn [for_each].
  - apply sim_ret.
  - apply sim_bind; [apply Hfg | intros _; exact IH].
Qed.

Ltac sim_step :=
  match goal with
  | |- sim (bind _ _) (bind _ _) => apply sim_bind; [| intros ?]
  | |- sim (try_except _ _) (try_except _ _) =>
      apply sim_try_except; [| intros ?]
  | |- sim (for_each _ _) (for_each _ _) => apply sim_for_each; intros ?
  | |- sim (ret _) (ret _) => apply sim_ret
  | |- sim (raise _) (raise _) => apply sim_raise
  | |- sim (lift _) (lift _) => apply sim_lift
  | |- sim (emit _) (emit _) => apply sim_emit
  | |- sim (record _) (record _) => apply sim_record
  | |- sim writes_so_far writes_so_far => apply sim_writes_so_far
  | |- sim (match ?x with _ => _ end) (match ?x with _ => _ end) =>
      destruct x
  end.

Context (env : Env).

Lemma sim_write t data : sim (write env t data) (write env t data).
Proof. unfold write. repeat sim_step. Qed.

Lemma sim_get_usb_devices : sim (get_usb_devices env) (get_usb_devices env).
Proof. unfold get_usb_devices. repeat sim_step. Qed.

Lemma sim_find_device s devices :
  sim (find_device env s devices) (find_device env s devices).
Proof.
  induction devices as [| d devices IH]; cbn [find_device].
  - apply sim_ret.
  - destruct (bool_decide (s = description d)); [| exact IH].
    repeat sim_step.
Qed.

(** The logo step behaves like no step at all. *)
Lemma sim_logo_step logo t : sim (logo_step env logo t) (ret tt).
Proof.
  intros s1 s2 Hw.
  destruct (logo_step_ok env logo t s1) as (s1' & -> & Hw1).
  cbn. split; [reflexivity |].
  eapply same_world_trans; eassumption.
Qed.

Lemma sim_stream_then {A} t lines (b : bool) (k : M A) :
  sim k k -> sim (stream_then env t lines b k) (stream_then env t lines b k).
Proof.
  intros Hk. unfold stream_then.
  repeat first [ apply sim_write | exact Hk | sim_step ].
Qed.

Lemma sim__print_to_usb cfg lines logo (b : bool) :
  sim (_print_to_usb env cfg lines logo b) (_print_to_usb env cfg lines None b).
Proof.
  unfold _print_to_usb.
  destruct (negb (USB_AVAILABLE env)); [repeat sim_step |].
  apply sim_try_except; [| intros e; repeat sim_step].
  apply sim_bind.
  { destruct cfg; try apply sim_ret.
    destruct (startswith_digit s); [| apply sim_ret].
    apply sim_bind; [apply sim_get_usb_devices | intros devices].
    apply sim_find_device. }
  intros device.
  destruct (negb (device_truthy device)); [repeat sim_step |].
  apply sim_bind.
  { unfold set_configuration. repeat sim_step. }
  intros _. apply sim_bind.
  { unfold get_interface. repeat sim_step. }
  intros intf.
  destruct (List.find _ intf) as [addr |]; [| repeat sim_step].
  destruct device as [i d | v |];
    [| repeat sim_step | repeat sim_step].
  apply (sim_bind (logo_step env logo (Endpoint i addr)) (ret tt)).
  { apply sim_logo_step. }
  intros _.
  apply (sim_stream_then (Endpoint i addr) lines b).
  unfold dispose_resources. repeat sim_step.
Qed.

Lemma sim__print_to_serial cfg lines logo (b : bool) :
  sim (_print_to_serial env cfg lines logo b)
      (_print_to_serial env cfg lines None b).
Proof.
  unfold _print_to_serial.
  destruct (negb (SERIAL_AVAILABLE env)); [repeat sim_step |].
  apply sim_try_except; [| intros e; repeat sim_step].
  apply sim_bind.
  { unfold serial_Serial. repeat sim_step. }
  intros ser.
  apply (sim_bind (logo_step env logo (SerialPort ser)) (ret tt)).
  { apply sim_logo_step. }
  intros _.
  apply (sim_stream_then (SerialPort ser) lines b).
  unfold serial_close. repeat sim_step.
Qed.

(** With or without a logo, [print_receipt] returns the same value and
    drives the devices the same way. *)
Lemma print_receipt_logo_irrelevant lines logo (b : bool) st :
  fst (print_receipt env lines logo b st)
    = fst (print_receipt env lines None b st) /\
  same_world (snd (print_receipt env lines logo b st))
             (snd (print_receipt env lines None b st)).
Proof.
  destruct (load_printer_config_returns (DEVICE_CONFIG_FILE env) st)
    as (cfg & st1 & Hc & _).
  destruct (load_printer_type_returns (TYPE_CONFIG_FILE env) st1)
    as (kind & st2 & Hk & _).
  rewrite !(print_receipt_after_loads _ _ _ _ _ _ _ _ _ Hc Hk).
  destruct (truthy cfg); cbn [negb];
    [| split; [reflexivity | apply same_world_refl]].
  destruct (eq_str kind (str_lit "serial")).
  - apply sim__print_to_serial, same_world_refl.
  - apply sim__print_to_usb, same_world_refl.
Qed.

End Sim.

(** ** Receipt printer: the failure paths *)

Section Release.
Import PrinterConfig PrinterManager Printer.

Lemma quiet_of_same_trace {A} (m : M A) :
  (forall st, trace (snd (m st)) = trace st) -> quiet m.
Proof.
  intros H st r st' Hm. exists []. split; [| constructor].
  specialize (H st). rewrite Hm in H. cbn in H.
  now rewrite app_nil_r.
Qed.

Lemma quiet_ret {A} (a : A) : quiet (ret a).
Proof. now apply quiet_of_same_trace. Qed.

Lemma quiet_raise {A} (e : exn) : quiet (@raise A e).
Proof. now apply quiet_of_same_trace. Qed.

Lemma quiet_lift {A} (r : result A) : quiet (lift r).
Proof. now apply quiet_of_same_trace. Qed.

Lemma quiet_emit (o : output) : quiet (emit o).
Proof. now apply quiet_of_same_trace. Qed.

Lemma quiet_writes_so_far : quiet writes_so_far.
Proof. now apply quiet_of_same_trace. Qed.

Lemma quiet_record (ev : event) : is_release ev = false -> quiet (record ev).
Proof.
  intros Hev st r st' [= _ <-]. exists [ev]. split; [reflexivity |].
  now constructor.
Qed.

Lemma quiet_bind {A B} (m : M A) (f : A -> M B) :
  quiet m -> (forall a, quiet (f a)) -> quiet (bind m f).
Proof.
  intros Hm Hf st r st'. unfold bind.
  destruct (m st) as [[a | e] s1] eqn:E; intros H.
  - destruct (Hm _ _ _ E) as (ev1 & T1 & F1).
    destruct (Hf a _ _ _ H) as (ev2 & T2 & F2).
    exists (ev1 ++ ev2). split.
    + rewrite T2, T1. now rewrite <- app_assoc.
    + now apply Forall_app.
  - injection H as <- <-. exact (Hm _ _ _ E).
Qed.

Lemma quiet_try_except {A} (body : M A) (handler : exn -> M A) :
  quiet body -> (forall e, quiet (handler e)) ->
  quiet (try_except body handler).
Proof.
  intros Hb Hh st r st'. unfold try_except.
  destruct (body st) as [[a | e] s1] eqn:E; intros H.
  - injection H as <- <-. exact (Hb _ _ _ E).
  - destruct (Hb _ _ _ E) as (ev1 & T1 & F1).
    destruct (Hh e _ _ _ H) as (ev2 & T2 & F2).
    exists (ev1 ++ ev2). split.
    + rewrite T2, T1. now rewrite <- app_assoc.
    + now apply Forall_app.
Qed.

Lemma quiet_for_each {A} (xs : list A) (f : A -> M unit) :
  (forall x, quiet (f x)) -> quiet (for_each xs f).
Proof.
  intros Hf. induction xs as [| x xs IH]; cbn [for_each].
  - apply quiet_ret.
  - apply quiet_bind; [apply Hf | intros _; exact IH].
Qed.

Ltac quiet_step :=
  match goal with
  | |- quiet (bind _ _) => apply quiet_bind; [| intros ?]
  | |- quiet (try_except _ _) => apply quiet_try_except; [| intros ?]
  | |- quiet (for_each _ _) => apply quiet_for_each; intros ?
  | |- quiet (ret _) => apply quiet_ret
  | |- quiet (raise _) => apply quiet_raise
  | |- quiet (lift _) => apply quiet_lift
  | |- quiet (emit _) => apply quiet_emit
  | |- quiet (record _) => apply quiet_record; reflexivity
  | |- quiet writes_so_far => apply quiet_writes_so_far
  | |- quiet (match ?x with _ => _ end) => destruct x
  end.

Lemma releases_of_quiet (m : M bool) : quiet m -> releases_only_on_success m.
Proof. intros Hm st r st' H. right. exact (Hm _ _ _ H). Qed.

Lemma releases_bind {A} (m : M A) (f : A -> M bool) :
  quiet m -> (forall a, releases_only_on_success (f a)) ->
  releases_only_on_success (bind m f).
Proof.
  intros Hm Hf st r st'. unfold bind.
  destruct (m st) as [[a | e] s1] eqn:E; intros H.
  - destruct (Hm _ _ _ E) as (ev1 & T1 & F1).
    destruct (Hf a _ _ _ H) as [-> | (ev2 & T2 & F2)]; [now left |].
    right. exists (ev1 ++ ev2). split.
    + rewrite T2, T1. now rewrite <- app_assoc.
    + now apply Forall_app.
  - injection H as <- <-. right. exact (Hm _ _ _ E).
Qed.

Lemma releases_try_except (body : M bool) (handler : exn -> M bool) :
  releases_only_on_success body -> (forall e, quiet (handler e)) ->
  releases_only_on_success (try_except body handler).
Proof.
  intros Hb Hh st r st'. unfold try_except.
  destruct (body st) as [[a | e] s1] eqn:E; intros H.
  - injection H as <- <-. exact (Hb _ _ _ E).
  - destruct (Hb _ _ _ E) as [[=] | (ev1 & T1 & F1)].
    destruct (Hh e _ _ _ H) as (ev2 & T2 & F2).
    right. exists (ev1 ++ ev2). split.
    + rewrite T2, T1. now rewrite <- app_assoc.
    + now apply Forall_app.
Qed.

Context (env : Env).
Hypothesis release_never_raises : release_error env = None.

Lemma quiet_write t data : quiet (write env t data).
Proof. unfold write. repeat quiet_step. Qed.

Lemma quiet_get_usb_devices : quiet (get_usb_devices env).
Proof. unfold get_usb_devices. repeat quiet_step. Qed.

Lemma quiet_find_device s devices : quiet (find_device env s devices).
Proof.
  apply quiet_of_same_trace. intros st. now rewrite find_device_state.
Qed.

Lemma quiet_logo_step logo t : quiet (logo_step env logo t).
Proof.
  apply quiet_of_same_trace. intros st.
  destruct (logo_step_ok env logo t st) as (s1 & -> & [_ T]). exact T.
Qed.

Lemma releases_stream_then t lines (b : bool) (k : M bool) :
  releases_only_on_success k ->
  releases_only_on_success (stream_then env t lines b k).
Proof.
  intros Hk. unfold stream_then.
  repeat (apply releases_bind;
          [ repeat first [apply quiet_write | quiet_step] | intros ? ]).
  exact Hk.
Qed.

Lemma releases_dispose i d :
  releases_only_on_success (dispose_resources env (Device i d) ;; ret true).
Proof.
  intros st r st'. cbn [dispose_resources]. rewrite release_never_raises.
  run_step. intros [= <- _]. now left.
Qed.

Lemma releases_close p :
  releases_only_on_success (serial_close env p ;; ret true).
Proof.
  intros st r st'. unfold serial_close. rewrite release_never_raises.
  run_step. intros [= <- _]. now left.
Qed.

Lemma releases__print_to_usb cfg lines logo (b : bool) :
  releases_only_on_success (_print_to_usb env cfg lines logo b).
Proof.
  unfold _print_to_usb.
  destruct (negb (USB_AVAILABLE env));
    [apply releases_of_quiet; repeat quiet_step |].
  apply releases_try_except; [| intros e; repeat quiet_step].
  apply releases_bind.
  { destruct cfg; try apply quiet_ret.
    destruct (startswith_digit s); [| apply quiet_ret].
    apply quiet_bind; [apply quiet_get_usb_devices | intros devices].
    apply quiet_find_device. }
  intros device.
  destruct (negb (device_truthy device));
    [apply releases_of_quiet; repeat quiet_step |].
  apply releases_bind.
  { unfold set_configuration. repeat quiet_step. }
  intros _. apply releases_bind.
  { unfold get_interface. repeat quiet_step. }
  intros intf.
  destruct (List.find _ intf) as [addr |];
    [| apply releases_of_quiet; repeat quiet_step].
  destruct device as [i d | v |];
    [| apply releases_of_quiet; repeat quiet_step
     | apply releases_of_quiet; repeat quiet_step].
  apply (releases_bind (logo_step env logo (Endpoint i addr))).
  { apply quiet_logo_step. }
  intros _.
  apply (releases_stream_then (Endpoint i addr) lines b).
  apply releases_dispose.
Qed.

Lemma releases__print_to_serial cfg lines logo (b : bool) :
  releases_only_on_success (_print_to_serial env cfg lines logo b).
Proof.
  unfold _print_to_serial.
  destruct (negb (SERIAL_AVAILABLE env));
    [apply releases_of_quiet; repeat quiet_step |].
  apply releases_try_except; [| intros e; repeat quiet_step].
  apply releases_bind.
  { unfold serial_Serial. repeat quiet_step. }
  intros ser.
  apply (releases_bind (logo_step env logo (SerialPort ser))).
  { apply quiet_logo_step. }
  intros _.
  apply (releases_stream_then (SerialPort ser) lines b).
  apply releases_close.
Qed.

(** In every world where releasing cannot itself fail, a [print_receipt]
    that does not return [True] has released nothing: the transport is
    released on the success path only. *)
Lemma print_receipt_releases_only_on_success lines logo (b : bool) :
  releases_only_on_success (print_receipt env lines logo b).
Proof.
  intros st r st' H.
  destruct (load_printer_config_returns (DEVICE_CONFIG_FILE env) st)
    as (cfg & st1 & Hc & [_ T1]).
  destruct (load_printer_type_returns (TYPE_CONFIG_FILE env) st1)
    as (kind & st2 & Hk & [_ T2]).
  rewrite (print_receipt_after_loads _ _ _ _ _ _ _ _ _ Hc Hk) in H.
  assert (T : trace st2 = trace st) by congruence.
  rewrite <- T.
  destruct (truthy cfg); cbn [negb] in H.
  - destruct (eq_str kind (str_lit "serial")).
    + exact (releases__print_to_serial _ _ _ _ _ _ _ H).
    + exact (releases__print_to_usb _ _ _ _ _ _ _ H).
  - injection H as <- <-. right. exists []. cbn.
    split; [now rewrite app_nil_r | constructor].
Qed.

End Release.

(** C1, evaluated.  The serial port opens (the USB endpoint is found),
    the first line is written, and the second write raises:
    [print_receipt] returns [False], and the last event is the failed
    write.  Neither [ser.close()] nor [usb.util.dispose_resources] is
    called, whereas the specification requires the release on every exit
    path. *)
Theorem failed_print_does_not_release :
  let serial :=
    Printer.print_receipt Sample.env_write_fails [str_lit "hello"] None true
      Sample.serial_configured in
  let usb :=
    Printer.print_receipt Sample.env_write_fails [str_lit "hello"] None true
      Sample.usb_configured in
  let port := str_lit "/dev/ttyUSB0" in
  fst serial = Ok false /\
  trace (snd serial) =
    [ EvSerialOpen port;
      EvWrite (SerialPort port) (str_lit "hello" ++ [10]);
      EvWriteFailed (SerialPort port) [10] ] /\
  existsb is_release (trace (snd serial)) = false /\
  fst usb = Ok false /\
  trace (snd usb) =
    [ EvSetConfiguration 0;
      EvWrite (Endpoint 0 2) (str_lit "hello" ++ [10]);
      EvWriteFailed (Endpoint 0 2) [10] ] /\
  existsb is_release (trace (snd usb)) = false.
Proof. vm_compute. repeat split; reflexivity. Qed.

(** ** The test receipt *)

(** C9.  [print_test_receipt] builds its receipt from the three fixed
    items 2 x 10.00, 1 x 20.00 and 3 x 5.00; the total it computes is the
    float 55.0, equal to [2*10 + 1*20 + 3*5]; the receipt has one line
    per item and a total line that shows "55.0"; and once a printer is
    configured the call is [print_receipt] on these lines with no logo
    and the buzzer on. *)
Theorem test_receipt_total_and_delegation :
  List.map (fun it => (Printer.qty it, float_str (Printer.price it)))
           Printer.test_items
    = [(2, str_lit "10.0"); (1, str_lit "20.0"); (3, str_lit "5.0")] /\
  Printer.test_total = float_of_int (2 * 10 + 1 * 20 + 3 * 5) /\
  res_map float_str Printer.test_total = Ok (str_lit "55.0") /\
  exists lines : list (list Z),
    Printer.test_receipt_lines = Ok lines /\
    length lines = 16%nat /\
    take 3 (drop 8 lines) =
      [ str_center (str_lit "Item 1         2   10.0         20.0") 45;
        str_center (str_lit "Item 2         1   20.0         20.0") 45;
        str_center (str_lit "Item 3         3   5.0          15.0") 45 ] /\
    lines !! 12%nat =
      Some (str_center (str_ljust (str_lit "Total") 10
                          ++ str_rjust (str_lit "55.0") 8) 45) /\
    forall (env : Env) (st st1 st2 : State) (cfg kind : json),
      PrinterManager.load_printer_config
        (PrinterConfig.DEVICE_CONFIG_FILE env) st = (Ok cfg, st1) ->
      PrinterManager.load_printer_type
        (PrinterConfig.TYPE_CONFIG_FILE env) st1 = (Ok kind, st2) ->
      truthy cfg = true ->
      Printer.print_test_receipt env st
        = Printer.print_receipt env lines None true st2.
Proof.
  split; [vm_compute; reflexivity |].
  split; [vm_compute; reflexivity |].
  split; [vm_compute; reflexivity |].
  eexists. split; [vm_compute; reflexivity |].
  split; [reflexivity |].
  split; [vm_compute; reflexivity |].
  split; [vm_compute; reflexivity |].
  intros env st st1 st2 cfg kind Hc Hk Hcfg.
  unfold Printer.print_test_receipt.
  rewrite (bind_of_ok _ _ _ _ _ Hc), (bind_of_ok _ _ _ _ _ Hk).
  rewrite Hcfg. cbn [negb].
  match goal with
  | |- bind (lift Printer.test_receipt_lines) ?f st2 = ?rhs =>
      change (bind (lift Printer.test_receipt_lines) f st2)
        with (match Printer.test_receipt_lines with
              | Ok a => f a st2
              | Raise e => (Raise e, st2)
              end)
  end.
  match goal with
  | |- _ = Printer.print_receipt env ?l None true st2 =>
      replace Printer.test_receipt_lines with (Ok l)
        by (vm_compute; reflexivity);
      destruct (print_receipt_returns env l None true st2) as (r & s & Hr)
  end.
  cbv beta iota.
  rewrite Hr. now apply try_except_of_ok.
Qed.

(** The scenario of the specification: transport [serial], identifier
    [/dev/ttyUSB0]; the test receipt prints and rings the buzzer. *)
Lemma test_receipt_total_and_delegation_witness :
  exists lines st',
    Printer.test_receipt_lines = Ok lines /\
    Printer.print_test_receipt Sample.env Sample.serial_configured
      = Printer.print_receipt Sample.env lines None true
          Sample.serial_configured /\
    Printer.print_test_receipt Sample.env Sample.serial_configured
      = (Ok true, st') /\
    drop 17 (trace st') =
      List.map (EvWrite (SerialPort (str_lit "/dev/ttyUSB0")))
               (expected_trailer true)
        ++ [EvSerialClose (str_lit "/dev/ttyUSB0")].
Proof.
  destruct test_receipt_total_and_delegation
    as (_ & _ & _ & lines & Hlines & _ & _ & _ & Hdel).
  exists lines. eexists.
  split; [exact Hlines |].
  assert (Heq : Printer.print_test_receipt Sample.env Sample.serial_configured
                = Printer.print_receipt Sample.env lines None true
                    Sample.serial_configured).
  { apply (Hdel Sample.env Sample.serial_configured Sample.serial_configured
             Sample.serial_configured (JStr (str_lit "/dev/ttyUSB0"))
             (JStr (str_lit "serial"))); vm_compute; reflexivity. }
  split; [exact Heq |].
  split; vm_compute; reflexivity.
Defined.

(** * Further properties of the code *)

(** ** Formatter *)

Lemma str_len_mjoin_replicate (n : nat) (s : list Z) :
  str_len (mjoin (replicate n s)) = Z.of_nat n * str_len s.
Proof.
  induction n as [| n IH]; cbn [replicate]; [reflexivity |].
  change (mjoin (s :: replicate n s)) with (s ++ mjoin (replicate n s)).
  rewrite str_len_app, IH. lia.
Qed.

(** X1.  [holder_line(char, length)] has [len(char)] times [length]
    characters, none when [length] is zero or negative; for a single
    character every position holds that character. *)
Theorem holder_line_length_and_content (char : list Z) (c : Z) (n : Z) :
  str_len (PrintFormatter.holder_line char n) = str_len char * Z.max n 0 /\
  PrintFormatter.holder_line [c] n = replicate (Z.to_nat n) c /\
  Forall (eq c) (PrintFormatter.holder_line [c] n) /\
  (n <= 0 -> PrintFormatter.holder_line char n = []).
Proof.
  unfold PrintFormatter.holder_line, str_repeat.
  assert (Hone : forall k : nat, mjoin (replicate k [c]) = replicate k c).
  { induction k as [| k IH]; [reflexivity |].
    cbn [replicate]. change (mjoin ([c] :: replicate k [c]))
      with ([c] ++ mjoin (replicate k [c])).
    now rewrite IH. }
  split; [| split; [| split]].
  - rewrite str_len_mjoin_replicate, Z.mul_comm. f_equal. lia.
  - apply Hone.
  - rewrite Hone. apply Forall_forall. intros x Hx.
    apply elem_of_replicate in Hx. symmetry. tauto.
  - intros Hn. replace (Z.to_nat n) with 0%nat by lia. reflexivity.
Qed.

(** The default rule of the receipts, and a negative length. *)
Lemma holder_line_length_and_content_witness :
  str_len (PrintFormatter.holder_line (str_lit "-") 44) = 44 /\
  PrintFormatter.holder_line (str_lit "-") (-3) = [].
Proof.
  destruct (holder_line_length_and_content (str_lit "-") 45 44)
    as (Hlen & _ & _ & _).
  destruct (holder_line_length_and_content (str_lit "-") 45 (-3))
    as (_ & _ & _ & Hneg).
  split; [exact Hlen | apply Hneg; lia].
Defined.





(** ** Config store *)

Lemma config_files_differ (env : Env) :
  PrinterConfig.DEVICE_CONFIG_FILE env <> PrinterConfig.TYPE_CONFIG_FILE env.
Proof.
  unfold PrinterConfig.DEVICE_CONFIG_FILE, PrinterConfig.TYPE_CONFIG_FILE.
  intros H. apply String.app_inj in H. discriminate.
Qed.

(** What a save does to the store, in all three outcomes. *)
Lemma write_document_cases env filename doc st :
  PrinterManager.write_document env filename doc st =
  match open_w_error env filename, dump_error env filename with
  | Some e, _ => (Raise e, st)
  | None, Some e =>
      (Raise e, {| fs := <[filename := Unreadable]> (fs st);
                   trace := trace st; stdout := stdout st |})
  | None, None =>
      (Ok tt, {| fs := <[filename := Document doc]> (fs st);
                 trace := trace st; stdout := stdout st |})
  end.
Proof.
  unfold PrinterManager.write_document.
  destruct (open_w_error env filename); [reflexivity |].
  destruct (dump_error env filename); reflexivity.
Qed.

(** X3.  [save_printer_config] never raises and never touches a device.
    It returns [True] exactly when the file could be opened and the
    document written.  When the file cannot be opened the store is left
    as it was; when the write fails after the file was opened, the
    previous document is gone and the next load yields [None]. *)
Theorem save_printer_config_failure_modes
        (env : Env) (x : json) (filename : string) (st : State) :
  exists (b : bool) (st' : State),
    PrinterManager.save_printer_config env x filename st = (Ok b, st') /\
    trace st' = trace st /\
    (b = true <->
       open_w_error env filename = None /\ dump_error env filename = None) /\
    (open_w_error env filename <> None -> fs st' = fs st) /\
    (open_w_error env filename = None ->
     dump_error env filename <> None ->
     fst (PrinterManager.load_printer_config filename st') = Ok JNull).
Proof.
  unfold PrinterManager.save_printer_config.
  unfold try_except, bind at 1. rewrite write_document_cases.
  destruct (open_w_error env filename) as [e |] eqn:Eo;
    [| destruct (dump_error env filename) as [e |] eqn:Ed];
    run_step; eexists _, _; (split; [reflexivity |]); cbn;
    (split; [reflexivity |]).
  - split; [split; [discriminate | intros [[=] _]] |].
    split; [reflexivity | intros [=]].
  - split; [split; [discriminate | intros [_ [=]]] |].
    split; [intros H; now destruct H |]. intros _ _.
    unfold PrinterManager.load_printer_config, PrinterManager.read_document.
    run_step. now rewrite lookup_insert_eq.
  - split; [split; [now split | reflexivity] |].
    split; [intros H; now destruct H | intros _ H; now destruct H].
Qed.

(** X4.  What [load_printer_config] returns, for every state of the
    file: the value under "printer" when the file holds an object that
    has the key, and [None] in every other case: no file, a file that
    cannot be read, a document that is not an object (the lookup raises
    [AttributeError], which is caught), an object without the key, or a
    stored [null].  Only the unreadable file and the non-object print an
    error line; the store and the devices are never changed. *)
Theorem load_printer_config_cases (filename : string) (st : State) :
  let failed (e : exn) :=
    (Ok JNull,
     {| fs := fs st; trace := trace st;
        stdout := stdout st
                    ++ [PrintExn "Error loading printer config: " e] |}) in
  PrinterManager.load_printer_config filename st =
  match fs st !! filename with
  | None => (Ok JNull, st)
  | Some Unreadable => failed JSONDecodeError
  | Some (Document (JObj m)) =>
      (Ok (default JNull (m !! str_lit "printer")), st)
  | Some (Document _) => failed AttributeError
  end.
Proof.
  intros failed. subst failed.
  unfold PrinterManager.load_printer_config, PrinterManager.read_document.
  run_step.
  destruct (fs st !! filename) as [[| v] |]; cbn; try reflexivity.
  destruct v; reflexivity.
Qed.

(** X5.  What [load_printer_type] returns, for every state of the file:
    the value under "type_printer", whatever it is and without any
    validation, when the file holds an object that has the key, and "usb"
    in every other case.  A stored [null] comes back as [None], not as
    "usb". *)
Theorem load_printer_type_cases (filename : string) (st : State) :
  let failed (e : exn) :=
    (Ok (JStr (str_lit "usb")),
     {| fs := fs st; trace := trace st;
        stdout := stdout st
                    ++ [PrintExn "Error loading printer type: " e] |}) in
  PrinterManager.load_printer_type filename st =
  match fs st !! filename with
  | None => (Ok (JStr (str_lit "usb")), st)
  | Some Unreadable => failed JSONDecodeError
  | Some (Document (JObj m)) =>
      (Ok (default (JStr (str_lit "usb")) (m !! str_lit "type_printer")), st)
  | Some (Document _) => failed AttributeError
  end.
Proof.
  intros failed. subst failed.
  unfold PrinterManager.load_printer_type, PrinterManager.read_document.
  run_step.
  destruct (fs st !! filename) as [[| v] |]; cbn; try reflexivity.
  destruct v; reflexivity.
Qed.


(** ** USB enumeration and resolution *)

Section Enumeration.
Import PrinterManager Printer.

Lemma describe_index i dev info :
  describe i dev = Ok info ->
  index info = Z.of_nat i + 1 /\
  info_bus info = bus dev /\ info_address info = address dev.
Proof.
  unfold describe.
  destruct (manufacturer dev); cbn; [| discriminate].
  destruct (product dev); cbn; [| discriminate].
  now intros [= <-].
Qed.

(** The loop keeps what it has, appends one dictionary per device, in
    order, and stops at the first device it cannot describe. *)
Lemma enumerate_spec (l : list usb_device) : forall i acc out err,
  enumerate i l acc = (out, err) ->
  exists infos,
    out = acc ++ infos /\
    (forall k info, infos !! k = Some info ->
       exists dev, l !! k = Some dev /\ describe (i + k) dev = Ok info) /\
    match err with
    | None => length infos = length l
    | Some e =>
        exists dev, l !! length infos = Some dev /\
                    describe (i + length infos) dev = Raise e
    end.
Proof.
  induction l as [| dev l IH]; intros i acc out err H; cbn [enumerate] in H.
  - injection H as <- <-. exists []. rewrite app_nil_r.
    split; [reflexivity |]. split; [| reflexivity].
    intros k info Hk. now rewrite lookup_nil in Hk.
  - destruct (describe i dev) as [info0 | e] eqn:Ed.
    + apply IH in H as (infos & -> & Hall & Herr).
      exists (info0 :: infos). split; [now rewrite <- app_assoc |]. split.
      * intros [| k] info Hk; cbn in Hk.
        -- injection Hk as <-. exists dev. split; [reflexivity |].
           now rewrite Nat.add_0_r.
        -- destruct (Hall k info Hk) as (d & Hd & Hdesc).
           exists d. split; [exact Hd |].
           now replace (i + S k)%nat with (S i + k)%nat by lia.
      * destruct err as [e |]; cbn [length].
        -- destruct Herr as (d & Hd & Hdesc). exists d. split; [exact Hd |].
           now replace (i + S (length infos))%nat
             with (S i + length infos)%nat by lia.
        -- now rewrite Herr.
    + injection H as <- <-. exists []. rewrite app_nil_r.
      split; [reflexivity |]. split.
      * intros k info Hk. now rewrite lookup_nil in Hk.
      * exists dev. split; [reflexivity |]. now rewrite Nat.add_0_r.
Qed.

Lemma get_usb_devices_aligned env st devices st' :
  get_usb_devices env st = (Ok devices, st') -> aligned env devices.
Proof.
  unfold get_usb_devices, aligned.
  destruct (USB_AVAILABLE env); cbn [negb].
  - destruct (usb_core_find env) as [l | e] eqn:El.
    + destruct (enumerate 0 l []) as [out err] eqn:Ee.
      apply enumerate_spec in Ee as (infos & -> & Hall & _).
      cbn [app]. intros H k info Hk.
      assert (devices = infos) as ->
        by (destruct err; run_step; now injection H as <- _).
      destruct (Hall k info Hk) as (dev & Hd & Hdesc).
      exists l, dev. auto.
    + run_step. intros [= <- _] k info Hk. now rewrite lookup_nil in Hk.
  - run_step. intros [= <- _] k info Hk. now rewrite lookup_nil in Hk.
Qed.

End Enumeration.

(** X7.  [get_usb_devices] never raises and touches neither the store
    nor a device.  The entry at position [k] of the list it returns has
    index [k + 1] and describes the device at position [k] of the bus;
    the list stops before the first device whose strings cannot be read.
    When pyusb is present, the bus can be listed and every string can be
    read, there is one entry per device and nothing is printed. *)
Theorem get_usb_devices_follows_the_bus (env : Env) (st : State) :
  exists devices st',
    PrinterManager.get_usb_devices env st = (Ok devices, st') /\
    fs st' = fs st /\ trace st' = trace st /\
    (forall (k : nat) info, devices !! k = Some info ->
       PrinterManager.index info = Z.of_nat k + 1 /\
       exists l dev,
         usb_core_find env = Ok l /\ l !! k = Some dev /\
         PrinterManager.describe k dev = Ok info) /\
    (forall l,
       USB_AVAILABLE env = true ->
       usb_core_find env = Ok l ->
       Forall (fun dev => exists m p,
                 manufacturer dev = Ok m /\ product dev = Ok p) l ->
       length devices = length l /\ st' = st).
Proof.
  destruct (get_usb_devices_ok env st) as (devices & st' & Hget & [Hfs Htr]).
  exists devices, st'. split; [exact Hget |].
  split; [exact Hfs |]. split; [exact Htr |]. split.
  - intros k info Hk.
    destruct (get_usb_devices_aligned _ _ _ _ Hget k info Hk)
      as (l & dev & Hl & Hd & Hdesc).
    split; [apply (describe_index _ _ _ Hdesc) | eauto].
  - intros l Havail Hl Hall.
    unfold PrinterManager.get_usb_devices in Hget.
    rewrite Havail, Hl in Hget. cbn [negb] in Hget.
    destruct (PrinterManager.enumerate 0 l []) as [out err] eqn:Ee.
    apply enumerate_spec in Ee as (infos & -> & _ & Herr).
    destruct err as [e |].
    + exfalso. destruct Herr as (dev & Hd & Hdesc).
      rewrite Forall_forall in Hall.
      destruct (Hall dev) as (m & p & Hm & Hp).
      { eapply list_elem_of_lookup_2. exact Hd. }
      unfold PrinterManager.describe in Hdesc. rewrite Hm, Hp in Hdesc.
      discriminate.
    + injection Hget as <- <-. cbn [app]. auto.
Qed.

(** A bus with one printer, and a bus whose second device refuses to
    give its strings. *)
Lemma get_usb_devices_follows_the_bus_witness :
  exists devices,
    fst (PrinterManager.get_usb_devices Sample.env Sample.fresh)
      = Ok devices /\
    length devices = 1%nat /\
    List.map PrinterManager.description devices
      = [str_lit "1. 001-004: ACME TM-20"].
Proof.
  destruct (get_usb_devices_follows_the_bus Sample.env Sample.fresh)
    as (devices & st' & Hget & _ & _ & _ & Hfull).
  destruct (Hfull [Sample.printer]) as [Hlen _].
  - reflexivity.
  - reflexivity.
  - repeat constructor. eexists _, _. split; reflexivity.
  - exists devices. rewrite Hget. split; [reflexivity |].
    split; [exact Hlen |].
    assert (E : PrinterManager.get_usb_devices Sample.env Sample.fresh
                = (Ok devices, st')) by exact Hget.
    vm_compute in E. injection E as <- _. vm_compute. reflexivity.
Defined.

Section Resolution.
Import PrinterConfig PrinterManager Printer.
Context (env : Env).

Lemma aligned_from_0 devices :
  aligned env devices -> aligned_from env 0 devices.
Proof. intros H k info Hk. exact (H k info Hk). Qed.

Lemma getitem_lookup {A} (l : list A) (n : nat) (x : A) :
  l !! n = Some x -> getitem l (Z.of_nat n) = Ok (n, x).
Proof.
  intros H. unfold getitem.
  destruct (Z.ltb_spec (Z.of_nat n) 0); [lia |].
  destruct (Z.ltb_spec (Z.of_nat n) 0); [lia |].
  now rewrite Nat2Z.id, H.
Qed.

(** The search returns the first entry whose description is the stored
    one, as the device at that entry's position, and [None] when there is
    no such entry; it never raises. *)
Lemma find_device_spec (s : list Z) : forall devices off st,
  aligned_from env off devices ->
  (find_device env s devices st = (Ok NoDevice, st) /\
   forall info, info ∈ devices -> description info <> s) \/
  (exists k info l dev,
     devices !! k = Some info /\ description info = s /\
     (forall j info', (j < k)%nat -> devices !! j = Some info' ->
                      description info' <> s) /\
     usb_core_find env = Ok l /\ l !! (off + k)%nat = Some dev /\
     describe (off + k) dev = Ok info /\
     find_device env s devices st = (Ok (Device (off + k) dev), st)).
Proof.
  induction devices as [| info0 devices IH]; intros off st Hal.
  - left. split; [reflexivity |]. intros info Hin.
    now apply elem_of_nil in Hin.
  - cbn [find_device].
    destruct (decide (s = description info0)) as [Heq | Hne].
    + right. rewrite bool_decide_eq_true_2 by exact Heq.
      destruct (Hal 0%nat info0 eq_refl) as (l & dev & Hl & Hd & Hdesc).
      exists 0%nat, info0, l, dev.
      split; [reflexivity |]. split; [now symmetry |].
      split; [intros j info' Hj; lia |].
      split; [exact Hl |]. split; [exact Hd |]. split; [exact Hdesc |].
      run_step. rewrite Hl. cbn.
      destruct (describe_index _ _ _ Hdesc) as (Hi & _).
      rewrite Hi. replace (Z.of_nat (off + 0) + 1 - 1)
        with (Z.of_nat (off + 0)) by lia.
      now rewrite (getitem_lookup _ _ _ Hd).
    + rewrite bool_decide_eq_false_2 by exact Hne.
      assert (Hal' : aligned_from env (S off) devices).
      { intros k info Hk. destruct (Hal (S k) info Hk) as (l & dev & H).
        exists l, dev.
        now replace (S off + k)%nat with (off + S k)%nat by lia. }
      destruct (IH (S off) st Hal')
        as [[Hnone Hall] | (k & info & l & dev & Hk & Hs & Hfirst & Hl & Hd
                            & Hdesc & Hfind)].
      * left. split; [exact Hnone |]. intros info Hin.
        apply elem_of_cons in Hin as [-> | Hin]; [congruence | auto].
      * right. exists (S k), info, l, dev.
        split; [exact Hk |]. split; [exact Hs |]. split.
        { intros [| j] info' Hj Hlook; cbn in Hlook.
          - injection Hlook as <-. congruence.
          - apply (Hfirst j); [lia | exact Hlook]. }
        replace (off + S k)%nat with (S off + k)%nat by lia. auto.
Qed.

(** [_print_to_usb] on a stored string that starts with a digit from 1
    to 9, once the devices are listed. *)
Lemma _print_to_usb_after_listing s lines logo (b : bool) st devices st1 :
  USB_AVAILABLE env = true ->
  startswith_digit s = true ->
  get_usb_devices env st = (Ok devices, st1) ->
  _print_to_usb env (JStr s) lines logo b st =
  try_except
    (device <- find_device env s devices ;;
     if negb (device_truthy device) then
       emit (Print "USB device not found") ;; ret false
     else
       set_configuration device ;;
       intf <- get_interface device ;;
       match List.find (fun e => endpoint_direction e =? ENDPOINT_OUT) intf,
             device with
       | Some addr, Device i _ =>
           logo_step env logo (Endpoint i addr) ;;
           stream_then env (Endpoint i addr) lines b
             (dispose_resources env device ;; ret true)
       | _, _ => emit (Print "OUT endpoint not found") ;; ret false
       end)
    (fun e => emit (PrintExn "USB printing error: " e) ;; ret false) st1.
Proof.
  intros Hav Hdig Hget. unfold _print_to_usb.
  rewrite Hav, Hdig. cbn [negb].
  unfold try_except, bind at 1 2.
  unfold bind at 1. rewrite Hget.
  unfold bind at 1. reflexivity.
Qed.

End Resolution.

(** X8.  A stored USB description that no connected device has any more
    is not replaced by another device: [_print_to_usb] prints "USB device
    not found" and returns [False], and nothing reaches a device. *)
Theorem usb_print_without_matching_device
        (env : Env) (s : list Z) (lines : list (list Z))
        (logo : option (list Z)) (b : bool) (st st1 : State)
        (devices : list PrinterManager.dev_info) :
  USB_AVAILABLE env = true ->
  Printer.startswith_digit s = true ->
  PrinterManager.get_usb_devices env st = (Ok devices, st1) ->
  (forall info, info ∈ devices -> PrinterManager.description info <> s) ->
  Printer._print_to_usb env (JStr s) lines logo b st =
    (Ok false,
     {| fs := fs st1; trace := trace st1;
        stdout := stdout st1 ++ [Print "USB device not found"] |}) /\
  trace st1 = trace st.
Proof.
  intros Hav Hdig Hget Hnone.
  rewrite (_print_to_usb_after_listing env s lines logo b st devices st1)
    by assumption.
  destruct (get_usb_devices_ok env st) as (d' & s' & Hget' & [_ Htr]).
  rewrite Hget in Hget'. injection Hget' as <- <-.
  split; [| exact Htr].
  destruct (find_device_spec env s devices 0 st1) as
    [[Hfind _] | (k & info & l & dev & Hk & Hs & _)].
  - apply aligned_from_0. eapply get_usb_devices_aligned. exact Hget.
  - unfold try_except. rewrite (bind_of_ok _ _ _ _ _ Hfind). reflexivity.
  - exfalso. apply (Hnone info); [| exact Hs].
    eapply list_elem_of_lookup_2. exact Hk.
Qed.

(** The printer was unplugged after it was configured. *)
Lemma usb_print_without_matching_device_witness :
  exists st',
    Printer._print_to_usb Sample.env (JStr (str_lit "2. 001-009: ACME TM-20"))
      [str_lit "hello"] None true Sample.fresh = (Ok false, st') /\
    trace st' = [].
Proof.
  destruct (usb_print_without_matching_device Sample.env
              (str_lit "2. 001-009: ACME TM-20") [str_lit "hello"] None true
              Sample.fresh
              (snd (PrinterManager.get_usb_devices Sample.env Sample.fresh))
              [ {| PrinterManager.index := 1;
                   PrinterManager.info_bus := 1;
                   PrinterManager.info_address := 4;
                   PrinterManager.info_manufacturer := Some (str_lit "ACME");
                   PrinterManager.info_product := Some (str_lit "TM-20");
                   PrinterManager.description :=
                     str_lit "1. 001-004: ACME TM-20" |} ])
    as [Hres _].
  - reflexivity.
  - vm_compute. reflexivity.
  - vm_compute. reflexivity.
  - intros info Hin. apply list_elem_of_singleton in Hin as ->.
    vm_compute. discriminate.
  - eexists. split; [exact Hres | reflexivity].
Defined.

(** X9.  On the USB path an identifier that is not a description (a
    string that does not start with a digit from 1 to 9, such as a serial
    port path, or a value that is not a string) is used as if it were the
    device object: the call of [set_configuration] on it raises
    [AttributeError], which is reported, and [_print_to_usb] returns
    [False] without listing the bus or touching a device. *)
Theorem usb_print_with_foreign_identifier
        (env : Env) (cfg : json) (lines : list (list Z))
        (logo : option (list Z)) (b : bool) (st : State) :
  USB_AVAILABLE env = true ->
  truthy cfg = true ->
  (forall s, cfg = JStr s -> Printer.startswith_digit s = false) ->
  Printer._print_to_usb env cfg lines logo b st =
    (Ok false,
     {| fs := fs st; trace := trace st;
        stdout := stdout st
                    ++ [PrintExn "USB printing error: " AttributeError] |}).
Proof.
  intros Hav Htruthy Hstr. unfold Printer._print_to_usb.
  rewrite Hav. cbn [negb].
  destruct cfg as [| bb | n | x | s | l | m];
    try (run_step; cbn [Printer.device_truthy]; rewrite Htruthy;
         reflexivity).
  rewrite (Hstr s eq_refl).
  run_step. cbn [Printer.device_truthy]. rewrite Htruthy. reflexivity.
Qed.

(** A serial port path that ends up on the USB path. *)
Lemma usb_print_with_foreign_identifier_witness :
  Printer._print_to_usb Sample.env (JStr (str_lit "/dev/ttyUSB0"))
    [str_lit "hello"] None true Sample.fresh =
  (Ok false,
   {| fs := ∅; trace := [];
      stdout := [PrintExn "USB printing error: " AttributeError] |}).
Proof.
  apply (usb_print_with_foreign_identifier Sample.env
           (JStr (str_lit "/dev/ttyUSB0")) [str_lit "hello"] None true
           Sample.fresh).
  - reflexivity.
  - vm_compute. reflexivity.
  - intros s [= <-]. vm_compute. reflexivity.
Defined.

(** X10.  Once the stored description has led to a device, a device that
    cannot be configured, or whose interface has no endpoint with the
    direction bit clear, ends the print with [False] before anything is
    written.  In the second case the device has been configured and is
    not released. *)
Theorem usb_print_without_out_endpoint
        (env : Env) (s : list Z) (lines : list (list Z))
        (logo : option (list Z)) (b : bool) (st st1 : State)
        (devices : list PrinterManager.dev_info) (i : nat)
        (dev : usb_device) :
  USB_AVAILABLE env = true ->
  Printer.startswith_digit s = true ->
  PrinterManager.get_usb_devices env st = (Ok devices, st1) ->
  Printer.find_device env s devices st1 = (Ok (Printer.Device i dev), st1) ->
  (forall e, set_configuration_error dev = Some e ->
     Printer._print_to_usb env (JStr s) lines logo b st =
       (Ok false,
        {| fs := fs st1; trace := trace st1;
           stdout := stdout st1 ++ [PrintExn "USB printing error: " e] |})) /\
  (forall intf,
     set_configuration_error dev = None ->
     interface00 dev = Ok intf ->
     Forall (fun addr => Z.land addr 0x80 <> 0) intf ->
     Printer._print_to_usb env (JStr s) lines logo b st =
       (Ok false,
        {| fs := fs st1; trace := trace st1 ++ [EvSetConfiguration i];
           stdout := stdout st1 ++ [Print "OUT endpoint not found"] |})).
Proof.
  intros Hav Hdig Hget Hfind.
  rewrite (_print_to_usb_after_listing env s lines logo b st devices st1)
    by assumption.
  unfold try_except. rewrite (bind_of_ok _ _ _ _ _ Hfind).
  cbn [Printer.device_truthy negb Printer.set_configuration
         Printer.get_interface].
  split.
  - intros e He. rewrite He. reflexivity.
  - intros intf Hnone Hintf Hall. rewrite Hnone, Hintf.
    assert (Hno : List.find
                    (fun e => Printer.endpoint_direction e
                              =? Printer.ENDPOINT_OUT) intf = None).
    { clear Hintf. induction Hall as [| a intf Ha _ IH]; [reflexivity |].
      cbn [List.find]. rewrite IH.
      unfold Printer.endpoint_direction, Printer.ENDPOINT_OUT.
      now destruct (Z.eqb_spec (Z.land a 0x80) 0). }
    run_step. rewrite Hno. reflexivity.
Qed.

(** The reader is found, configured, and has no OUT endpoint. *)
Lemma usb_print_without_out_endpoint_witness :
  Printer._print_to_usb Scenario.reader_only
    (JStr (str_lit "1. 001-007: ACME None")) [str_lit "hello"] None true
    Sample.fresh =
  (Ok false,
   {| fs := ∅; trace := [EvSetConfiguration 0];
      stdout := [Print "OUT endpoint not found"] |}).
Proof.
  destruct (usb_print_without_out_endpoint Scenario.reader_only
              (str_lit "1. 001-007: ACME None") [str_lit "hello"] None true
              Sample.fresh Sample.fresh
              [ {| PrinterManager.index := 1;
                   PrinterManager.info_bus := 1;
                   PrinterManager.info_address := 7;
                   PrinterManager.info_manufacturer := Some (str_lit "ACME");
                   PrinterManager.info_product := None;
                   PrinterManager.description :=
                     str_lit "1. 001-007: ACME None" |} ]
              0%nat Scenario.reader) as [_ Hout].
  - reflexivity.
  - vm_compute. reflexivity.
  - vm_compute. reflexivity.
  - vm_compute. reflexivity.
  - apply (Hout [0x81; 0x83]).
    + reflexivity.
    + reflexivity.
    + repeat constructor; vm_compute; discriminate.
Defined.

(** A disk that fills up during the save, and a directory that cannot be
    written to. *)
Lemma save_printer_config_failure_modes_witness :
  let f := PrinterConfig.DEVICE_CONFIG_FILE Sample.env in
  (exists st',
     PrinterManager.save_printer_config Scenario.disk_full
       (JStr (str_lit "COM3")) f Sample.serial_configured = (Ok false, st') /\
     fst (PrinterManager.load_printer_config f st') = Ok JNull) /\
  (exists st',
     PrinterManager.save_printer_config Scenario.read_only
       (JStr (str_lit "COM3")) f Sample.serial_configured = (Ok false, st') /\
     fs st' = fs Sample.serial_configured).
Proof.
  intros f. split.
  - destruct (save_printer_config_failure_modes Scenario.disk_full
                (JStr (str_lit "COM3")) f Sample.serial_configured)
      as (b & st' & Hsave & _ & Hiff & _ & Hlost).
    exists st'. split.
    + destruct b; [| exact Hsave].
      destruct Hiff as [Hiff _]. destruct (Hiff eq_refl) as [_ Hd].
      discriminate Hd.
    + apply Hlost; [reflexivity | discriminate].
  - destruct (save_printer_config_failure_modes Scenario.read_only
                (JStr (str_lit "COM3")) f Sample.serial_configured)
      as (b & st' & Hsave & _ & Hiff & Hkept & _).
    exists st'. split.
    + destruct b; [| exact Hsave].
      destruct Hiff as [Hiff _]. destruct (Hiff eq_refl) as [Ho _].
      discriminate Ho.
    + apply Hkept. discriminate.
Defined.


(** ** Failed writes *)

Section FailedWrites.
Import PrinterConfig PrinterManager Printer.

Lemma no_failed_write_app a b :
  no_failed_write a -> no_failed_write b -> no_failed_write (a ++ b).
Proof. unfold no_failed_write. intros Ha Hb. now apply Forall_app. Qed.

Lemma failed_last_of_none evs :
  no_failed_write evs -> failed_write_is_last evs.
Proof.
  intros H. exists evs, []. rewrite app_nil_r. auto.
Qed.

Lemma failed_last_app a evs :
  no_failed_write a -> failed_write_is_last evs ->
  failed_write_is_last (a ++ evs).
Proof.
  intros Ha (x & y & -> & Hx & Hy). exists (a ++ x), y.
  rewrite app_assoc. split; [reflexivity |].
  split; [now apply no_failed_write_app | exact Hy].
Qed.

Lemma stops_of_same_trace {A} (m : M A) :
  (forall st, trace (snd (m st)) = trace st) -> stops_at_failed_write m.
Proof.
  intros H st r st' Hm. exists []. rewrite app_nil_r.
  specialize (H st). rewrite Hm in H. split; [exact H |].
  destruct r; [constructor | apply failed_last_of_none; constructor].
Qed.

Lemma stops_ret {A} (a : A) : stops_at_failed_write (ret a).
Proof. now apply stops_of_same_trace. Qed.

Lemma stops_raise {A} (e : exn) : stops_at_failed_write (@raise A e).
Proof. now apply stops_of_same_trace. Qed.

Lemma stops_lift {A} (r : result A) : stops_at_failed_write (lift r).
Proof. now apply stops_of_same_trace. Qed.

Lemma stops_emit (o : output) : stops_at_failed_write (emit o).
Proof. now apply stops_of_same_trace. Qed.

Lemma stops_record (ev : event) :
  is_failed_write ev = false -> stops_at_failed_write (record ev).
Proof.
  intros Hev st r st' [= <- <-]. exists [ev]. split; [reflexivity |].
  now repeat constructor.
Qed.

Lemma stops_bind {A B} (m : M A) (f : A -> M B) :
  stops_at_failed_write m -> (forall a, stops_at_failed_write (f a)) ->
  stops_at_failed_write (bind m f).
Proof.
  intros Hm Hf st r st'. unfold bind.
  destruct (m st) as [[a | e] s1] eqn:E; intros H.
  - destruct (Hm _ _ _ E) as (ev1 & T1 & F1).
    destruct (Hf a _ _ _ H) as (ev2 & T2 & F2).
    exists (ev1 ++ ev2). split; [rewrite T2, T1; now rewrite <- app_assoc |].
    destruct r; [now apply no_failed_write_app | now apply failed_last_app].
  - injection H as <- <-. exact (Hm _ _ _ E).
Qed.

Lemma stops_for_each {A} (xs : list A) (f : A -> M unit) :
  (forall x, stops_at_failed_write (f x)) ->
  stops_at_failed_write (for_each xs f).
Proof.
  intros Hf. induction xs as [| x xs IH]; cbn [for_each].
  - apply stops_ret.
  - apply stops_bind; [apply Hf | intros _; exact IH].
Qed.

Ltac stops_step :=
  match goal with
  | |- stops_at_failed_write (bind _ _) => apply stops_bind; [| intros ?]
  | |- stops_at_failed_write (for_each _ _) =>
      apply stops_for_each; intros ?
  | |- stops_at_failed_write (ret _) => apply stops_ret
  | |- stops_at_failed_write (raise _) => apply stops_raise
  | |- stops_at_failed_write (lift _) => apply stops_lift
  | |- stops_at_failed_write (emit _) => apply stops_emit
  | |- stops_at_failed_write (record _) => apply stops_record; reflexivity
  | |- stops_at_failed_write (match ?x with _ => _ end) => destruct x
  end.

Context (env : Env).

(** A write either succeeds or records its failure and raises. *)
Lemma stops_write t data : stops_at_failed_write (write env t data).
Proof.
  intros st r st'. unfold write. run_step.
  destruct (write_error env _) as [e |]; intros [= <- <-]; cbn [trace].
  - exists [EvWriteFailed t data]. split; [reflexivity |].
    exists [], [EvWriteFailed t data]. split; [reflexivity |].
    split; [constructor | right; eauto].
  - exists [EvWrite t data]. split; [reflexivity |]. now repeat constructor.
Qed.

Lemma stops_logo_step logo t : stops_at_failed_write (logo_step env logo t).
Proof.
  apply stops_of_same_trace. intros st.
  destruct (logo_step_ok env logo t st) as (s1 & -> & [_ T]). exact T.
Qed.

Lemma stops_stream_then {A} t lines (b : bool) (k : M A) :
  stops_at_failed_write k ->
  stops_at_failed_write (stream_then env t lines b k).
Proof.
  intros Hk. unfold stream_then.
  repeat first [ apply stops_write | exact Hk | stops_step ].
Qed.

(** A handler that reports and returns [False] turns a body that stops
    at a failed write into a function that gives up at one. *)
Lemma gives_up_try_except (body : M bool) (o : exn -> output) :
  stops_at_failed_write body ->
  gives_up_at_failed_write
    (try_except body (fun e => emit (o e) ;; ret false)).
Proof.
  intros Hb st r st'. unfold try_except.
  destruct (body st) as [[a | e] s1] eqn:E; intros H.
  - injection H as <- <-.
    destruct (Hb _ _ _ E) as (evs & T & F). exists evs.
    split; [exact T |]. split; [now apply failed_last_of_none | auto].
  - run_step. injection H as <- <-. cbn [trace].
    destruct (Hb _ _ _ E) as (evs & T & F). exists evs.
    split; [exact T |]. split; [exact F | discriminate].
Qed.

Lemma gives_up_of_same_trace (m : M bool) :
  (forall st, trace (snd (m st)) = trace st) -> gives_up_at_failed_write m.
Proof.
  intros H st r st' Hm. exists []. rewrite app_nil_r.
  specialize (H st). rewrite Hm in H. split; [exact H |].
  split; [apply failed_last_of_none |]; constructor.
Qed.

Lemma gives_up__print_to_usb cfg lines logo (b : bool) :
  gives_up_at_failed_write (_print_to_usb env cfg lines logo b).
Proof.
  unfold _print_to_usb.
  destruct (negb (USB_AVAILABLE env));
    [now apply gives_up_of_same_trace |].
  apply (gives_up_try_except _ (PrintExn "USB printing error: ")).
  apply stops_bind.
  { destruct cfg; try apply stops_ret.
    destruct (startswith_digit s); [| apply stops_ret].
    apply stops_of_same_trace. intros st. unfold bind.
    destruct (get_usb_devices_ok env st) as (devices & s1 & -> & [_ T]).
    now rewrite find_device_state. }
  intros device.
  destruct (negb (device_truthy device)); [repeat stops_step |].
  apply stops_bind.
  { unfold set_configuration. repeat stops_step. }
  intros _. apply stops_bind.
  { unfold get_interface. repeat stops_step. }
  intros intf.
  destruct (List.find _ intf) as [addr |]; [| repeat stops_step].
  destruct device as [i d | v |];
    [| repeat stops_step | repeat stops_step].
  apply (stops_bind (logo_step env logo (Endpoint i addr))).
  { apply stops_logo_step. }
  intros _.
  apply (stops_stream_then (Endpoint i addr) lines b).
  unfold dispose_resources. repeat stops_step.
Qed.

Lemma gives_up__print_to_serial cfg lines logo (b : bool) :
  gives_up_at_failed_write (_print_to_serial env cfg lines logo b).
Proof.
  unfold _print_to_serial.
  destruct (negb (SERIAL_AVAILABLE env));
    [now apply gives_up_of_same_trace |].
  apply (gives_up_try_except _ (PrintExn "Serial printing error: ")).
  apply stops_bind.
  { unfold serial_Serial. repeat stops_step. }
  intros ser.
  apply (stops_bind (logo_step env logo (SerialPort ser))).
  { apply stops_logo_step. }
  intros _.
  apply (stops_stream_then (SerialPort ser) lines b).
  unfold serial_close. repeat stops_step.
Qed.

Lemma gives_up_print_receipt lines logo (b : bool) :
  gives_up_at_failed_write (print_receipt env lines logo b).
Proof.
  intros st r st' H.
  destruct (load_printer_config_returns (DEVICE_CONFIG_FILE env) st)
    as (cfg & st1 & Hc & [_ T1]).
  destruct (load_printer_type_returns (TYPE_CONFIG_FILE env) st1)
    as (kind & st2 & Hk & [_ T2]).
  rewrite (print_receipt_after_loads _ _ _ _ _ _ _ _ _ Hc Hk) in H.
  assert (T : trace st2 = trace st) by congruence.
  rewrite <- T.
  destruct (truthy cfg); cbn [negb] in H.
  - destruct (eq_str kind (str_lit "serial")).
    + exact (gives_up__print_to_serial _ _ _ _ _ _ _ H).
    + exact (gives_up__print_to_usb _ _ _ _ _ _ _ H).
  - injection H as <- <-. exists []. cbn [trace]. rewrite app_nil_r.
    split; [reflexivity |].
    split; [apply failed_last_of_none |]; constructor.
Qed.

End FailedWrites.

(** X11.  Nothing is retried and nothing is sent after a failure: in
    every run of [print_receipt], at most one write fails, the failed
    write is the last event that reaches a device, and the call does not
    return [True] after it. *)
Theorem print_receipt_gives_up_at_failed_write
        (env : Env) (lines : list (list Z)) (logo : option (list Z))
        (b : bool) (st : State) :
  exists evs,
    trace (snd (Printer.print_receipt env lines logo b st))
      = trace st ++ evs /\
    failed_write_is_last evs /\
    (fst (Printer.print_receipt env lines logo b st) = Ok true ->
     no_failed_write evs).
Proof.
  destruct (Printer.print_receipt env lines logo b st) as [r st'] eqn:E.
  exact (gives_up_print_receipt env lines logo b st r st' E).
Qed.

(** The second write fails: three events, the failed write last. *)
Lemma print_receipt_gives_up_at_failed_write_witness :
  exists evs,
    trace (snd (Printer.print_receipt Sample.env_write_fails
                  [str_lit "hello"] None true Sample.serial_configured))
      = evs /\
    length evs = 3%nat /\
    failed_write_is_last evs /\
    (exists evs',
       no_failed_write evs' /\
       trace (snd (Printer.print_receipt Sample.env [str_lit "hello"] None
                     true Sample.serial_configured)) = evs').
Proof.
  destruct (print_receipt_gives_up_at_failed_write Sample.env_write_fails
              [str_lit "hello"] None true Sample.serial_configured)
    as (evs & T & Hlast & _).
  destruct (print_receipt_gives_up_at_failed_write Sample.env
              [str_lit "hello"] None true Sample.serial_configured)
    as (evs' & T' & _ & Hok).
  exists evs. cbn [trace Sample.serial_configured Sample.configured app] in T.
  split; [exact T |]. split; [| split; [exact Hlast |]].
  - rewrite <- T. vm_compute. reflexivity.
  - exists evs'. split; [apply Hok; vm_compute; reflexivity | exact T'].
Defined.

(** ** The logo *)

(** X12.  The logo is fetched and decoded but never printed.  Whatever
    the outcome, [_print_image_from_url] returns a Boolean after exactly
    one console line and sends nothing to the output device; it returns
    [True] exactly when requests and Pillow are present, the status is
    200 and the body decodes.  Hence [print_receipt] returns the same
    value and produces the same device trace for every [logo_url],
    including one whose image loads. *)
Theorem logo_is_never_printed
        (env : Env) (url : list Z) (t : transport) (st : State)
        (lines : list (list Z)) (logo : option (list Z)) (b : bool) :
  (exists (r : bool) (o : output),
     Printer._print_image_from_url env url t st =
       (Ok r, {| fs := fs st; trace := trace st;
                 stdout := stdout st ++ [o] |}) /\
     (r = true <->
        REQUESTS_AVAILABLE env = true /\ PILLOW_AVAILABLE env = true /\
        exists content size,
          requests_get env url = Ok (200, content) /\
          Image_open env content = Ok size)) /\
  fst (Printer.print_receipt env lines logo b st)
    = fst (Printer.print_receipt env lines None b st) /\
  trace (snd (Printer.print_receipt env lines logo b st))
    = trace (snd (Printer.print_receipt env lines None b st)).
Proof.
  split.
  - unfold Printer._print_image_from_url.
    destruct (REQUESTS_AVAILABLE env); cbn [negb].
    2: { run_step. eexists _, _. split; [reflexivity |].
         split; [discriminate | intros [[=] _]]. }
    destruct (PILLOW_AVAILABLE env); cbn [negb].
    2: { run_step. eexists _, _. split; [reflexivity |].
         split; [discriminate | intros (_ & [=] & _)]. }
    run_step.
    destruct (requests_get env url) as [[status content] | e]; cbn.
    2: { eexists _, _. split; [reflexivity |].
         split; [discriminate | intros (_ & _ & c & s & [=] & _)]. }
    destruct (Z.eqb_spec status 200) as [-> | Hne]; cbn.
    2: { eexists _, _. split; [reflexivity |].
         split; [discriminate |].
         intros (_ & _ & c & s & [= Hs _] & _). contradiction. }
    destruct (Image_open env content) as [[w h] | e] eqn:Ei; cbn.
    + eexists _, _. split; [reflexivity |].
      split; [intros _ | reflexivity].
      split; [reflexivity |]. split; [reflexivity |]. eauto.
    + eexists _, _. split; [reflexivity |].
      split; [discriminate |].
      intros (_ & _ & c & s & [= <-] & Hi). congruence.
  - destruct (print_receipt_logo_irrelevant env lines logo b st)
      as [Hres [_ Htr]].
    split; assumption.
Qed.

(** A logo that loads: the helper returns [True], and the receipt on the
    serial printer is the receipt without a logo. *)
Lemma logo_is_never_printed_witness :
  fst (Printer._print_image_from_url Scenario.logo_served
         (str_lit "http://logo") (SerialPort (str_lit "/dev/ttyUSB0"))
         Sample.fresh) = Ok true /\
  trace (snd (Printer.print_receipt Scenario.logo_served [str_lit "hello"]
                (Some (str_lit "http://logo")) true
                Sample.serial_configured))
    = trace (snd (Printer.print_receipt Scenario.logo_served
                    [str_lit "hello"] None true Sample.serial_configured)).
Proof.
  destruct (logo_is_never_printed Scenario.logo_served
              (str_lit "http://logo") (SerialPort (str_lit "/dev/ttyUSB0"))
              Sample.fresh [str_lit "hello"]
              (Some (str_lit "http://logo")) true)
    as ((r & o & Hrun & Hiff) & _).
  destruct (logo_is_never_printed Scenario.logo_served
              (str_lit "http://logo") (SerialPort (str_lit "/dev/ttyUSB0"))
              Sample.serial_configured [str_lit "hello"]
              (Some (str_lit "http://logo")) true)
    as (_ & _ & Htr).
  split; [| exact Htr].
  rewrite Hrun. cbn [fst]. f_equal. apply Hiff.
  split; [reflexivity |]. split; [reflexivity |].
  exists [137; 80; 78; 71], (384, 128). split; reflexivity.
Defined.

(** ** Not configured *)

Section NotConfigured.
Import PrinterConfig PrinterManager Printer.
Context (env : Env).

(** With no usable identifier [print_test_receipt] prints a line and,
    when tkinter was imported, shows a warning box; the box is shown
    outside of any [try], so what it raises escapes. *)
Lemma print_test_receipt_after_loads st cfg st1 kind st2 :
  load_printer_config (DEVICE_CONFIG_FILE env) st = (Ok cfg, st1) ->
  load_printer_type (TYPE_CONFIG_FILE env) st1 = (Ok kind, st2) ->
  truthy cfg = false ->
  exists st',
    print_test_receipt env st =
      (match (if TKINTER_AVAILABLE env then messagebox_error env
              else None) with
       | Some e => Raise e
       | None => Ok false
       end, st') /\
    trace st' = trace st2.
Proof.
  intros Hc Hk Hf. unfold print_test_receipt.
  rewrite (bind_of_ok _ _ _ _ _ Hc), (bind_of_ok _ _ _ _ _ Hk), Hf.
  cbn [negb]. unfold messagebox.
  destruct (TKINTER_AVAILABLE env); [destruct (messagebox_error env) |];
    run_step; eexists; (split; [reflexivity | reflexivity]).
Qed.

Lemma test_receipt_lines_ok : exists lines, test_receipt_lines = Ok lines.
Proof. eexists. vm_compute. reflexivity. Qed.

(** With a usable identifier the [except] clause of [print_test_receipt]
    is never entered, because [print_receipt] never raises: the error box
    is never shown. *)
Lemma print_test_receipt_configured st cfg st1 kind st2 :
  load_printer_config (DEVICE_CONFIG_FILE env) st = (Ok cfg, st1) ->
  load_printer_type (TYPE_CONFIG_FILE env) st1 = (Ok kind, st2) ->
  truthy cfg = true ->
  exists r st', print_test_receipt env st = (Ok r, st').
Proof.
  intros Hc Hk Ht. unfold print_test_receipt.
  rewrite (bind_of_ok _ _ _ _ _ Hc), (bind_of_ok _ _ _ _ _ Hk), Ht.
  cbn [negb].
  destruct test_receipt_lines_ok as (lines & Hl).
  unfold bind at 1, lift. rewrite Hl.
  destruct (print_receipt_returns env lines None true st2)
    as (r & s & Hr).
  rewrite (try_except_of_ok _ _ _ _ _ Hr). eauto.
Qed.

End NotConfigured.

(** X13.  A stored identifier that is false in a condition (an empty
    string, [0], [false], an empty list or object, as well as [null]) is
    treated as no configuration at all, and nothing reaches a device:
    [print_receipt] returns [False]; [print_test_receipt] returns [False]
    too, except when tkinter was imported and the warning box cannot be
    shown: the box is opened outside of any [try], and the exception it
    raises leaves [print_test_receipt]. *)
Theorem false_identifier_is_not_configured
        (env : Env) (st : State) (cfg : json) (lines : list (list Z))
        (logo : option (list Z)) (b : bool) :
  fst (PrinterManager.load_printer_config
         (PrinterConfig.DEVICE_CONFIG_FILE env) st) = Ok cfg ->
  truthy cfg = false ->
  (exists st',
     Printer.print_receipt env lines logo b st = (Ok false, st') /\
     trace st' = trace st) /\
  (exists st',
     Printer.print_test_receipt env st =
       (match (if TKINTER_AVAILABLE env then messagebox_error env
               else None) with
        | Some e => Raise e
        | None => Ok false
        end, st') /\
     trace st' = trace st).
Proof.
  intros Hload Hfalse.
  destruct (load_printer_config_returns
              (PrinterConfig.DEVICE_CONFIG_FILE env) st)
    as (cfg' & st1 & Hc & [_ T1]).
  rewrite Hc in Hload. cbn in Hload. injection Hload as ->.
  destruct (load_printer_type_returns
              (PrinterConfig.TYPE_CONFIG_FILE env) st1)
    as (kind & st2 & Hk & [_ T2]).
  split.
  - rewrite (print_receipt_after_loads _ _ _ _ _ _ _ _ _ Hc Hk), Hfalse.
    cbn [negb]. eexists. split; [reflexivity |]. cbn. congruence.
  - destruct (print_test_receipt_after_loads env st cfg st1 kind st2
                Hc Hk Hfalse) as (st' & Hrun & T).
    exists st'. split; [exact Hrun | congruence].
Qed.

(** The empty string was saved as the identifier: without tkinter the
    test receipt is refused with [False]; with tkinter and no display it
    ends in the [TclError] of the warning box. *)
Lemma false_identifier_is_not_configured_witness :
  ((exists st',
      Printer.print_receipt Sample.env [str_lit "hello"] None true
        (Sample.configured (JStr []) (JStr (str_lit "serial")))
        = (Ok false, st') /\ trace st' = []) /\
   (exists st',
      Printer.print_test_receipt Sample.env
        (Sample.configured (JStr []) (JStr (str_lit "serial")))
        = (Ok false, st') /\ trace st' = [])) /\
  ((exists st',
      Printer.print_receipt Scenario.no_display [str_lit "hello"] None true
        (Sample.configured (JStr []) (JStr (str_lit "serial")))
        = (Ok false, st') /\ trace st' = []) /\
   (exists st',
      Printer.print_test_receipt Scenario.no_display
        (Sample.configured (JStr []) (JStr (str_lit "serial")))
        = (Raise TclError, st') /\ trace st' = [])).
Proof.
  split.
  - apply (false_identifier_is_not_configured Sample.env
             (Sample.configured (JStr []) (JStr (str_lit "serial")))
             (JStr []) [str_lit "hello"] None true).
    + vm_compute. reflexivity.
    + vm_compute. reflexivity.
  - apply (false_identifier_is_not_configured Scenario.no_display
             (Sample.configured (JStr []) (JStr (str_lit "serial")))
             (JStr []) [str_lit "hello"] None true).
    + vm_compute. reflexivity.
    + vm_compute. reflexivity.
Defined.

(** X14.  No exception escapes [print_receipt]: whatever the files hold
    and whatever the collaborators do (a bus that cannot be listed, a
    port that does not open, a write that times out, a release that
    fails, a line that cannot be encoded), the call returns a Boolean.
    [print_test_receipt] returns a Boolean as well, with one exception:
    when no usable identifier is stored, tkinter was imported and the
    warning box raises, that exception escapes.  With a usable
    identifier its [except] clause, and the error box in it, is never
    reached. *)
Theorem printing_raises_only_at_the_warning_box
        (env : Env) (st : State) (lines : list (list Z))
        (logo : option (list Z)) (b : bool) :
  (exists r st', Printer.print_receipt env lines logo b st = (Ok r, st')) /\
  (forall e st',
     Printer.print_test_receipt env st = (Raise e, st') ->
     TKINTER_AVAILABLE env = true /\
     messagebox_error env = Some e /\
     exists cfg,
       fst (PrinterManager.load_printer_config
              (PrinterConfig.DEVICE_CONFIG_FILE env) st) = Ok cfg /\
       truthy cfg = false) /\
  (forall e cfg,
     TKINTER_AVAILABLE env = true ->
     messagebox_error env = Some e ->
     fst (PrinterManager.load_printer_config
            (PrinterConfig.DEVICE_CONFIG_FILE env) st) = Ok cfg ->
     truthy cfg = false ->
     exists st', Printer.print_test_receipt env st = (Raise e, st')) /\
  (TKINTER_AVAILABLE env = false \/ messagebox_error env = None ->
   exists r st', Printer.print_test_receipt env st = (Ok r, st')).
Proof.
  destruct (load_printer_config_returns
              (PrinterConfig.DEVICE_CONFIG_FILE env) st)
    as (cfg & st1 & Hc & _).
  destruct (load_printer_type_returns
              (PrinterConfig.TYPE_CONFIG_FILE env) st1)
    as (kind & st2 & Hk & _).
  split; [apply print_receipt_returns |].
  destruct (truthy cfg) eqn:Ht.
  - destruct (print_test_receipt_configured env st cfg st1 kind st2
                Hc Hk Ht) as (r & s & Hr).
    split; [| split].
    + intros e st' H. rewrite Hr in H. discriminate.
    + intros e cfg' _ _ Hload Hf. rewrite Hc in Hload. cbn in Hload.
      congruence.
    + intros _. eauto.
  - destruct (print_test_receipt_after_loads env st cfg st1 kind st2
                Hc Hk Ht) as (s & Hr & _).
    split; [| split].
    + intros e st' H. rewrite Hr in H.
      destruct (TKINTER_AVAILABLE env); [| discriminate].
      destruct (messagebox_error env) as [e' |]; [| discriminate].
      injection H as -> _.
      split; [reflexivity |]. split; [reflexivity |].
      exists cfg. rewrite Hc. auto.
    + intros e cfg' Htk Hbox _ _. rewrite Htk, Hbox in Hr. eauto.
    + intros [Htk | Hbox].
      * rewrite Htk in Hr. eauto.
      * rewrite Hbox in Hr. destruct (TKINTER_AVAILABLE env); eauto.
Qed.

(** The empty string was saved as the identifier, on a machine with
    tkinter and no display, and on one without tkinter. *)
Lemma printing_raises_only_at_the_warning_box_witness :
  (exists st',
     Printer.print_test_receipt Scenario.no_display
       (Sample.configured (JStr []) (JStr (str_lit "serial")))
       = (Raise TclError, st')) /\
  (exists r st',
     Printer.print_test_receipt Sample.env
       (Sample.configured (JStr []) (JStr (str_lit "serial")))
       = (Ok r, st')).
Proof.
  split.
  - apply (proj1 (proj2 (proj2
             (printing_raises_only_at_the_warning_box Scenario.no_display
                (Sample.configured (JStr []) (JStr (str_lit "serial")))
                [] None false))) TclError (JStr [])).
    + reflexivity.
    + reflexivity.
    + vm_compute. reflexivity.
    + vm_compute. reflexivity.
  - apply (proj2 (proj2 (proj2
             (printing_raises_only_at_the_warning_box Sample.env
                (Sample.configured (JStr []) (JStr (str_lit "serial")))
                [] None false)))).
    left. reflexivity.
Defined.

(** ** A receipt cut short *)

Section CutShort.
Import PrinterConfig PrinterManager Printer.
Context (env : Env).
Hypothesis writes_succeed : forall n, write_error env n = None.

Lemma write_run t data st :
  write env t data st =
  (Ok tt, {| fs := fs st; trace := trace st ++ [EvWrite t data];
             stdout := stdout st |}).
Proof. unfold write. run_step. now rewrite writes_succeed. Qed.

Lemma for_each_app {A} (xs ys : list A) (f : A -> M unit) st :
  for_each (xs ++ ys) f st
  = bind (for_each xs f) (fun _ => for_each ys f) st.
Proof.
  revert st. induction xs as [| x xs IH]; intros st; cbn [app for_each].
  - reflexivity.
  - unfold bind. destruct (f x st) as [[[] | e] s1]; [| reflexivity].
    rewrite IH. reflexivity.
Qed.

Lemma for_each_lines_run t : forall lines chunks st,
  encoded_lines lines = Ok chunks ->
  exists st1,
    for_each lines (fun line =>
      data <- lift (str_encode (line ++ [10])) ;; write env t data) st
      = (Ok tt, st1) /\
    trace st1 = trace st ++ List.map (EvWrite t) chunks.
Proof.
  induction lines as [| line lines IH]; intros chunks st Henc.
  - injection Henc as <-. exists st. split; [reflexivity |].
    cbn. now rewrite app_nil_r.
  - unfold encoded_lines in Henc. cbn [res_mapM] in Henc.
    destruct (str_encode (line ++ [10])) as [data |] eqn:Ed;
      cbn [res_bind] in Henc; [| discriminate].
    destruct (res_mapM _ lines) as [rest |] eqn:Er;
      cbn [res_bind] in Henc; [| discriminate].
    injection Henc as <-.
    destruct (IH rest
                {| fs := fs st; trace := trace st ++ [EvWrite t data];
                   stdout := stdout st |} Er) as (st1 & Hrun & T).
    exists st1. split.
    + cbn [for_each]. unfold bind at 1 2, lift. rewrite Ed, write_run.
      exact Hrun.
    + rewrite T. cbn [trace List.map]. now rewrite <- app_assoc.
Qed.

End CutShort.

(** X15.  A line that cannot be encoded to UTF-8 (it holds a lone
    surrogate) cuts the receipt short.  On a serial printer that accepts
    every write, [_print_to_serial] has by then opened the port and
    written the lines before it; it writes nothing more, neither the
    remaining lines nor the feed and the cut, and returns [False]. *)
Theorem serial_print_stops_at_unencodable_line
        (env : Env) (port : list Z) (before after : list (list Z))
        (line : list Z) (chunks : list (list Z)) (e : exn)
        (logo : option (list Z)) (b : bool) (st : State) :
  SERIAL_AVAILABLE env = true ->
  serial_open_error env port = None ->
  (forall n, write_error env n = None) ->
  encoded_lines before = Ok chunks ->
  str_encode (line ++ [10]) = Raise e ->
  exists st',
    Printer._print_to_serial env (JStr port) (before ++ line :: after)
      logo b st = (Ok false, st') /\
    trace st' = trace st ++ [EvSerialOpen port]
                  ++ List.map (EvWrite (SerialPort port)) chunks.
Proof.
  intros Hav Hopen Hw Henc Hbad.
  unfold Printer._print_to_serial. rewrite Hav. cbn [negb].
  set (s0 := {| fs := fs st; trace := trace st ++ [EvSerialOpen port];
                stdout := stdout st |}).
  assert (Hs : Printer.serial_Serial env (JStr port) st = (Ok port, s0)).
  { cbn [Printer.serial_Serial]. rewrite Hopen. reflexivity. }
  unfold try_except. rewrite (bind_of_ok _ _ _ _ _ Hs).
  destruct (logo_step_ok env logo (SerialPort port) s0)
    as (s1 & Hlogo & [_ T1]).
  match goal with
  | |- context [bind ?m ?f s0] =>
      change (bind m f s0)
        with (bind (logo_step env logo (SerialPort port)) f s0)
  end.
  rewrite (bind_of_ok _ _ _ _ _ Hlogo).
  destruct (for_each_lines_run env Hw (SerialPort port) before chunks s1 Henc)
    as (s2 & Hrun & T2).
  unfold bind at 1. rewrite for_each_app.
  rewrite (bind_of_ok _ _ _ _ _ Hrun).
  cbn [for_each]. unfold bind, lift. rewrite Hbad.
  eexists. split; [reflexivity |]. cbn [trace].
  rewrite T2, T1. subst s0. cbn [trace]. now rewrite <- app_assoc.
Qed.

(** The second line holds the surrogate U+D800. *)
Lemma serial_print_stops_at_unencodable_line_witness :
  exists st',
    Printer._print_to_serial Sample.env (JStr (str_lit "/dev/ttyUSB0"))
      ([str_lit "hello"] ++ [0xD800] :: [str_lit "bye"]) None true
      Sample.fresh = (Ok false, st') /\
    trace st' =
      [] ++ [EvSerialOpen (str_lit "/dev/ttyUSB0")]
         ++ List.map (EvWrite (SerialPort (str_lit "/dev/ttyUSB0")))
                     [str_lit "hello" ++ [10]].
Proof.
  apply (serial_print_stops_at_unencodable_line Sample.env
           (str_lit "/dev/ttyUSB0") [str_lit "hello"] [str_lit "bye"]
           [0xD800] [str_lit "hello" ++ [10]] UnicodeEncodeError None true
           Sample.fresh).
  - reflexivity.
  - reflexivity.
  - reflexivity.
  - vm_compute. reflexivity.
  - vm_compute. reflexivity.
Defined.

(** ** What a successful print implies *)

Section Success.
Import PrinterConfig PrinterManager Printer.
Context (env : Env).

Lemma _print_to_usb_true_inv cfg lines logo (b : bool) st st' :
  _print_to_usb env cfg lines logo b st = (Ok true, st') ->
  USB_AVAILABLE env = true /\ release_error env = None /\
  exists s i dev l info intf addr chunks,
    cfg = JStr s /\ startswith_digit s = true /\
    usb_core_find env = Ok l /\ l !! i = Some dev /\
    describe i dev = Ok info /\ description info = s /\
    set_configuration_error dev = None /\
    interface00 dev = Ok intf /\
    List.find (fun e => endpoint_direction e =? ENDPOINT_OUT) intf
      = Some addr /\
    encoded_lines lines = Ok chunks /\
    trace st' = trace st ++ [EvSetConfiguration i]
                  ++ List.map (EvWrite (Endpoint i addr))
                              (chunks ++ expected_trailer b)
                  ++ [EvDisposeResources i].
Proof.
  intros H.
  destruct (USB_AVAILABLE env) eqn:Hav.
  2: { unfold _print_to_usb in H. rewrite Hav in H. discriminate H. }
  split; [reflexivity |].
  assert (Hcfg : exists s, cfg = JStr s /\ startswith_digit s = true).
  { destruct cfg as [| bb | n | x | s | l | m];
      try (exfalso; unfold _print_to_usb in H; rewrite Hav in H;
           run_step; cbn [device_truthy] in H;
           match type of H with
           | context [truthy ?v] => destruct (truthy v)
           end; discriminate H).
    destruct (startswith_digit s) eqn:Hd; [eauto |].
    exfalso. unfold _print_to_usb in H. rewrite Hav, Hd in H.
    run_step. cbn [device_truthy] in H.
    destruct (truthy (JStr s)); discriminate H. }
  destruct Hcfg as (s & -> & Hdig).
  destruct (get_usb_devices_ok env st) as (devices & st1 & Hget & [_ T1]).
  rewrite (_print_to_usb_after_listing env s lines logo b st devices st1)
    in H by assumption.
  destruct (find_device_spec env s devices 0 st1) as
    [[Hfind _] | (k & info & l & dev & Hk & Hs & _ & Hl & Hd & Hdesc & Hfind)].
  { apply aligned_from_0. eapply get_usb_devices_aligned. exact Hget. }
  { exfalso. unfold try_except in H.
    rewrite (bind_of_ok _ _ _ _ _ Hfind) in H. discriminate H. }
  cbn [Nat.add] in Hd, Hdesc, Hfind.
  apply try_except_ok_inv in H as [H | (e & s2 & _ & H)];
    [| run_step; discriminate].
  rewrite (bind_of_ok _ _ _ _ _ Hfind) in H.
  cbn [device_truthy negb] in H.
  apply bind_ok_inv in H as (u & s2 & Hset & H).
  cbn [set_configuration] in Hset.
  destruct (set_configuration_error dev) eqn:Hsc; [discriminate |].
  injection Hset as _ <-.
  apply bind_ok_inv in H as (intf & s3 & Hintf & H).
  cbn [get_interface] in Hintf. unfold lift in Hintf.
  injection Hintf as Hintf <-.
  destruct (List.find _ intf) as [addr |] eqn:Hep; [| run_step; discriminate].
  apply bind_ok_inv in H as (u1 & s4 & Hlogo & H).
  destruct (logo_step_ok env logo (Endpoint k addr)
              {| fs := fs st1; trace := trace st1 ++ [EvSetConfiguration k];
                 stdout := stdout st1 |}) as (s4' & Hlogo' & [_ T4]).
  rewrite Hlogo' in Hlogo. injection Hlogo as _ <-. cbn [trace] in T4.
  apply stream_then_ok in H as (chunks & s5 & Hchunks & T5 & H).
  apply bind_ok_inv in H as (u2 & s6 & Hdisp & H).
  injection H as <-.
  cbn [dispose_resources] in Hdisp.
  apply bind_ok_inv in Hdisp as (u3 & s7 & Hrec & Hrel).
  unfold record in Hrec. injection Hrec as _ <-.
  destruct (release_error env); [discriminate |].
  injection Hrel as _ <-. cbn [trace].
  split; [reflexivity |].
  exists s, k, dev, l, info, intf, addr, chunks.
  repeat (split; [assumption || reflexivity |]).
  rewrite T5, T4, T1, List.map_app. rewrite <- !app_assoc. reflexivity.
Qed.

Lemma _print_to_serial_true_inv cfg lines logo (b : bool) st st' :
  _print_to_serial env cfg lines logo b st = (Ok true, st') ->
  SERIAL_AVAILABLE env = true /\ release_error env = None /\
  exists port, cfg = JStr port /\ serial_open_error env port = None.
Proof.
  unfold _print_to_serial. intros H.
  destruct (SERIAL_AVAILABLE env); cbn [negb] in H;
    [| run_step; discriminate].
  split; [reflexivity |].
  apply try_except_ok_inv in H as [H | (e & s & _ & H)];
    [| run_step; discriminate].
  apply bind_ok_inv in H as (ser & s1 & Hopen & H).
  destruct cfg as [| | | | p | |]; cbn [serial_Serial] in Hopen;
    try discriminate.
  destruct (serial_open_error env p) eqn:Ho; [discriminate |].
  run_step. injection Hopen as <- <-.
  change (bind (logo_step env logo (SerialPort p))
            (fun _ => stream_then env (SerialPort p) lines b
                        (serial_close env p ;; ret true))
            {| fs := fs st; trace := trace st ++ [EvSerialOpen p];
               stdout := stdout st |} = (Ok true, st')) in H.
  apply bind_ok_inv in H as (u1 & s4 & Hlogo & H).
  apply stream_then_ok in H as (chunks & s5 & Hchunks & T5 & H).
  apply bind_ok_inv in H as (u2 & s6 & Hclose & H).
  unfold serial_close in Hclose.
  apply bind_ok_inv in Hclose as (u3 & s7 & Hrec & Hrel).
  destruct (release_error env); [discriminate |].
  split; [reflexivity |]. exists p. auto.
Qed.

End Success.

(** X16.  A USB print that returns [True] went to the device the stored
    description names: the stored value is a string starting with a digit
    from 1 to 9, a device at some position [i] of the bus has, now, that
    very description, it accepted the configuration, and every write
    went to the first endpoint of its interface whose address has the
    direction bit (bit 7) clear. *)
Theorem usb_print_goes_to_the_described_device
        (env : Env) (cfg : json) (lines : list (list Z))
        (logo : option (list Z)) (b : bool) (st st' : State) :
  Printer._print_to_usb env cfg lines logo b st = (Ok true, st') ->
  exists s i dev l info intf addr chunks,
    cfg = JStr s /\ Printer.startswith_digit s = true /\
    usb_core_find env = Ok l /\ l !! i = Some dev /\
    PrinterManager.describe i dev = Ok info /\
    PrinterManager.description info = s /\
    PrinterManager.index info = Z.of_nat i + 1 /\
    set_configuration_error dev = None /\
    interface00 dev = Ok intf /\
    List.find (fun a => Z.land a 0x80 =? 0) intf = Some addr /\
    Z.land addr 0x80 = 0 /\
    encoded_lines lines = Ok chunks /\
    trace st' = trace st ++ [EvSetConfiguration i]
                  ++ List.map (EvWrite (Endpoint i addr))
                              (chunks ++ expected_trailer b)
                  ++ [EvDisposeResources i].
Proof.
  intros H.
  apply _print_to_usb_true_inv in H
    as (_ & _ & s & i & dev & l & info & intf & addr & chunks & Hcfg & Hdig
        & Hl & Hd & Hdesc & Hs & Hsc & Hintf & Hep & Hchunks & T).
  exists s, i, dev, l, info, intf, addr, chunks.
  repeat (split; [assumption |]).
  split; [apply (describe_index _ _ _ Hdesc) |].
  repeat (split; [assumption |]).
  split; [| split; assumption].
  apply find_some in Hep as [_ Hep].
  now apply Z.eqb_eq in Hep.
Qed.

(** The sample printer: position 0, endpoint 0x02 (0x81 is skipped). *)
Lemma usb_print_goes_to_the_described_device_witness :
  exists s i dev l info intf addr chunks,
    JStr (str_lit "1. 001-004: ACME TM-20") = JStr s /\
    usb_core_find Sample.env = Ok l /\ l !! i = Some dev /\
    PrinterManager.describe i dev = Ok info /\
    PrinterManager.description info = s /\
    interface00 dev = Ok intf /\
    List.find (fun a => Z.land a 0x80 =? 0) intf = Some addr /\
    encoded_lines [str_lit "hello"] = Ok chunks.
Proof.
  destruct (usb_print_goes_to_the_described_device Sample.env
              (JStr (str_lit "1. 001-004: ACME TM-20")) [str_lit "hello"]
              None false Sample.fresh
              (snd (Printer._print_to_usb Sample.env
                      (JStr (str_lit "1. 001-004: ACME TM-20"))
                      [str_lit "hello"] None false Sample.fresh)))
    as (s & i & dev & l & info & intf & addr & chunks & H1 & _ & H3 & H4
        & H5 & H6 & _ & _ & H9 & H10 & _ & H12 & _).
  - vm_compute. reflexivity.
  - exists s, i, dev, l, info, intf, addr, chunks. auto 10.
Defined.

(** X17.  [print_receipt] returns [True] only if a true identifier is
    stored, every line can be encoded, the release of the transport did
    not fail, and the library of the selected path is installed: for the
    kind "serial", pyserial, an identifier that is a string, and a port
    that opened; for every other kind, pyusb and an identifier that is a
    string starting with a digit from 1 to 9. *)
Theorem print_receipt_true_requires
        (env : Env) (lines : list (list Z)) (logo : option (list Z))
        (b : bool) (st st' : State) :
  Printer.print_receipt env lines logo b st = (Ok true, st') ->
  release_error env = None /\
  (exists chunks, encoded_lines lines = Ok chunks) /\
  exists cfg kind st1,
    PrinterManager.load_printer_config
      (PrinterConfig.DEVICE_CONFIG_FILE env) st = (Ok cfg, st1) /\
    fst (PrinterManager.load_printer_type
           (PrinterConfig.TYPE_CONFIG_FILE env) st1) = Ok kind /\
    truthy cfg = true /\
    ((kind = JStr (str_lit "serial") /\ SERIAL_AVAILABLE env = true /\
      exists port, cfg = JStr port /\ serial_open_error env port = None) \/
     (kind <> JStr (str_lit "serial") /\ USB_AVAILABLE env = true /\
      exists s, cfg = JStr s /\ Printer.startswith_digit s = true)).
Proof.
  intros H.
  pose proof (print_receipt_true_trace _ _ _ _ _ _ H)
    as (t & chunks & Hchunks & _).
  destruct (load_printer_config_returns
              (PrinterConfig.DEVICE_CONFIG_FILE env) st)
    as (cfg & st1 & Hc & _).
  destruct (load_printer_type_returns
              (PrinterConfig.TYPE_CONFIG_FILE env) st1)
    as (kind & st2 & Hk & _).
  rewrite (print_receipt_after_loads _ _ _ _ _ _ _ _ _ Hc Hk) in H.
  destruct (truthy cfg) eqn:Ht; cbn [negb] in H; [| discriminate].
  destruct (eq_str kind (str_lit "serial")) eqn:Hkind.
  - apply _print_to_serial_true_inv in H as (Hav & Hrel & p & -> & Ho).
    split; [exact Hrel |]. split; [eauto |].
    exists (JStr p), kind, st1.
    split; [exact Hc |]. split; [now rewrite Hk |]. split; [exact Ht |].
    left. split; [| eauto].
    destruct kind; try discriminate. cbn [eq_str] in Hkind.
    apply bool_decide_eq_true in Hkind. now subst.
  - apply _print_to_usb_true_inv in H
      as (Hav & Hrel & s & i & dev & l & info & intf & addr & ch & -> & Hdig
          & _).
    split; [exact Hrel |]. split; [eauto |].
    exists (JStr s), kind, st1.
    split; [exact Hc |]. split; [now rewrite Hk |]. split; [exact Ht |].
    right. split; [| eauto].
    intros ->. cbn [eq_str] in Hkind.
    now rewrite bool_decide_eq_true_2 in Hkind.
Qed.

(** The serial print of the sample world. *)
Lemma print_receipt_true_requires_witness :
  release_error Sample.env = None /\
  exists chunks, encoded_lines [str_lit "hello"] = Ok chunks.
Proof.
  destruct (print_receipt_true_requires Sample.env [str_lit "hello"] None
              true Sample.serial_configured
              (snd (Printer.print_receipt Sample.env [str_lit "hello"] None
                      true Sample.serial_configured)))
    as (Hrel & Hch & _).
  - vm_compute. reflexivity.
  - split; assumption.
Defined.

(** ** Descriptions and positions *)

Section Descriptions.
Import PrinterManager.

Lemma str_lit_inj (s t : string) : str_lit s = str_lit t -> s = t.
Proof.
  unfold str_lit. revert t.
  induction s as [| a s IH]; intros [| b t] H; cbn in H;
    try discriminate; [reflexivity |].
  injection H as Hab Hst.
  apply N2Z.inj in Hab.
  assert (a = b) as ->.
  { rewrite <- (ascii_N_embedding a), <- (ascii_N_embedding b).
    now rewrite Hab. }
  f_equal. now apply IH.
Qed.

Lemma digits_of_uint (d : Decimal.uint) :
  Forall is_digit (str_lit (NilEmpty.string_of_uint d)).
Proof.
  unfold str_lit, is_digit.
  induction d; cbn; constructor; try assumption; cbn; lia.
Qed.

Lemma int_str_pos_digits (p : positive) : Forall is_digit (int_str (Zpos p)).
Proof.
  unfold int_str. cbn [Z.to_int NilZero.string_of_int].
  pose proof (digits_of_uint (Pos.to_uint p)) as H.
  unfold NilZero.string_of_uint.
  destruct (Pos.to_uint p); try exact H.
  unfold str_lit, is_digit. cbn. repeat constructor; lia.
Qed.

Lemma int_str_pos_inj (p q : positive) :
  int_str (Zpos p) = int_str (Zpos q) -> p = q.
Proof.
  unfold int_str. intros H. apply str_lit_inj in H.
  assert (Hz : Z.to_int (Zpos p) = Z.to_int (Zpos q)).
  { assert (Hn : forall r : positive,
               Z.to_int (Zpos r) <> Decimal.Pos Decimal.Nil /\
               Z.to_int (Zpos r) <> Decimal.Neg Decimal.Nil).
    { intros r. cbn [Z.to_int]. split; [| discriminate].
      intros [= Hr]. pose proof (Unsigned.to_uint_nonnil r). contradiction. }
    pose proof (NilZero.isi _ (proj1 (Hn p)) (proj2 (Hn p))) as Hp.
    pose proof (NilZero.isi _ (proj1 (Hn q)) (proj2 (Hn q))) as Hq.
    rewrite H in Hp. congruence. }
  apply (f_equal Z.of_int) in Hz. rewrite !DecimalZ.of_to in Hz.
  congruence.
Qed.

(** Two runs of digits followed by a full stop are the same run when the
    whole strings are the same. *)
Lemma digits_before_dot (x y r1 r2 : list Z) :
  Forall is_digit x -> Forall is_digit y ->
  x ++ 46 :: r1 = y ++ 46 :: r2 -> x = y.
Proof.
  intros Hx. revert y.
  induction Hx as [| a x Ha Hx IH]; intros y Hy H.
  - destruct Hy as [| b y Hb Hy]; [reflexivity |].
    cbn in H. injection H as <- _. unfold is_digit in Hb. lia.
  - destruct Hy as [| b y Hb Hy]; cbn in H.
    + injection H as -> _. unfold is_digit in Ha. lia.
    + injection H as <- H. f_equal. now apply IH.
Qed.

Lemma describe_description i dev info :
  describe i dev = Ok info ->
  exists rest,
    description info = int_str (Z.of_nat i + 1) ++ 46 :: rest.
Proof.
  unfold describe.
  destruct (manufacturer dev); cbn; [| discriminate].
  destruct (product dev); cbn; [| discriminate].
  intros [= <-]. cbn [description].
  change (str_lit ". ") with [46; 32]. cbn [app]. eauto.
Qed.

Lemma describe_same_description i j dev dev' info info' :
  describe i dev = Ok info -> describe j dev' = Ok info' ->
  description info = description info' -> i = j.
Proof.
  intros Hi Hj Heq.
  apply describe_description in Hi as (r1 & E1).
  apply describe_description in Hj as (r2 & E2).
  rewrite E1, E2 in Heq.
  replace (Z.of_nat i + 1) with (Zpos (Pos.of_succ_nat i)) in Heq by lia.
  replace (Z.of_nat j + 1) with (Zpos (Pos.of_succ_nat j)) in Heq by lia.
  apply digits_before_dot in Heq; try apply int_str_pos_digits.
  apply int_str_pos_inj in Heq. lia.
Qed.

End Descriptions.

(** X18.  Within one listing, no two devices share a description: every
    description starts with the position of its device, so a stored
    description matches at most one entry, and it stops matching its
    device as soon as the device moves to another position of the
    enumeration. *)
Theorem descriptions_are_distinct
        (env : Env) (st st' : State) (devices : list PrinterManager.dev_info)
        (j k : nat) (a b : PrinterManager.dev_info) :
  PrinterManager.get_usb_devices env st = (Ok devices, st') ->
  devices !! j = Some a ->
  devices !! k = Some b ->
  PrinterManager.description a = PrinterManager.description b ->
  j = k.
Proof.
  intros Hget Ha Hb Heq.
  pose proof (get_usb_devices_aligned _ _ _ _ Hget) as Hal.
  destruct (Hal j a Ha) as (l & da & _ & _ & Hda).
  destruct (Hal k b Hb) as (l' & db & _ & _ & Hdb).
  exact (describe_same_description _ _ _ _ _ _ Hda Hdb Heq).
Qed.

(** The one entry of the sample bus. *)
Lemma descriptions_are_distinct_witness :
  fst (PrinterManager.get_usb_devices Sample.env Sample.fresh)
    = Ok [sample_entry] /\
  (0 = 0)%nat.
Proof.
  split; [vm_compute; reflexivity |].
  apply (descriptions_are_distinct Sample.env Sample.fresh Sample.fresh
           [sample_entry] 0%nat 0%nat sample_entry sample_entry).
  - vm_compute. reflexivity.
  - reflexivity.
  - reflexivity.
  - reflexivity.
Defined.

(** X19.  A description taken from the listing leads back to the device
    it was listed for: when position [k] of the listing carries the
    stored description, a USB print that returns [True] has configured,
    written to and released the device at position [k] of the bus, and no
    other. *)
Theorem listed_description_resolves_to_its_position
        (env : Env) (st0 st1 st st' : State)
        (devices : list PrinterManager.dev_info) (k : nat)
        (entry : PrinterManager.dev_info) (lines : list (list Z))
        (logo : option (list Z)) (b : bool) :
  PrinterManager.get_usb_devices env st0 = (Ok devices, st1) ->
  devices !! k = Some entry ->
  Printer._print_to_usb env (JStr (PrinterManager.description entry))
    lines logo b st = (Ok true, st') ->
  exists addr chunks,
    encoded_lines lines = Ok chunks /\
    trace st' = trace st ++ [EvSetConfiguration k]
                  ++ List.map (EvWrite (Endpoint k addr))
                              (chunks ++ expected_trailer b)
                  ++ [EvDisposeResources k].
Proof.
  intros Hget Hk H.
  apply _print_to_usb_true_inv in H
    as (_ & _ & s & i & dev & l & info & intf & addr & chunks & [= <-] & _
        & _ & _ & Hdesc & Hs & _ & _ & _ & Hchunks & T).
  destruct (get_usb_devices_aligned _ _ _ _ Hget k entry Hk)
    as (l' & dev' & _ & _ & Hdesc').
  assert (i = k) as ->
    by exact (describe_same_description _ _ _ _ _ _ Hdesc Hdesc' Hs).
  eauto.
Qed.

(** The sample printer, listed at position 0. *)
Lemma listed_description_resolves_to_its_position_witness :
  exists addr chunks,
    encoded_lines [str_lit "hello"] = Ok chunks /\
    trace (snd (Printer._print_to_usb Sample.env
                  (JStr (str_lit "1. 001-004: ACME TM-20"))
                  [str_lit "hello"] None false Sample.fresh))
      = trace Sample.fresh ++ [EvSetConfiguration 0]
          ++ List.map (EvWrite (Endpoint 0 addr))
                      (chunks ++ expected_trailer false)
          ++ [EvDisposeResources 0].
Proof.
  apply (listed_description_resolves_to_its_position Sample.env Sample.fresh
           Sample.fresh Sample.fresh
           (snd (Printer._print_to_usb Sample.env
                   (JStr (str_lit "1. 001-004: ACME TM-20"))
                   [str_lit "hello"] None false Sample.fresh))
           [sample_entry] 0%nat sample_entry [str_lit "hello"] None false).
  - vm_compute. reflexivity.
  - reflexivity.
  - vm_compute. reflexivity.
Defined.

(** X20.  The transport is released at the end of a successful print and
    nowhere else: in every world where the release itself cannot fail, a
    [print_receipt] that does not return [True] (no configuration, no
    device, no OUT endpoint, a failed write, a line that cannot be
    encoded) has called neither [usb.util.dispose_resources] nor
    [ser.close], whatever it had acquired. *)
Theorem unsuccessful_print_releases_nothing
        (env : Env) (lines : list (list Z)) (logo : option (list Z))
        (b : bool) (st : State) :
  release_error env = None ->
  fst (Printer.print_receipt env lines logo b st) <> Ok true ->
  exists evs,
    trace (snd (Printer.print_receipt env lines logo b st))
      = trace st ++ evs /\
    Forall (fun ev => is_release ev = false) evs.
Proof.
  intros Hrel Hfail.
  destruct (Printer.print_receipt env lines logo b st) as [r st'] eqn:E.
  destruct (print_receipt_releases_only_on_success env Hrel lines logo b
              st r st' E) as [-> | H]; [now destruct Hfail | exact H].
Qed.

(** The second write fails on an open serial port. *)
Lemma unsuccessful_print_releases_nothing_witness :
  exists evs,
    trace (snd (Printer.print_receipt Sample.env_write_fails
                  [str_lit "hello"] None true Sample.serial_configured))
      = trace Sample.serial_configured ++ evs /\
    Forall (fun ev => is_release ev = false) evs.
Proof.
  apply (unsuccessful_print_releases_nothing Sample.env_write_fails
           [str_lit "hello"] None true Sample.serial_configured).
  - reflexivity.
  - vm_compute. discriminate.
Defined.

(** ** The command line *)

Section CommandLine.
Import PrinterConfig PrinterManager Printer Cli.

Lemma inert_ret {A} (a : A) : inert (ret a).
Proof. intros st. apply same_world_refl. Qed.

Lemma inert_raise {A} (e : exn) : inert (@raise A e).
Proof. intros st. apply same_world_refl. Qed.

Lemma inert_lift {A} (r : result A) : inert (lift r).
Proof. intros st. apply same_world_refl. Qed.

Lemma inert_emit (o : output) : inert (emit o).
Proof. intros st. split; reflexivity. Qed.

Lemma inert_bind {A B} (m : M A) (f : A -> M B) :
  inert m -> (forall a, inert (f a)) -> inert (bind m f).
Proof.
  intros Hm Hf st. unfold bind. specialize (Hm st).
  destruct (m st) as [[a | e] s1]; cbn [snd] in *; [| exact Hm].
  eapply same_world_trans; [apply Hf | exact Hm].
Qed.

Lemma inert_try_except {A} (body : M A) (handler : exn -> M A) :
  inert body -> (forall e, inert (handler e)) ->
  inert (try_except body handler).
Proof.
  intros Hb Hh st. unfold try_except. specialize (Hb st).
  destruct (body st) as [[a | e] s1]; cbn [snd] in *; [exact Hb |].
  eapply same_world_trans; [apply Hh | exact Hb].
Qed.

Lemma inert_bind_lift {A B} (r : result A) (f : A -> M B) :
  (forall a, r = Ok a -> inert (f a)) -> inert (bind (lift r) f).
Proof.
  intros Hf st. unfold bind, lift. destruct r as [a | e]; cbn [snd].
  - now apply Hf.
  - apply same_world_refl.
Qed.

Lemma inert_for_each {A} (xs : list A) (f : A -> M unit) :
  (forall x, inert (f x)) -> inert (for_each xs f).
Proof.
  intros Hf. induction xs as [| x xs IH]; cbn [for_each].
  - apply inert_ret.
  - apply inert_bind; [apply Hf | intros _; exact IH].
Qed.

Lemma inert_for_each_indexed {A} (xs : list A) (f : Z -> A -> M unit) :
  (forall i x, inert (f i x)) -> forall i, inert (for_each_indexed i xs f).
Proof.
  intros Hf. induction xs as [| x xs IH]; intros i; cbn [for_each_indexed].
  - apply inert_ret.
  - apply inert_bind; [apply Hf | intros _; apply IH].
Qed.

Lemma inert_print_str s : inert (print_str s).
Proof.
  unfold print_str. destruct (str_encode s);
    [apply inert_emit | apply inert_raise].
Qed.

Ltac inert_step :=
  match goal with
  | |- inert (bind _ _) => apply inert_bind; [| intros ?]
  | |- inert (try_except _ _) => apply inert_try_except; [| intros ?]
  | |- inert (for_each _ _) => apply inert_for_each; intros ?
  | |- inert (for_each_indexed _ _ _) =>
      apply inert_for_each_indexed; intros ? ?
  | |- inert (ret _) => apply inert_ret
  | |- inert (raise _) => apply inert_raise
  | |- inert (lift _) => apply inert_lift
  | |- inert (emit _) => apply inert_emit
  | |- inert (print_str _) => apply inert_print_str
  | |- inert (match ?x with _ => _ end) => destruct x
  end.

Context (host : Host) (env : Env).

Lemma inert_get_usb_devices : inert (get_usb_devices env).
Proof.
  intros st. destruct (get_usb_devices_ok env st) as (d & s & -> & H).
  exact H.
Qed.

Lemma inert_get_serial_ports : inert (get_serial_ports host env).
Proof. unfold get_serial_ports. repeat inert_step. Qed.

Lemma printable_app s t : printable s -> printable t -> printable (s ++ t).
Proof.
  intros [a Ha] [b Hb]. exists (a ++ b).
  now rewrite str_encode_app, Ha, Hb.
Qed.

Lemma printable_lit_indent : printable (str_lit "  ").
Proof. eexists. vm_compute. reflexivity. Qed.

Lemma print_str_printable s st :
  printable s ->
  exists st', print_str s st = (Ok tt, st') /\ same_world st' st.
Proof.
  intros [b Hb]. unfold print_str. rewrite Hb.
  eexists. split; [reflexivity | split; reflexivity].
Qed.

Lemma for_each_print_ok {A} (xs : list A) (text : A -> list Z) : forall st,
  Forall (fun x => printable (text x)) xs ->
  exists st',
    for_each xs (fun x => print_str (text x)) st = (Ok tt, st') /\
    same_world st' st.
Proof.
  induction xs as [| x xs IH]; intros st Hall; cbn [for_each].
  - exists st. split; [reflexivity | apply same_world_refl].
  - apply Forall_cons in Hall as [Hx Hxs].
    destruct (print_str_printable _ st Hx) as (s1 & Hp & W1).
    destruct (IH s1 Hxs) as (s2 & Hrest & W2).
    exists s2. rewrite (bind_of_ok _ _ _ _ _ Hp).
    split; [exact Hrest | eapply same_world_trans; eassumption].
Qed.

Lemma for_each_indexed_print_ok {A} (xs : list A) (text : Z -> A -> list Z) :
  forall i st,
  (forall j x, x ∈ xs -> printable (text j x)) ->
  exists st',
    for_each_indexed i xs (fun j x => print_str (text j x)) st = (Ok tt, st') /\
    same_world st' st.
Proof.
  induction xs as [| x xs IH]; intros i st Hall; cbn [for_each_indexed].
  - exists st. split; [reflexivity | apply same_world_refl].
  - destruct (print_str_printable _ st (Hall i x ltac:(left)))
      as (s1 & Hp & W1).
    destruct (IH (i + 1) s1) as (s2 & Hrest & W2).
    { intros j y Hy. apply Hall. now right. }
    exists s2. rewrite (bind_of_ok _ _ _ _ _ Hp).
    split; [exact Hrest | eapply same_world_trans; eassumption].
Qed.

Hypothesis disk_opens : forall f, open_w_error env f = None.
Hypothesis disk_writes : forall f, dump_error env f = None.

(** On a healthy disk a save stores its one-entry document. *)
Lemma save_printer_config_ok (x : json) (f : string) st :
  save_printer_config env x f st =
  (Ok true,
   {| fs := <[f := Document (JObj {[ str_lit "printer" := x ]})]> (fs st);
      trace := trace st; stdout := stdout st |}).
Proof.
  unfold save_printer_config, try_except, bind.
  now rewrite write_document_cases, disk_opens, disk_writes.
Qed.

Lemma save_printer_type_ok (kind : json) (f : string) st :
  save_printer_type env kind f st =
  (Ok true,
   {| fs := <[f := Document (JObj {[ str_lit "type_printer" := kind ]})]>
              (fs st);
      trace := trace st; stdout := stdout st |}).
Proof.
  unfold save_printer_type, try_except, bind.
  now rewrite write_document_cases, disk_opens, disk_writes.
Qed.

End CommandLine.

Lemma loads_of_store (env : Env) (x kind : json) (st : State)
      (f0 : gmap string file) :
  fs st =
    <[PrinterConfig.TYPE_CONFIG_FILE env :=
        Document (JObj {[ str_lit "type_printer" := kind ]})]>
      (<[PrinterConfig.DEVICE_CONFIG_FILE env :=
           Document (JObj {[ str_lit "printer" := x ]})]> f0) ->
  fst (PrinterManager.load_printer_config
         (PrinterConfig.DEVICE_CONFIG_FILE env) st) = Ok x /\
  fst (PrinterManager.load_printer_type
         (PrinterConfig.TYPE_CONFIG_FILE env) st) = Ok kind.
Proof.
  intros Hfs. pose proof (config_files_differ env) as Hne.
  rewrite load_printer_config_cases, load_printer_type_cases, Hfs.
  rewrite lookup_insert_ne by congruence.
  rewrite !lookup_insert_eq. cbn.
  now rewrite !lookup_singleton_eq.
Qed.

(** X21.  [config --type usb --device D] looks only at what precedes the
    first full stop of [D], read as an integer [n].  When [n] is not the
    position (from 1) of a listed device, or is not an integer at all,
    neither the store nor a device is touched.  When it is, and the disk
    and the console work, the description stored is the one the listing
    shows at position [n], whatever else [D] says, together with the
    kind "usb"; no device is touched. *)
Theorem cli_config_usb_selects_by_position
        (host : Host) (env : Env) (d : list Z) (st st1 : State)
        (devices : list PrinterManager.dev_info) :
  PrinterManager.get_usb_devices env st = (Ok devices, st1) ->
  d <> [] ->
  ((forall n, int_of_str host (Cli.before_dot d) = Ok n ->
              n < 1 \/ Z.of_nat (length devices) < n) ->
   same_world
     (snd (Cli.cli_interface host env
             (Cli.cmd_config Cli.config_usb (Some d)) st)) st) /\
  (forall n entry,
     int_of_str host (Cli.before_dot d) = Ok n ->
     1 <= n ->
     devices !! Z.to_nat (n - 1) = Some entry ->
     Forall (fun e => printable (PrinterManager.description e)) devices ->
     (forall f, open_w_error env f = None) ->
     (forall f, dump_error env f = None) ->
     exists st',
       Cli.cli_interface host env
         (Cli.cmd_config Cli.config_usb (Some d)) st = (Ok tt, st') /\
       trace st' = trace st /\
       fst (PrinterManager.load_printer_config
              (PrinterConfig.DEVICE_CONFIG_FILE env) st')
         = Ok (JStr (PrinterManager.description entry)) /\
       fst (PrinterManager.load_printer_type
              (PrinterConfig.TYPE_CONFIG_FILE env) st')
         = Ok (JStr (str_lit "usb"))).
Proof.
  intros Hget Hd.
  destruct (get_usb_devices_ok env st) as (d' & s' & Hget' & W1).
  rewrite Hget in Hget'. injection Hget' as <- <-.
  destruct d as [| c d]; [now destruct Hd |].
  cbn [Cli.cli_interface]. unfold Cli.config_usb_command.
  rewrite (bind_of_ok _ _ _ _ _ Hget).
  split.
  - intros Hrej.
    eapply same_world_trans; [| exact W1].
    destruct devices as [| e0 es]; [apply inert_emit |].
    set (devs := e0 :: es) in *.
    apply inert_bind; [apply inert_emit | intros _].
    apply inert_bind;
      [apply inert_for_each; intros x; apply inert_print_str | intros _].
    apply inert_try_except; [| intros _; apply inert_emit].
    apply inert_bind_lift. intros n Hn.
    destruct (Hrej n Hn) as [Hlow | Hhigh].
    + destruct (Z.leb_spec 0 (n - 1)); [lia |]. apply inert_emit.
    + destruct (Z.ltb_spec (n - 1) (Z.of_nat (length devs))); [lia |].
      rewrite andb_false_r. apply inert_emit.
  - intros n entry Hn Hpos Hentry Hprint Hopen Hdump.
    destruct devices as [| e0 es];
      [now rewrite lookup_nil in Hentry |].
    set (devs := e0 :: es) in *.
    unfold bind at 1. cbn [emit].
    set (s2 := {| fs := fs st1; trace := trace st1;
                  stdout := stdout st1 ++ [Print "Available USB devices:"] |}).
    destruct (for_each_print_ok devs
                (fun dev => str_lit "  " ++ PrinterManager.description dev) s2)
      as (s3 & Hlist & W3).
    { eapply Forall_impl; [exact Hprint |]. intros e He.
      apply printable_app; [apply printable_lit_indent | exact He]. }
    rewrite (bind_of_ok _ _ _ _ _ Hlist).
    assert (Hlen : (Z.to_nat (n - 1) < length devs)%nat)
      by (eapply lookup_lt_Some; exact Hentry).
    assert (Hitem : Printer.getitem devs (n - 1)
                    = Ok (Z.to_nat (n - 1), entry)).
    { rewrite <- (Z2Nat.id (n - 1)) at 1 by lia.
      now apply getitem_lookup. }
    unfold try_except. unfold bind at 1, lift. rewrite Hn.
    cbv zeta.
    destruct (Z.leb_spec 0 (n - 1)); [| lia].
    destruct (Z.ltb_spec (n - 1) (Z.of_nat (length devs))); [| lia].
    cbn [andb]. unfold bind at 1. rewrite Hitem. cbn [snd].
    unfold bind at 1.
    rewrite (save_printer_config_ok env Hopen Hdump).
    unfold bind at 1.
    rewrite (save_printer_type_ok env Hopen Hdump).
    cbn [fs trace stdout].
    assert (Htr : trace s3 = trace st).
    { destruct W3 as [_ ->]. subst s2. cbn [trace]. apply W1. }
    unfold Cli.print_str.
    destruct (str_encode _) as [bytes | e]; cbn [emit raise];
      (eexists; split; [reflexivity |]; cbn [trace fs];
       split; [exact Htr |];
       eapply loads_of_store; cbn [fs]; reflexivity).
Qed.

(** "1. whatever" selects the first listed device. *)
Lemma cli_config_usb_selects_by_position_witness :
  exists st',
    Cli.cli_interface sample_host Sample.env
      (Cli.cmd_config Cli.config_usb (Some (str_lit "1. whatever")))
      Sample.fresh = (Ok tt, st') /\
    trace st' = trace Sample.fresh /\
    fst (PrinterManager.load_printer_config
           (PrinterConfig.DEVICE_CONFIG_FILE Sample.env) st')
      = Ok (JStr (PrinterManager.description sample_entry)) /\
    fst (PrinterManager.load_printer_type
           (PrinterConfig.TYPE_CONFIG_FILE Sample.env) st')
      = Ok (JStr (str_lit "usb")).
Proof.
  destruct (cli_config_usb_selects_by_position sample_host Sample.env
              (str_lit "1. whatever") Sample.fresh Sample.fresh
              [sample_entry]) as [_ Hsel].
  - vm_compute. reflexivity.
  - vm_compute. discriminate.
  - apply (Hsel 1 sample_entry).
    + vm_compute. reflexivity.
    + lia.
    + reflexivity.
    + repeat constructor. eexists. vm_compute. reflexivity.
    + reflexivity.
    + reflexivity.
Defined.

Lemma printable_str_lit (s : string) : printable (str_lit s).
Proof.
  unfold printable, str_lit. induction s as [| a s [b IH]]; cbn.
  - eexists. reflexivity.
  - rewrite IH. cbn.
    assert (Hc : 0 <= Z.of_N (N_of_ascii a) < 256).
    { pose proof (N_ascii_bounded a). lia. }
    unfold utf8_encode_char.
    destruct (Z.ltb_spec (Z.of_N (N_of_ascii a)) 128); [cbn; eauto |].
    destruct (Z.ltb_spec (Z.of_N (N_of_ascii a)) 2048); [cbn; eauto | lia].
Qed.

(** X22.  [config --type serial --device D] stores [D], with the kind
    "serial", only when [D] is one of the ports that pyserial lists at
    that moment; without pyserial, when the listing fails, or when [D] is
    not listed, neither the store nor a device is touched. *)
Theorem cli_config_serial_accepts_listed_ports
        (host : Host) (env : Env) (d : list Z) (st : State) :
  d <> [] ->
  (SERIAL_AVAILABLE env = false \/
   (exists e, comports host = Raise e) \/
   (exists ports, comports host = Ok ports /\ d ∉ ports) ->
   same_world
     (snd (Cli.cli_interface host env
             (Cli.cmd_config Cli.config_serial (Some d)) st)) st) /\
  (forall ports,
     SERIAL_AVAILABLE env = true ->
     comports host = Ok ports ->
     d ∈ ports ->
     Forall printable ports ->
     (forall f, open_w_error env f = None) ->
     (forall f, dump_error env f = None) ->
     exists st',
       Cli.cli_interface host env
         (Cli.cmd_config Cli.config_serial (Some d)) st = (Ok tt, st') /\
       trace st' = trace st /\
       fst (PrinterManager.load_printer_config
              (PrinterConfig.DEVICE_CONFIG_FILE env) st') = Ok (JStr d) /\
       fst (PrinterManager.load_printer_type
              (PrinterConfig.TYPE_CONFIG_FILE env) st')
         = Ok (JStr (str_lit "serial"))).
Proof.
  intros Hd. destruct d as [| c d]; [now destruct Hd |].
  cbn [Cli.cli_interface]. unfold Cli.config_serial_command.
  split.
  - intros Hrej.
    assert (Hk : forall ports, (c :: d) ∉ ports ->
              inert (match ports with
                     | [] => emit (Print "No serial ports found")
                     | _ :: _ =>
                         emit (Print "Available serial ports:") ;;
                         Cli.for_each_indexed 1 ports (fun i port =>
                           Cli.print_str
                             (str_lit "  " ++ int_str i ++ str_lit ". "
                                ++ port)) ;;
                         if bool_decide ((c :: d) ∈ ports) then
                           PrinterManager.save_printer_config env
                             (JStr (c :: d))
                             (PrinterConfig.DEVICE_CONFIG_FILE env) ;;
                           PrinterManager.save_printer_type env
                             (JStr (str_lit "serial"))
                             (PrinterConfig.TYPE_CONFIG_FILE env) ;;
                           Cli.print_str (str_lit "Configured: " ++ c :: d)
                         else
                           emit (Print "Invalid port. Available ports:") ;;
                           for_each ports (fun port =>
                             Cli.print_str (str_lit "  " ++ port))
                     end)).
    { intros ports Hnot. destruct ports as [| p ps]; [apply inert_emit |].
      rewrite bool_decide_eq_false_2 by exact Hnot.
      apply inert_bind; [apply inert_emit | intros _].
      apply inert_bind.
      { apply inert_for_each_indexed. intros i x. apply inert_print_str. }
      intros _. apply inert_bind; [apply inert_emit | intros _].
      apply inert_for_each. intros x. apply inert_print_str. }
    assert (Hall : forall ports s1,
              Cli.get_serial_ports host env st = (Ok ports, s1) ->
              (c :: d) ∉ ports).
    { intros ports s1. unfold Cli.get_serial_ports.
      destruct Hrej as [Hav | [[e He] | (ps & Hps & Hnot)]].
      - rewrite Hav. run_step. intros [= <- _]. apply not_elem_of_nil.
      - destruct (SERIAL_AVAILABLE env); cbn [negb]; rewrite ?He; run_step;
          intros [= <- _]; apply not_elem_of_nil.
      - destruct (SERIAL_AVAILABLE env); cbn [negb]; rewrite ?Hps; run_step;
          intros [= <- _]; [exact Hnot | apply not_elem_of_nil]. }
    pose proof (inert_get_serial_ports host env st) as W1.
    destruct (Cli.get_serial_ports host env st) as [[ports | e] s1] eqn:E;
      cbn [snd] in W1.
    + rewrite (bind_of_ok _ _ _ _ _ E).
      eapply same_world_trans; [| exact W1].
      apply (Hk ports). eapply Hall. reflexivity.
    + unfold bind. rewrite E. exact W1.
  - intros ports Hav Hports Hin Hprint Hopen Hdump.
    assert (E : Cli.get_serial_ports host env st = (Ok ports, st)).
    { unfold Cli.get_serial_ports. now rewrite Hav, Hports. }
    rewrite (bind_of_ok _ _ _ _ _ E).
    destruct ports as [| p ps]; [now apply elem_of_nil in Hin |].
    set (ports := p :: ps) in *.
    unfold bind at 1. cbn [emit].
    set (s2 := {| fs := fs st; trace := trace st;
                  stdout := stdout st ++ [Print "Available serial ports:"] |}).
    destruct (for_each_indexed_print_ok ports
                (fun i port => str_lit "  " ++ int_str i ++ str_lit ". "
                                 ++ port) 1 s2) as (s3 & Hlist & W3).
    { intros j x Hx. rewrite Forall_forall in Hprint.
      repeat apply printable_app; try apply printable_str_lit.
      now apply Hprint. }
    rewrite (bind_of_ok _ _ _ _ _ Hlist).
    rewrite bool_decide_eq_true_2 by exact Hin.
    unfold bind at 1.
    rewrite (save_printer_config_ok env Hopen Hdump).
    unfold bind at 1.
    rewrite (save_printer_type_ok env Hopen Hdump).
    cbn [fs trace stdout].
    assert (Htr : trace s3 = trace st).
    { destruct W3 as [_ ->]. reflexivity. }
    assert (Hconf : printable (str_lit "Configured: " ++ c :: d)).
    { apply printable_app; [apply printable_str_lit |].
      rewrite Forall_forall in Hprint. now apply Hprint. }
    destruct Hconf as [bytes Hbytes].
    unfold Cli.print_str. rewrite Hbytes. cbn [emit].
    eexists. split; [reflexivity |]. cbn [trace fs].
    split; [exact Htr |]. eapply loads_of_store. cbn [fs]. reflexivity.
Qed.

(** A listed port is stored; a port that is not listed is not. *)
Lemma cli_config_serial_accepts_listed_ports_witness :
  (exists st',
     Cli.cli_interface sample_host Sample.env
       (Cli.cmd_config Cli.config_serial (Some (str_lit "/dev/ttyS0")))
       Sample.fresh = (Ok tt, st') /\
     fst (PrinterManager.load_printer_config
            (PrinterConfig.DEVICE_CONFIG_FILE Sample.env) st')
       = Ok (JStr (str_lit "/dev/ttyS0"))) /\
  same_world
    (snd (Cli.cli_interface sample_host Sample.env
            (Cli.cmd_config Cli.config_serial (Some (str_lit "COM3")))
            Sample.serial_configured)) Sample.serial_configured.
Proof.
  split.
  - destruct (cli_config_serial_accepts_listed_ports sample_host Sample.env
                (str_lit "/dev/ttyS0") Sample.fresh) as [_ Hsel].
    + vm_compute. discriminate.
    + destruct (Hsel [str_lit "/dev/ttyUSB0"; str_lit "/dev/ttyS0"])
        as (st' & Hrun & _ & Hload & _).
      * reflexivity.
      * reflexivity.
      * apply elem_of_cons. right. apply elem_of_cons. now left.
      * repeat constructor; apply printable_str_lit.
      * reflexivity.
      * reflexivity.
      * eauto.
  - destruct (cli_config_serial_accepts_listed_ports sample_host Sample.env
                (str_lit "COM3") Sample.serial_configured) as [Hrej _].
    + vm_compute. discriminate.
    + apply Hrej. right. right.
      exists [str_lit "/dev/ttyUSB0"; str_lit "/dev/ttyS0"].
      split; [reflexivity |].
      intros Hin. repeat (apply elem_of_cons in Hin as [Hin | Hin];
                          [vm_compute in Hin; discriminate Hin |]).
      now apply elem_of_nil in Hin.
Defined.

(** X23.  [print WORD ...] joins the words with single spaces and prints
    them as one line, without a logo and with the buzzer on; the command
    itself never raises and reports the outcome on the console.  When the
    print succeeds, the device has received that one line followed by a
    line feed, and then the trailer with the buzzer command. *)
Theorem cli_print_sends_one_line_and_rings
        (host : Host) (env : Env) (words : list (list Z)) (st : State) :
  exists (r : bool) (st1 : State),
    Printer.print_receipt env [Cli.str_join (str_lit " ") words] None true st
      = (Ok r, st1) /\
    Cli.cli_interface host env (Cli.cmd_print words) st =
      (Ok tt,
       {| fs := fs st1; trace := trace st1;
          stdout := stdout st1
                      ++ [Print (if r then "Text printed successfully"
                                 else "Failed to print text")] |}) /\
    (r = true ->
     exists t data,
       str_encode (Cli.str_join (str_lit " ") words ++ [10]) = Ok data /\
       trace st1 = trace st ++ [acquired t; EvWrite t data]
                     ++ List.map (EvWrite t) (expected_trailer true)
                     ++ [released t]).
Proof.
  destruct (print_receipt_returns env [Cli.str_join (str_lit " ") words]
              None true st) as (r & st1 & Hrun).
  exists r, st1. split; [exact Hrun |]. split.
  - cbn [Cli.cli_interface]. rewrite (bind_of_ok _ _ _ _ _ Hrun).
    destruct r; reflexivity.
  - intros ->.
    apply print_receipt_true_trace in Hrun as (t & chunks & Hchunks & T).
    unfold encoded_lines in Hchunks. cbn [res_mapM] in Hchunks.
    destruct (str_encode _) as [data |]; cbn [res_bind] in Hchunks;
      [| discriminate].
    injection Hchunks as <-. exists t, data. split; [reflexivity |].
    exact T.
Qed.

(** "print hello world" on the sample serial printer. *)
Lemma cli_print_sends_one_line_and_rings_witness :
  exists t,
    trace (snd (Cli.cli_interface sample_host Sample.env
                  (Cli.cmd_print [str_lit "hello"; str_lit "world"])
                  Sample.serial_configured))
      = [acquired t; EvWrite t (str_lit "hello world" ++ [10])]
          ++ List.map (EvWrite t) (expected_trailer true) ++ [released t].
Proof.
  destruct (cli_print_sends_one_line_and_rings sample_host Sample.env
              [str_lit "hello"; str_lit "world"] Sample.serial_configured)
    as (r & st1 & Hrun & Hcli & Htrue).
  assert (r = true) as ->.
  { assert (E : fst (Printer.print_receipt Sample.env
                       [Cli.str_join (str_lit " ")
                          [str_lit "hello"; str_lit "world"]] None true
                       Sample.serial_configured) = Ok true)
      by (vm_compute; reflexivity).
    rewrite Hrun in E. now injection E. }
  destruct (Htrue eq_refl) as (t & data & Hdata & T).
  exists t. rewrite Hcli. cbn [snd trace]. rewrite T.
  assert (data = str_lit "hello world" ++ [10]) as ->.
  { vm_compute in Hdata. injection Hdata as <-. vm_compute. reflexivity. }
  reflexivity.
Defined.

(** X24.  The commands that only show something change nothing: [list],
    [config] without [--device] and the help text leave the store and
    the devices as they were, whether or not the console accepts what is
    printed. *)
Theorem cli_listing_commands_change_nothing
        (host : Host) (env : Env) (st : State)
        (type : Cli.list_type) (kind : Cli.config_type) :
  same_world (snd (Cli.cli_interface host env (Cli.cmd_list type) st)) st /\
  same_world
    (snd (Cli.cli_interface host env (Cli.cmd_config kind None) st)) st /\
  same_world (snd (Cli.cli_interface host env Cli.no_command st)) st.
Proof.
  assert (Hu : inert (PrinterManager.get_usb_devices env))
    by apply inert_get_usb_devices.
  assert (Hs : inert (Cli.get_serial_ports host env))
    by apply inert_get_serial_ports.
  split; [| split].
  - revert st. change (inert (Cli.cli_interface host env (Cli.cmd_list type))).
    cbn [Cli.cli_interface]. apply inert_bind.
    + destruct type; try apply inert_ret;
        (apply inert_bind; [apply inert_emit | intros _];
         apply inert_bind; [exact Hu | intros devices];
         apply inert_for_each; intros x; apply inert_print_str).
    + intros _. destruct type; try apply inert_ret;
        (apply inert_bind; [apply inert_emit | intros _];
         apply inert_bind; [exact Hs | intros ports];
         apply inert_for_each; intros x; apply inert_print_str).
  - revert st.
    change (inert (Cli.cli_interface host env (Cli.cmd_config kind None))).
    destruct kind; cbn [Cli.cli_interface].
    + unfold Cli.config_usb_command.
      apply inert_bind; [exact Hu | intros devices].
      destruct devices; [apply inert_emit |].
      apply inert_bind; [apply inert_emit | intros _].
      apply inert_bind;
        [apply inert_for_each; intros x; apply inert_print_str | intros _].
      apply inert_emit.
    + unfold Cli.config_serial_command.
      apply inert_bind; [exact Hs | intros ports].
      destruct ports; [apply inert_emit |].
      apply inert_bind; [apply inert_emit | intros _].
      apply inert_bind;
        [apply inert_for_each_indexed; intros i x; apply inert_print_str
        | intros _].
      apply inert_emit.
  - apply inert_emit.
Qed.

(** ** A receipt with a broken logo, on a transport that works *)

Section BrokenLogo.
Import PrinterConfig PrinterManager Printer.
Context (env : Env).

(** The console line of a failing fetch does not depend on the transport
    or on the state. *)
Lemma logo_failure_line url :
  logo_fails env url ->
  exists o : output, forall t st,
    _print_image_from_url env url t st =
    (Ok false,
     {| fs := fs st; trace := trace st; stdout := stdout st ++ [o] |}).
Proof.
  intros Hfail.
  destruct (REQUESTS_AVAILABLE env) eqn:Hreq;
    [| eexists; intros t st; unfold _print_image_from_url; rewrite Hreq;
       run_step; reflexivity].
  destruct (PILLOW_AVAILABLE env) eqn:Hpil;
    [| eexists; intros t st; unfold _print_image_from_url;
       rewrite Hreq, Hpil; run_step; reflexivity].
  destruct Hfail as [H | [H | [(e & H) | [(status & content & H & Hs)
                                         | (content & e & H & Hd)]]]];
    try congruence.
  - eexists. intros t st. unfold _print_image_from_url.
    rewrite Hreq, Hpil. run_step. rewrite H. cbn. reflexivity.
  - eexists. intros t st. unfold _print_image_from_url.
    rewrite Hreq, Hpil. run_step. rewrite H. cbn.
    destruct (Z.eqb_spec status 200); [contradiction | cbn; reflexivity].
  - eexists. intros t st. unfold _print_image_from_url.
    rewrite Hreq, Hpil. run_step. rewrite H. cbn. rewrite Hd. cbn.
    reflexivity.
Qed.

Hypothesis writes_succeed : forall n, write_error env n = None.
Hypothesis release_succeeds : release_error env = None.

Lemma for_each_lines_exact t : forall lines chunks st,
  encoded_lines lines = Ok chunks ->
  for_each lines (fun line =>
    data <- lift (str_encode (line ++ [10])) ;; write env t data) st
  = (Ok tt, {| fs := fs st;
               trace := trace st ++ List.map (EvWrite t) chunks;
               stdout := stdout st |}).
Proof.
  induction lines as [| line lines IH]; intros chunks st Henc.
  - injection Henc as <-. destruct st. cbn. now rewrite app_nil_r.
  - unfold encoded_lines in Henc. cbn [res_mapM] in Henc.
    destruct (str_encode (line ++ [10])) as [data |] eqn:Ed;
      cbn [res_bind] in Henc; [| discriminate].
    destruct (res_mapM _ lines) as [rest |] eqn:Er;
      cbn [res_bind] in Henc; [| discriminate].
    injection Henc as <-.
    cbn [for_each]. unfold bind at 1 2, lift.
    rewrite Ed, (write_run env writes_succeed), (IH rest _ Er).
    cbn [fs trace stdout List.map]. now rewrite <- app_assoc.
Qed.

(** On a transport that accepts every write, the lines and the trailer
    are all written, and the rest of the path runs after them. *)
Lemma stream_then_exact {A} t lines (b : bool) (k : M A) chunks st :
  encoded_lines lines = Ok chunks ->
  stream_then env t lines b k st
  = k {| fs := fs st;
         trace := trace st
                    ++ List.map (EvWrite t) (chunks ++ expected_trailer b);
         stdout := stdout st |}.
Proof.
  intros Henc. unfold stream_then.
  rewrite (bind_of_ok _ _ _ _ _ (for_each_lines_exact t lines chunks st Henc)).
  cbn [seq for_each].
  unfold bind, ret.
  repeat (rewrite (write_run env writes_succeed); cbv beta iota).
  destruct b.
  - rewrite (write_run env writes_succeed). cbv beta iota.
    cbn [fs trace stdout]. f_equal. f_equal.
    rewrite map_app. unfold expected_trailer. cbn [replicate List.map app].
    now rewrite <- !app_assoc.
  - cbn [fs trace stdout]. f_equal. f_equal.
    rewrite map_app. unfold expected_trailer. cbn [replicate List.map app].
    now rewrite <- !app_assoc.
Qed.

Lemma logo_step_exact url t (o : output) st :
  url <> [] ->
  (forall t st,
     _print_image_from_url env url t st =
     (Ok false,
      {| fs := fs st; trace := trace st; stdout := stdout st ++ [o] |})) ->
  logo_step env (Some url) t st
  = (Ok tt, {| fs := fs st; trace := trace st; stdout := stdout st ++ [o] |}).
Proof.
  intros Hurl Hline. unfold logo_step.
  rewrite bool_decide_eq_false_2 by exact Hurl. cbn [negb].
  unfold bind. now rewrite Hline.
Qed.

(** The serial path, from the open port to the closed one. *)
Lemma _print_to_serial_exact port lines url (b : bool) chunks (o : output) st :
  SERIAL_AVAILABLE env = true ->
  serial_open_error env port = None ->
  encoded_lines lines = Ok chunks ->
  url <> [] ->
  (forall t st,
     _print_image_from_url env url t st =
     (Ok false,
      {| fs := fs st; trace := trace st; stdout := stdout st ++ [o] |})) ->
  _print_to_serial env (JStr port) lines (Some url) b st
  = (Ok true,
     {| fs := fs st;
        trace := trace st ++ [EvSerialOpen port]
                   ++ List.map (EvWrite (SerialPort port))
                               (chunks ++ expected_trailer b)
                   ++ [EvSerialClose port];
        stdout := stdout st ++ [o] |}).
Proof.
  intros Hav Hopen Henc Hurl Hline.
  unfold _print_to_serial. rewrite Hav. cbn [negb].
  assert (Hser : serial_Serial env (JStr port) st
                 = (Ok port, {| fs := fs st;
                               trace := trace st ++ [EvSerialOpen port];
                               stdout := stdout st |})).
  { unfold serial_Serial. rewrite Hopen. run_step. reflexivity. }
  apply try_except_of_ok.
  rewrite (bind_of_ok _ _ _ _ _ Hser).
  match goal with
  | |- bind ?m ?f ?s = ?rhs =>
      change (bind (logo_step env (Some url) (SerialPort port))
                (fun _ => stream_then env (SerialPort port) lines b
                            (serial_close env port ;; ret true)) s = rhs)
  end.
  rewrite (bind_of_ok _ _ _ _ _
             (logo_step_exact url (SerialPort port) o _ Hurl Hline)).
  rewrite (stream_then_exact _ _ _ _ chunks _ Henc).
  unfold serial_close. rewrite release_succeeds. run_step.
  f_equal. f_equal. now rewrite <- !app_assoc.
Qed.

(** The listing reaches position [i] when every device up to it can be
    described. *)
Lemma enumerate_lookup (l : list usb_device) : forall off acc i dev info,
  l !! i = Some dev ->
  (forall j dev', (j < i)%nat -> l !! j = Some dev' ->
     exists info', describe (off + j) dev' = Ok info') ->
  describe (off + i) dev = Ok info ->
  fst (enumerate off l acc) !! (length acc + i)%nat = Some info.
Proof.
  induction l as [| d l IH]; intros off acc i dev info Hi Hbefore Hdesc.
  - now rewrite lookup_nil in Hi.
  - cbn [enumerate]. destruct i as [| i].
    + cbn in Hi. injection Hi as ->.
      rewrite Nat.add_0_r in Hdesc. rewrite Hdesc.
      destruct (enumerate (S off) l (acc ++ [info])) as [out err] eqn:Ee.
      apply enumerate_spec in Ee as (infos & -> & _). cbn [fst].
      rewrite Nat.add_0_r, <- app_assoc.
      rewrite lookup_app_r by lia.
      now rewrite Nat.sub_diag.
    + destruct (Hbefore 0%nat d) as (info0 & H0); [lia | reflexivity |].
      rewrite Nat.add_0_r in H0. rewrite H0.
      replace (length acc + S i)%nat with (length (acc ++ [info0]) + i)%nat
        by (rewrite length_app; cbn; lia).
      apply (IH (S off) (acc ++ [info0]) i dev info).
      * exact Hi.
      * intros j dev' Hj Hl.
        replace (S off + j)%nat with (off + S j)%nat by lia.
        apply (Hbefore (S j) dev'); [lia | exact Hl].
      * now replace (S off + i)%nat with (off + S i)%nat by lia.
Qed.

(** The USB path, from the listing to the released device. *)
Lemma _print_to_usb_exact s l i dev info intf addr lines url (b : bool)
      chunks (o : output) st :
  USB_AVAILABLE env = true ->
  startswith_digit s = true ->
  usb_core_find env = Ok l ->
  l !! i = Some dev ->
  (forall j dev', (j < i)%nat -> l !! j = Some dev' ->
     exists info', describe j dev' = Ok info') ->
  describe i dev = Ok info ->
  description info = s ->
  set_configuration_error dev = None ->
  interface00 dev = Ok intf ->
  List.find (fun e => endpoint_direction e =? ENDPOINT_OUT) intf
    = Some addr ->
  encoded_lines lines = Ok chunks ->
  url <> [] ->
  (forall t st,
     _print_image_from_url env url t st =
     (Ok false,
      {| fs := fs st; trace := trace st; stdout := stdout st ++ [o] |})) ->
  exists st',
    _print_to_usb env (JStr s) lines (Some url) b st = (Ok true, st') /\
    fs st' = fs st /\
    trace st' = trace st ++ [EvSetConfiguration i]
                  ++ List.map (EvWrite (Endpoint i addr))
                              (chunks ++ expected_trailer b)
                  ++ [EvDisposeResources i] /\
    exists pre, stdout st' = pre ++ [o].
Proof.
  intros Hav Hdig Hl Hi Hbefore Hdesc Hs Hconf Hintf Hout Henc Hurl Hline.
  destruct (get_usb_devices_ok env st) as (devices & st1 & Hget & Hfs & Htr).
  assert (Hin : devices !! i = Some info).
  { revert Hget. unfold get_usb_devices. rewrite Hav, Hl. cbn [negb].
    pose proof (enumerate_lookup l 0 [] i dev info Hi Hbefore Hdesc) as Hlook.
    destruct (enumerate 0 l []) as [out [e |]]; cbn [fst length] in Hlook;
      run_step; intros [= <- _]; exact Hlook. }
  rewrite (_print_to_usb_after_listing env s lines (Some url) b st devices st1
             Hav Hdig Hget).
  destruct (find_device_spec env s devices 0 st1)
    as [[_ Hnone] | (k & info' & l' & dev' & Hk & Hs' & _ & Hl' & Hd' & Hdesc'
                     & Hfind)].
  { apply aligned_from_0. exact (get_usb_devices_aligned _ _ _ _ Hget). }
  { exfalso. apply (Hnone info); [| exact Hs].
    exact (list_elem_of_lookup_2 _ _ _ Hin). }
  cbn [Nat.add] in Hd', Hdesc', Hfind.
  assert (i = k) as <-
    by (apply (describe_same_description _ _ _ _ _ _ Hdesc Hdesc');
        congruence).
  assert (l' = l) as -> by congruence.
  assert (dev' = dev) as -> by congruence.
  eexists. split.
  - apply try_except_of_ok.
    rewrite (bind_of_ok _ _ _ _ _ Hfind). cbn [device_truthy negb].
    unfold set_configuration. rewrite Hconf.
    unfold bind at 1. unfold record at 1.
    unfold bind at 1. unfold get_interface, lift. cbv beta iota.
    rewrite Hintf, Hout.
    rewrite (bind_of_ok _ _ _ _ _
               (logo_step_exact url (Endpoint i addr) o _ Hurl Hline)).
    rewrite (stream_then_exact _ _ _ _ chunks _ Henc).
    unfold dispose_resources. rewrite release_succeeds. run_step.
    reflexivity.
  - cbn [fs trace stdout]. split; [exact Hfs |]. split.
    + rewrite Htr, <- !app_assoc. reflexivity.
    + eauto.
Qed.

End BrokenLogo.

(** C5.  On a configured transport that works (a serial port that opens,
    or the described USB device with an OUT endpoint; every write and the
    release succeed), a logo URL whose fetch or decoding fails does not
    turn the print into a failure: the helper returns [False] after one
    console line, without raising and without touching a device, and
    [print_receipt] returns [True] after acquiring the transport, writing
    every text line and the full trailer (five line feeds, cut, line
    feed, and the buzzer if requested) and releasing it.  The line of the
    failure is the last one on the console; the value returned and the
    device trace are those of the call without a logo. *)
Theorem logo_failure_is_not_fatal (env : Env) (st st1 st2 : State)
        (cfg kind : json) (t : transport)
        (lines : list (list Z)) (chunks : list (list Z))
        (url : list Z) (buzzer : bool) :
  url <> [] ->
  logo_fails env url ->
  PrinterManager.load_printer_config
    (PrinterConfig.DEVICE_CONFIG_FILE env) st = (Ok cfg, st1) ->
  PrinterManager.load_printer_type
    (PrinterConfig.TYPE_CONFIG_FILE env) st1 = (Ok kind, st2) ->
  truthy cfg = true ->
  transport_ready env cfg kind t ->
  encoded_lines lines = Ok chunks ->
  exists (o : output) (st' : State),
    (forall t0 s,
       Printer._print_image_from_url env url t0 s =
       (Ok false,
        {| fs := fs s; trace := trace s; stdout := stdout s ++ [o] |})) /\
    Printer.print_receipt env lines (Some url) buzzer st = (Ok true, st') /\
    fs st' = fs st /\
    trace st' = trace st ++ [acquired t]
                  ++ List.map (EvWrite t) chunks
                  ++ List.map (EvWrite t) (expected_trailer buzzer)
                  ++ [released t] /\
    (exists pre, stdout st' = pre ++ [o]) /\
    fst (Printer.print_receipt env lines None buzzer st) = Ok true /\
    trace (snd (Printer.print_receipt env lines None buzzer st)) = trace st'.
Proof.
  intros Hurl Hfail Hc Hk Htruthy (Hwrites & Hrelease & Hready) Henc.
  destruct (logo_failure_line env url Hfail) as (o & Hline).
  destruct (load_printer_config_returns
              (PrinterConfig.DEVICE_CONFIG_FILE env) st)
    as (cfg' & st1' & Hc' & [F1 T1]).
  rewrite Hc in Hc'. injection Hc' as <- <-.
  destruct (load_printer_type_returns
              (PrinterConfig.TYPE_CONFIG_FILE env) st1)
    as (kind' & st2' & Hk' & [F2 T2]).
  rewrite Hk in Hk'. injection Hk' as <- <-.
  assert (Hrun : exists st',
            Printer.print_receipt env lines (Some url) buzzer st
              = (Ok true, st') /\
            fs st' = fs st /\
            trace st' = trace st ++ [acquired t]
                          ++ List.map (EvWrite t) chunks
                          ++ List.map (EvWrite t) (expected_trailer buzzer)
                          ++ [released t] /\
            exists pre, stdout st' = pre ++ [o]).
  { rewrite (print_receipt_after_loads _ _ _ _ _ _ _ _ _ Hc Hk), Htruthy.
    cbn [negb].
    destruct (eq_str kind (str_lit "serial")).
    - destruct Hready as (Hav & port & -> & Hopen & ->).
      rewrite (_print_to_serial_exact env Hwrites Hrelease port lines url
                 buzzer chunks o st2 Hav Hopen Henc Hurl Hline).
      eexists. split; [reflexivity |]. cbn [fs trace stdout acquired released].
      split; [congruence |]. split; [| eauto].
      rewrite T2, T1, map_app, <- !app_assoc. reflexivity.
    - destruct Hready as (Hav & s & l & i & dev & info & intf & addr & ->
                          & Hdig & Hl & Hi & Hbefore & Hdesc & Hs & Hconf
                          & Hintf & Hout & ->).
      destruct (_print_to_usb_exact env Hwrites Hrelease s l i dev info intf
                  addr lines url buzzer chunks o st2 Hav Hdig Hl Hi Hbefore
                  Hdesc Hs Hconf Hintf Hout Henc Hurl Hline)
        as (st' & Hrun & F & T & Hout').
      exists st'. split; [exact Hrun |]. cbn [acquired released].
      split; [congruence |]. split; [| exact Hout'].
      rewrite T, T2, T1, map_app, <- !app_assoc. reflexivity. }
  destruct Hrun as (st' & Hrun & F & T & Hcon).
  exists o, st'.
  destruct (print_receipt_logo_irrelevant env lines (Some url) buzzer st)
    as [Hres [_ Htr]].
  rewrite Hrun in Hres, Htr. cbn [fst snd] in Hres, Htr.
  repeat split; try assumption; try congruence.
Qed.

(** The network is down; a serial printer, and a USB printer listed at
    position 0 with its OUT endpoint at address 2. *)
Lemma logo_failure_is_not_fatal_witness :
  (exists st',
     Printer.print_receipt Sample.env [str_lit "hello"]
       (Some (str_lit "http://logo")) true Sample.serial_configured
       = (Ok true, st') /\
     trace st' =
       [ EvSerialOpen (str_lit "/dev/ttyUSB0");
         EvWrite (SerialPort (str_lit "/dev/ttyUSB0"))
                 (str_lit "hello" ++ [10]) ]
       ++ List.map (EvWrite (SerialPort (str_lit "/dev/ttyUSB0")))
                   (expected_trailer true)
       ++ [ EvSerialClose (str_lit "/dev/ttyUSB0") ]) /\
  (exists st',
     Printer.print_receipt Sample.env [str_lit "hello"]
       (Some (str_lit "http://logo")) false Sample.usb_configured
       = (Ok true, st') /\
     trace st' =
       [ EvSetConfiguration 0;
         EvWrite (Endpoint 0 2) (str_lit "hello" ++ [10]) ]
       ++ List.map (EvWrite (Endpoint 0 2)) (expected_trailer false)
       ++ [ EvDisposeResources 0 ]).
Proof.
  split.
  - destruct (logo_failure_is_not_fatal Sample.env Sample.serial_configured
                Sample.serial_configured Sample.serial_configured
                (JStr (str_lit "/dev/ttyUSB0")) (JStr (str_lit "serial"))
                (SerialPort (str_lit "/dev/ttyUSB0"))
                [str_lit "hello"] [str_lit "hello" ++ [10]]
                (str_lit "http://logo") true)
      as (o & st' & _ & Hrun & _ & T & _).
    + vm_compute. discriminate.
    + right. right. left. exists RequestException. reflexivity.
    + vm_compute. reflexivity.
    + vm_compute. reflexivity.
    + vm_compute. reflexivity.
    + split; [reflexivity |]. split; [reflexivity |].
      split; [reflexivity |].
      exists (str_lit "/dev/ttyUSB0"). repeat split; reflexivity.
    + vm_compute. reflexivity.
    + exists st'. split; [exact Hrun |]. rewrite T. reflexivity.
  - destruct (logo_failure_is_not_fatal Sample.env Sample.usb_configured
                Sample.usb_configured Sample.usb_configured
                (JStr (str_lit "1. 001-004: ACME TM-20"))
                (JStr (str_lit "usb")) (Endpoint 0 2)
                [str_lit "hello"] [str_lit "hello" ++ [10]]
                (str_lit "http://logo") false)
      as (o & st' & _ & Hrun & _ & T & _).
    + vm_compute. discriminate.
    + right. right. left. exists RequestException. reflexivity.
    + vm_compute. reflexivity.
    + vm_compute. reflexivity.
    + vm_compute. reflexivity.
    + split; [reflexivity |]. split; [reflexivity |].
      split; [reflexivity |].
      exists (str_lit "1. 001-004: ACME TM-20"), [Sample.printer], 0%nat,
        Sample.printer, sample_entry, [0x81; 0x02], 2.
      split; [reflexivity |]. split; [vm_compute; reflexivity |].
      split; [reflexivity |]. split; [reflexivity |].
      split; [intros j dev' Hj; lia |].
      split; [vm_compute; reflexivity |].
      split; [reflexivity |]. split; [reflexivity |].
      split; [reflexivity |]. split; [vm_compute; reflexivity |].
      reflexivity.
    + vm_compute. reflexivity.
    + exists st'. split; [exact Hrun |]. rewrite T. reflexivity.
Defined.
